(** * fetch_fred_data.py: the per-series fetch, clean and export loop

    A shallow embedding of [get_fred_series_and_export_csv] from
    [fetch_fred_data.py].  The function walks a dict of display names and
    series identifiers; for each entry it issues one HTTP GET, decodes the
    JSON body, loads the observations into a pandas frame, drops two
    columns, converts the [date] and [value] columns, counts the values
    that became missing, renames the value column and writes a CSV file.
    Every exception of an iteration is caught by one of three [except]
    clauses.  The module body around the function (the key read from the
    environment, the catalog of series, the call and the last line) is
    embedded as [script].

    What the script does itself (control flow, the running counter, the
    column bookkeeping, the file name, the order of effects) is modelled
    concretely.  What [requests] and [pandas] decide (the response of the
    server, which strings are dates or numbers and how a timestamp or a
    float is printed, whether a path can be opened for writing) is taken
    from an environment record [Env]; what Python's Unicode tables give as
    the lower case of a name that is not ASCII is taken from the class
    [Unicode]. *)

From Stdlib Require Import Ascii.
From stdpp Require Import gmap strings list fin_maps pretty.

(** ** Strings

    A string is the sequence of the bytes of its UTF-8 text.  On such text
    [str.replace] of one ASCII character by another, concatenation,
    equality and the substring test work byte by byte.  [str.lower] does so
    on ASCII text; what it gives on a string with a character beyond ASCII
    is decided by Python's Unicode tables, and is taken from the class
    [Unicode].  [str_replace] is [str.replace] for single characters. *)

Definition is_upper (c : ascii) : bool :=
  (65 <=? nat_of_ascii c) && (nat_of_ascii c <=? 90).

Definition lower_char (c : ascii) : ascii :=
  if is_upper c then ascii_of_nat (nat_of_ascii c + 32) else c.

Fixpoint str_map (f : ascii → ascii) (s : string) : string :=
  match s with
  | EmptyString => EmptyString
  | String c s' => String (f c) (str_map f s')
  end.

(** The text is ASCII: every byte is below 128. *)
Fixpoint is_ascii (s : string) : bool :=
  match s with
  | EmptyString => true
  | String c s' => (nat_of_ascii c <? 128) && is_ascii s'
  end.

(** [s.lower()] for a string [s] that is not ASCII, as Python's Unicode
    tables give it. *)
Class Unicode := lower_beyond_ascii : string → string.

(** [s.lower()] *)
Definition str_lower {tables : Unicode} (s : string) : string :=
  if is_ascii s then str_map lower_char s else lower_beyond_ascii s.

Definition replace_char (old new c : ascii) : ascii :=
  if Ascii.eqb c old then new else c.

(** [s.replace(old, new)] for one-character [old] and [new]. *)
Definition str_replace (old new : ascii) (s : string) : string :=
  str_map (replace_char old new) s.

Fixpoint str_has_char (p : ascii → bool) (s : string) : bool :=
  match s with
  | EmptyString => false
  | String c s' => p c || str_has_char p s'
  end.

(** [sub in s] on strings: [sub] occurs as a contiguous substring. *)
Fixpoint str_contains (sub s : string) : bool :=
  String.prefix sub s ||
  match s with
  | EmptyString => false
  | String _ s' => str_contains sub s'
  end.

Fixpoint str_join (sep : string) (l : list string) : string :=
  match l with
  | [] => ""
  | [x] => x
  | x :: l' => x +:+ sep +:+ str_join sep l'
  end.

Fixpoint str_concat (l : list string) : string :=
  match l with
  | [] => ""
  | x :: l' => x +:+ str_concat l'
  end.

(** ** Exceptions

    Only the [Exception] hierarchy is modelled; [KeyboardInterrupt] and
    [SystemExit] are termination of the process from outside.  The class
    recorded is the one that decides which [except] clause fires:
    [RequestException] covers its subclasses ([HTTPError],
    [ConnectionError], the JSON decoding error of [requests]), and
    [ValueError] covers its own.  The message stands for [str(e)]; no
    property below depends on its text. *)

Inductive exn_class :=
  | RequestException
  | ValueError
  | KeyError
  | TypeError
  | OSError
  | OtherException.

Record exn := Exn { exn_cls : exn_class; exn_msg : string }.

(** ** Python values as [response.json()] returns them *)

#[local] Unset Elimination Schemes.
Inductive pyobj :=
  | PyNone
  | PyBool (b : bool)
  | PyInt (z : Z)
  | PyFloat (m e : Z)          (* the finite float m * 2^e *)
  | PyStr (s : string)
  | PyList (l : list pyobj)
  | PyDict (d : list (string * pyobj)).
#[local] Set Elimination Schemes.

(** A dict is kept as an association list in insertion order; a key is
    looked up at its first entry. *)
Fixpoint dict_get {A} (k : string) (d : list (string * A)) : option A :=
  match d with
  | [] => None
  | (k', v) :: d' => if String.eqb k k' then Some v else dict_get k d'
  end.

Definition dict_keys {A} (d : list (string * A)) : list string := d.*1.

Definition dict_has {A} (k : string) (d : list (string * A)) : bool :=
  existsb (String.eqb k) (dict_keys d).

(** [bool(o)], as [not o] uses it. *)
Definition truthy (o : pyobj) : bool :=
  match o with
  | PyNone => false
  | PyBool b => b
  | PyInt z => negb (z =? 0)%Z
  | PyFloat m _ => negb (m =? 0)%Z
  | PyStr s => negb (String.eqb s "")
  | PyList l => match l with [] => false | _ => true end
  | PyDict d => match d with [] => false | _ => true end
  end.

Definition is_str (k : string) (o : pyobj) : bool :=
  match o with
  | PyStr s => String.eqb k s
  | _ => false
  end.

(** [k in data]: key membership for a dict, element equality for a list,
    substring for a string, [TypeError] for everything else. *)
Definition py_in (k : string) (data : pyobj) : exn + bool :=
  match data with
  | PyDict d => inr (dict_has k d)
  | PyList l => inr (existsb (is_str k) l)
  | PyStr s => inr (str_contains k s)
  | _ => inl (Exn TypeError "argument is not iterable")
  end.

(** [data[k]] for a string key [k]. *)
Definition py_getitem (k : string) (data : pyobj) : exn + pyobj :=
  match data with
  | PyDict d =>
      match dict_get k d with
      | Some v => inr v
      | None => inl (Exn KeyError ("'" +:+ k +:+ "'"))
      end
  | _ => inl (Exn TypeError "indices must be integers")
  end.

(** ** HTTP responses *)

Record Response := { status_code : Z; json : exn + pyobj }.

(** [response.raise_for_status()]: 4xx and 5xx raise [HTTPError]. *)
Definition raise_for_status (r : Response) : exn + unit :=
  if (400 <=? status_code r)%Z && (status_code r <? 600)%Z
  then inl (Exn RequestException "HTTPError")
  else inr tt.

(** ** Frames

    A cell is a Python object as parsed, a missing value ([NaN], [NaT]), a
    timestamp or a number.  The types [T] of timestamps and [N] of numbers
    are those of the environment: the script only moves such values from
    pandas' parsers to pandas' CSV writer. *)

Inductive cell (T N : Type) :=
  | CNaN
  | CObj (o : pyobj)
  | CDate (t : T)
  | CNum (v : N).
Arguments CNaN {T N}.
Arguments CObj {T N} o.
Arguments CDate {T N} t.
Arguments CNum {T N} v.

(** A column label: a string, or a position when pandas numbers the
    columns itself. *)
Inductive label :=
  | Name (s : string)
  | Pos (i : nat).

#[global] Instance label_eq_dec : EqDecision label.
Proof. solve_decision. Defined.

Definition show_label (l : label) : string :=
  match l with
  | Name s => s
  | Pos i => pretty i
  end.

(** A frame: the length of its index and its columns in order. *)
Record DataFrame (T N : Type) := mkFrame {
  index : nat;
  columns : list (label * list (cell T N))
}.
Arguments mkFrame {T N} index columns.
Arguments index {T N} d.
Arguments columns {T N} d.

Section Frame.
Context {T N : Type}.
Implicit Types (df : DataFrame T N) (col vals : list (cell T N)) (c : cell T N).

Definition labels df : list label := (columns df).*1.

(** [col in df.columns] *)
Definition has_column (l : label) df : bool :=
  bool_decide (l ∈ labels df).

(** [df.empty]: some axis has length zero. *)
Definition df_empty df : bool :=
  bool_decide (index df = 0) || bool_decide (columns df = []).

(** [len(df)] *)
Definition df_len df : nat := index df.

(** The list of dicts that a list of JSON objects is. *)
Definition as_record (o : pyobj) : option (list (string * pyobj)) :=
  match o with
  | PyDict d => Some d
  | _ => None
  end.

Definition as_records (o : pyobj) : option (list (list (string * pyobj))) :=
  match o with
  | PyList l => mapM as_record l
  | _ => None
  end.

(** The keys of all records in order of first appearance; [seen] holds
    the keys already taken. *)
Fixpoint unique_in_order (seen l : list string) : list string :=
  match l with
  | [] => []
  | k :: l' =>
      if bool_decide (k ∈ seen) then unique_in_order seen l'
      else k :: unique_in_order (k :: seen) l'
  end.

Definition union_keys (recs : list (list (string * pyobj))) : list string :=
  unique_in_order [] (concat (dict_keys <$> recs)).

Definition record_cell (k : string) (r : list (string * pyobj)) : cell T N :=
  match dict_get k r with
  | Some v => CObj v
  | None => CNaN
  end.

(** [pd.DataFrame(records)]: one row per record, one column per key, a
    missing value where a record lacks the key. *)
Definition frame_of_records (recs : list (list (string * pyobj))) : DataFrame T N :=
  mkFrame (length recs)
          ((λ k, (Name k, record_cell k <$> recs)) <$> union_keys recs).

(** [df.drop(columns=cols)]: [KeyError] when a label is not a column. *)
Definition df_drop (cols : list string) df : exn + DataFrame T N :=
  match filter (λ k, Name k ∉ labels df) cols with
  | k :: _ => inl (Exn KeyError ("['" +:+ k +:+ "'] not found in axis"))
  | [] =>
      inr (mkFrame (index df)
             (filter (λ lc, lc.1 ∉ Name <$> cols) (columns df)))
  end.

(** The first column under a label. *)
Fixpoint lookup_column (l : label) (cols : list (label * list (cell T N)))
  : option (list (cell T N)) :=
  match cols with
  | [] => None
  | (l', col) :: cols' =>
      if bool_decide (l = l') then Some col else lookup_column l cols'
  end.

(** [df[k]] *)
Definition df_getitem (k : string) df : exn + list (cell T N) :=
  match lookup_column (Name k) (columns df) with
  | Some col => inr col
  | None => inl (Exn KeyError ("'" +:+ k +:+ "'"))
  end.

(** [df[k] = vals]: an existing column keeps its place, a new one goes
    last. *)
Definition df_setitem (k : string) vals df : DataFrame T N :=
  if has_column (Name k) df
  then mkFrame (index df)
         ((λ lc, if bool_decide (lc.1 = Name k) then (lc.1, vals) else lc)
            <$> columns df)
  else mkFrame (index df) (columns df ++ [(Name k, vals)]).

(** [df.rename(columns={old: new})] *)
Definition df_rename (old new : string) df : DataFrame T N :=
  mkFrame (index df)
    ((λ lc, if bool_decide (lc.1 = Name old) then (Name new, lc.2) else lc)
       <$> columns df).

(** The frame with every column cut or padded to the length of the index. *)
Definition reindex df : DataFrame T N :=
  mkFrame (index df)
    ((λ lc, (lc.1, resize (index df) CNaN lc.2)) <$> columns df).

(** Every column has one cell per index position. *)
Definition well_formed df : Prop :=
  Forall (λ lc, length lc.2 = index df) (columns df).

(** [isna()] on a cell: missing values and [None]. *)
Definition isna c : bool :=
  match c with
  | CNaN => true
  | CObj PyNone => true
  | _ => false
  end.

(** [col.isna().sum()] *)
Definition isna_sum col : nat :=
  length (filter (λ c, isna c = true) col).
End Frame.

(** ** The environment: what [requests], [pandas] and the file system decide *)

Record Env (T N : Type) := mkEnv {
  (** [date.today().strftime('%Y-%m-%d')] *)
  today : string;
  (** [requests.get(url)]: a response, or the exception raised *)
  requests_get : string → exn + Response;
  (** [pd.DataFrame(obj)] for an [obj] that is not a list of dicts *)
  pd_DataFrame_other : pyobj → exn + DataFrame T N;
  (** [pd.to_datetime(col)]: the exception raised on a column, if any,
      and otherwise the timestamp of each cell ([None] is [NaT]); both may
      depend on the whole column *)
  to_datetime_raises : list (cell T N) → option exn;
  to_datetime_value : list (cell T N) → cell T N → option T;
  (** [pd.to_numeric(col, errors='coerce')] on one cell; [None] is [NaN] *)
  to_numeric_value : cell T N → option N;
  (** how [to_csv] prints a timestamp, a number or another object of a
      column *)
  format_value : list (cell T N) → cell T N → string;
  (** opening a path for writing: the exception raised, if any *)
  open_for_writing : string → option exn
}.
Arguments today {T N} e.
Arguments requests_get {T N} e url.
Arguments pd_DataFrame_other {T N} e obj.
Arguments to_datetime_raises {T N} e col.
Arguments to_datetime_value {T N} e col c.
Arguments to_numeric_value {T N} e c.
Arguments format_value {T N} e col c.
Arguments open_for_writing {T N} e path.

(** ** CSV text, as [csv.writer] with [QUOTE_MINIMAL] produces it

    A field is quoted when it holds the delimiter, the quote character or
    a character of the line terminator, which is a line feed. *)

Definition dquote : ascii := "034"%char.
Definition newline : string := String "010"%char EmptyString.

Definition csv_special (c : ascii) : bool :=
  Ascii.eqb c ","%char || Ascii.eqb c dquote || Ascii.eqb c "010"%char.

Fixpoint double_quotes (s : string) : string :=
  match s with
  | EmptyString => EmptyString
  | String c s' =>
      if Ascii.eqb c dquote then String dquote (String dquote (double_quotes s'))
      else String c (double_quotes s')
  end.

Definition csv_field (s : string) : string :=
  if str_has_char csv_special s
  then String dquote (double_quotes s +:+ String dquote EmptyString)
  else s.

(** One record; a record that is a single empty field is written quoted. *)
Definition csv_line (fields : list string) : string :=
  match fields with
  | [EmptyString] => String dquote (String dquote newline)
  | _ => str_join "," (csv_field <$> fields) +:+ newline
  end.

Definition csv_text (table : list (list string)) : string :=
  str_concat (csv_line <$> table).

Section Pandas.
Context {T N : Type} (E : Env T N) {tables : Unicode}.
Implicit Types (df : DataFrame T N) (col : list (cell T N)) (c : cell T N).

(** [pd.DataFrame(obj)].  Every column of a frame has one cell per index
    position: a frame the environment supplies is read that way. *)
Definition pd_DataFrame (obj : pyobj) : exn + DataFrame T N :=
  match as_records obj with
  | Some recs => inr (frame_of_records recs)
  | None =>
      match pd_DataFrame_other E obj with
      | inr df => inr (reindex df)
      | inl e => inl e
      end
  end.

(** [pd.to_datetime(col)] *)
Definition to_datetime col : exn + list (cell T N) :=
  match to_datetime_raises E col with
  | Some e => inl e
  | None =>
      inr ((λ c, match to_datetime_value E col c with
                 | Some t => CDate t
                 | None => CNaN
                 end) <$> col)
  end.

(** [pd.to_numeric(col, errors='coerce')] *)
Definition to_numeric_coerce col : list (cell T N) :=
  (λ c, match to_numeric_value E c with
        | Some v => CNum v
        | None => CNaN
        end) <$> col.

(** The text of a cell in the CSV: nothing for a missing value, a string
    as it is. *)
Definition render col c : string :=
  match c with
  | CNaN => ""
  | CObj PyNone => ""
  | CObj (PyStr s) => s
  | _ => format_value E col c
  end.

Definition csv_header df : list string := show_label <$> labels df.

Definition csv_row df (i : nat) : list string :=
  (λ lc, render lc.2 (nth i lc.2 CNaN)) <$> columns df.

(** The table [df.to_csv(path, index=False)] writes: the header, then one
    record per index position. *)
Definition csv_table df : list (list string) :=
  csv_header df :: (csv_row df <$> seq 0 (index df)).
End Pandas.

(** ** What is printed *)

Inductive line :=
  | Attempting (name series_id : string)
  | NoObservations (series_id : string)
  | FoundNA (n : nat) (series_id : string)
  | NoValidNumeric (series_id : string)
  | Saved (n : nat) (filename : string)
  | RequestError (series_id : string) (e : exn)
  | ProcessingError (series_id : string) (e : exn)
  | UnexpectedError (series_id : string) (e : exn)
  | Completed
  | TotalNA (n : nat).

(** The text of each [print] call. *)
Definition show_line (l : line) : string :=
  match l with
  | Attempting name series_id =>
      "Attempting to retrieve data for series: '" +:+ name +:+
      "' (ID: " +:+ series_id +:+ ")"
  | NoObservations series_id =>
      "No observations found for series ID: " +:+ series_id +:+
      " or response structure unexpected."
  | FoundNA n series_id =>
      "  Found " +:+ pretty n +:+ " NA values for series: " +:+ series_id
  | NoValidNumeric series_id =>
      "No valid numeric observations found for series ID: " +:+ series_id +:+
      " after cleaning."
  | Saved n filename =>
      "Successfully retrieved and saved " +:+ pretty n +:+
      " observations to " +:+ filename
  | RequestError series_id e =>
      "Error making API request for '" +:+ series_id +:+ "': " +:+ exn_msg e
  | ProcessingError series_id e =>
      "Error parsing JSON or processing data for '" +:+ series_id +:+ "': " +:+
      exn_msg e
  | UnexpectedError series_id e =>
      "An unexpected error occurred for '" +:+ series_id +:+ "': " +:+ exn_msg e
  | Completed => newline +:+ "--- Data Fetching Process Completed ---"
  | TotalNA n =>
      "Total number of NA values found across all fetched series: " +:+ pretty n
  end.

(** ** State and exceptions

    The state threaded through the function: its local counter, the lines
    printed so far and the files on disk.  A computation returns a value or
    the exception it raised, and in both cases the state it reached: what
    was counted, printed or written before a [raise] stays.

    A file is kept under the path it was written to, as a string.  Two
    strings may name one file on disk ([data/a.csv] and [data/./a.csv]);
    the store does not identify them, so what is said of the files of
    several names at once is said of names for which this cannot happen:
    ASCII names without a slash, which give the paths of distinct entries
    of the [data] folder as soon as the paths differ. *)

Record state := mkState {
  total_nas_found : nat;
  stdout : list line;
  files : gmap string string
}.

Definition M (A : Type) : Type := state → (exn + A) * state.

#[global] Instance M_ret : MRet M := λ A a s, (inr a, s).

#[global] Instance M_bind : MBind M := λ A B f m s,
  match m s with
  | (inr a, s') => f a s'
  | (inl e, s') => (inl e, s')
  end.

(** A call that returns or raises without touching the state. *)
Definition call {A} (r : exn + A) : M A := λ s, (r, s).

Definition print (l : line) : M unit := λ s,
  (inr tt, mkState (total_nas_found s) (stdout s ++ [l]) (files s)).

Definition set_total (n : nat) : M unit := λ s,
  (inr tt, mkState n (stdout s) (files s)).

Definition get_total : M nat := λ s, (inr (total_nas_found s), s).

(** [try: body except ...: handler] *)
Definition try_except {A} (body : M A) (handler : exn → M A) : M A := λ s,
  match body s with
  | (inl e, s') => handler e s'
  | r => r
  end.

Section Exporter.
Context {T N : Type} (E : Env T N) {tables : Unicode}.

(** [df.to_csv(path, index=False)] *)
Definition to_csv (df : DataFrame T N) (path : string) : M unit := λ s,
  match open_for_writing E path with
  | Some e => (inl e, s)
  | None =>
      (inr tt,
       mkState (total_nas_found s) (stdout s)
               (<[path := csv_text (csv_table E df)]> (files s)))
  end.

Definition base_url : string :=
  "https://api.stlouisfed.org/fred/series/observations".

Definition data_folder : string := "data".

Definition columns_to_drop : list string := ["realtime_start"; "realtime_end"].

Definition api_url (series_id api_key start_date end_date : string) : string :=
  base_url +:+ "?series_id=" +:+ series_id +:+ "&api_key=" +:+ api_key +:+
  "&file_type=json" +:+ "&observation_start=" +:+ start_date +:+
  "&observation_end=" +:+ end_date.

(** [f"{data_folder}/{name.lower().replace(' ', '_')}.csv"] *)
Definition filename (name : string) : string :=
  data_folder +:+ "/" +:+ str_replace " "%char "_"%char (str_lower name) +:+ ".csv".

(** Lines 39 to 69: the body of the [try] block.  A [continue] ends the
    block where it stands. *)
Definition try_block (name series_id api_key start_date end_date : string)
  : M unit :=
  response ← call (requests_get E (api_url series_id api_key start_date end_date));
  call (raise_for_status response);;
  data ← call (json response);
  present ← call (py_in "observations" data);
  falsy ← (if present : bool
           then observations ← call (py_getitem "observations" data);
                mret (negb (truthy observations))
           else mret true);
  if falsy : bool then print (NoObservations series_id)
  else
    observations ← call (py_getitem "observations" data);
    df ← call (pd_DataFrame E observations);
    df ← call (df_drop (filter (λ k, has_column (Name k) df = true) columns_to_drop) df);
    date ← call (df_getitem "date" df);
    date ← call (to_datetime E date);
    let df := df_setitem "date" date df in
    value ← call (df_getitem "value" df);
    let df := df_setitem "value" (to_numeric_coerce E value) df in
    value ← call (df_getitem "value" df);
    let nas_in_current_series := isna_sum value in
    total ← get_total;
    set_total (total + nas_in_current_series);;
    (if bool_decide (0 < nas_in_current_series)
     then print (FoundNA nas_in_current_series series_id)
     else mret tt);;
    let df := df_rename "value" series_id df in
    if df_empty df then print (NoValidNumeric series_id)
    else
      to_csv df (filename name);;
      print (Saved (df_len df) (filename name)).

(** The three [except] clauses, in order. *)
Definition handler (series_id : string) (e : exn) : M unit :=
  match exn_cls e with
  | RequestException => print (RequestError series_id e)
  | ValueError => print (ProcessingError series_id e)
  | _ => print (UnexpectedError series_id e)
  end.

(** One iteration of the [for] loop. *)
Definition iteration (api_key start_date end_date : string)
    (item : string * string) : M unit :=
  let '(name, series_id) := item in
  print (Attempting name series_id);;
  try_except (try_block name series_id api_key start_date end_date)
             (handler series_id).

Fixpoint for_each {A} (items : list A) (body : A → M unit) : M unit :=
  match items with
  | [] => mret tt
  | x :: rest => body x;; for_each rest body
  end.

(** The function.  [series_ids_dict] is the dict in insertion order. *)
Definition get_fred_series_and_export_csv
    (series_ids_dict : list (string * string)) (api_key start_date : string)
  : M unit :=
  let end_date := today E in
  set_total 0;;
  for_each series_ids_dict (iteration api_key start_date end_date);;
  print Completed;;
  total ← get_total;
  print (TotalNA total).
End Exporter.

(** ** Reading a run *)

(** The state a computation ends in, and what it returned or raised. *)
Definition exec {A} (m : M A) (s : state) : state := (m s).2.
Definition result {A} (m : M A) (s : state) : exn + A := (m s).1.

(** The series a printed line announces. *)
Definition attempted (l : line) : option (string * string) :=
  match l with
  | Attempting name series_id => Some (name, series_id)
  | _ => None
  end.

(** The count a printed line reports for one series. *)
Definition found (l : line) : nat :=
  match l with
  | FoundNA n _ => n
  | _ => 0
  end.

(** The line an [except] clause prints. *)
Definition is_error_line (l : line) : bool :=
  match l with
  | RequestError _ _ | ProcessingError _ _ | UnexpectedError _ _ => true
  | _ => false
  end.

(** The line the [except] clauses print for an exception. *)
Definition error_line (series_id : string) (e : exn) : line :=
  match exn_cls e with
  | RequestException => RequestError series_id e
  | ValueError => ProcessingError series_id e
  | _ => UnexpectedError series_id e
  end.

(** The line that reports a positive count, if any. *)
Definition found_line (n : nat) (series_id : string) : list line :=
  if bool_decide (0 < n) then [FoundNA n series_id] else [].

(** A file system after at most one write to [path]. *)
Definition apply_write (path : string) (w : option string)
    (fs : gmap string string) : gmap string string :=
  match w with
  | Some text => <[path := text]> fs
  | None => fs
  end.

(** A file system after a list of such writes, in order. *)
Definition apply_writes (ws : list (string * option string))
    (fs : gmap string string) : gmap string string :=
  foldl (λ fs qw, apply_write qw.1 qw.2 fs) fs ws.

(** The last text a list of writes puts at [p], [acc] if there is none. *)
Fixpoint last_write (p : string) (acc : option string)
    (ws : list (string * option string)) : option string :=
  match ws with
  | [] => acc
  | (q, w) :: ws' =>
      last_write p (match w with
                    | Some t => if bool_decide (q = p) then Some t else acc
                    | None => acc
                    end) ws'
  end.

(** The lines a computation prints when started in [s]. *)
Definition printed {A} (m : M A) (s : state) : list line :=
  drop (length (stdout s)) (stdout (exec m s)).

(** A computation acts uniformly: from every state it returns or raises
    the same, prints the same lines (none of them announcing a series),
    adds to the counter the counts those lines report, and writes at most
    to [path], the same text. *)
Definition uniform {A} (path : string) (m : M A) : Prop :=
  ∃ (r : exn + A) (lines : list line) (w : option string),
    omap attempted lines = [] ∧
    ∀ s, m s = (r, mkState (total_nas_found s + sum_list (found <$> lines))
                           (stdout s ++ lines)
                           (apply_write path w (files s))).

(** What [filename] does to one character of the name. *)
Definition normalize_char (c : ascii) : ascii :=
  if Ascii.eqb c " "%char then "_"%char
  else if is_upper c then ascii_of_nat (nat_of_ascii c + 32)
  else c.

(** A name of ASCII characters without a slash: its path is an entry of the
    [data] folder, and two such paths that differ name two files. *)
Definition plain_name (name : string) : bool :=
  is_ascii name && negb (str_has_char (Ascii.eqb "/") name).

Definition ok {A} (r : exn + A) : option A :=
  match r with
  | inr a => Some a
  | inl _ => None
  end.

Section Cleaned.
Context {T N : Type} (E : Env T N) {tables : Unicode}.

(** The frame with one column [f k] under each key [k] of [keys]. *)
Definition tabulate (n : nat) (keys : list string)
    (f : string → list (cell T N)) : DataFrame T N :=
  mkFrame n ((λ k, (Name k, f k)) <$> keys).

(** The columns that survive the drop, for a frame built from records. *)
Definition kept_keys (recs : list (list (string * pyobj))) : list string :=
  filter (λ k, k ∉ columns_to_drop) (union_keys recs).

(** The value column after coercion, for a frame built from records. *)
Definition coerced_values (recs : list (list (string * pyobj))) : list (cell T N) :=
  to_numeric_coerce E (record_cell "value" <$> recs).

(** The column under key [k] once [date] holds [dates] and [value] has been
    coerced. *)
Definition cleaned_column (recs : list (list (string * pyobj)))
    (dates : list (cell T N)) (k : string) : list (cell T N) :=
  if bool_decide (k = "value") then coerced_values recs
  else if bool_decide (k = "date") then dates
  else record_cell k <$> recs.

(** The frame that reaches [to_csv], for a frame built from records. *)
Definition cleaned_frame (series_id : string)
    (recs : list (list (string * pyobj))) (dates : list (cell T N))
  : DataFrame T N :=
  mkFrame (length recs)
    ((λ k, (if bool_decide (k = "value") then Name series_id else Name k,
            cleaned_column recs dates k)) <$> kept_keys recs).

(** The value column of a series at line 57, when the iteration gets
    there: the request, the status check and the JSON decoding succeed,
    [observations] is present and truthy, the frame is built, and the two
    conversions go through. *)
Definition values_at_coercion (series_id api_key start_date end_date : string)
  : option (list (cell T N)) :=
  response ← ok (requests_get E (api_url series_id api_key start_date end_date));
  _ ← ok (raise_for_status response);
  data ← ok (json response);
  observations ← ok (py_getitem "observations" data);
  if truthy observations then
    df ← ok (pd_DataFrame E observations);
    df ← ok (df_drop (filter (λ k, has_column (Name k) df = true) columns_to_drop) df);
    date ← ok (df_getitem "date" df);
    date ← ok (to_datetime E date);
    value ← ok (df_getitem "value" (df_setitem "date" date df));
    Some (to_numeric_coerce E value)
  else None.

(** The missing values of one series: those of its value column when it
    reaches the coercion, none otherwise. *)
Definition missing_count (api_key start_date end_date : string)
    (item : string * string) : nat :=
  match values_at_coercion item.2 api_key start_date end_date with
  | Some value => isna_sum value
  | None => 0
  end.
End Cleaned.

(** ** An example environment

    A small stand-in for the server and for pandas, used to run the function
    on concrete inputs.  Timestamps are ISO dates kept as text, numbers are
    canonical decimal literals of at most fifteen digits kept as text (on
    these, parsing and printing a float gives the literal back); an integer
    column prints its integers bare, a float column with a trailing [.0]. *)

Module Example.

Inductive number :=
  | NumInt (text : string)
  | NumFloat (text : string).

Definition is_digit (c : ascii) : bool :=
  (48 <=? nat_of_ascii c) && (nat_of_ascii c <=? 57).

Fixpoint all_digits (s : string) : bool :=
  match s with
  | EmptyString => true
  | String c s' => is_digit c && all_digits s'
  end.

Fixpoint last_char (s : string) : option ascii :=
  match s with
  | EmptyString => None
  | String c EmptyString => Some c
  | String _ s' => last_char s'
  end.

(** Digits, not empty, no leading zero unless the string is [0]. *)
Definition is_natural (s : string) : bool :=
  match s with
  | EmptyString => false
  | String c EmptyString => is_digit c
  | String c s' => is_digit c && negb (Ascii.eqb c "0"%char) && all_digits s'
  end.

(** Digits, not empty, no trailing zero unless the string is [0]. *)
Definition is_fraction (s : string) : bool :=
  match s with
  | EmptyString => false
  | String c EmptyString => is_digit c
  | _ => all_digits s &&
         match last_char s with
         | Some c => negb (Ascii.eqb c "0"%char)
         | None => false
         end
  end.

(** The text before and after the first dot. *)
Fixpoint split_dot (s : string) : option (string * string) :=
  match s with
  | EmptyString => None
  | String c s' =>
      if Ascii.eqb c "."%char then Some (EmptyString, s')
      else match split_dot s' with
           | Some (a, b) => Some (String c a, b)
           | None => None
           end
  end.

Definition unsigned (s : string) : string :=
  match s with
  | String c s' => if Ascii.eqb c "-"%char then s' else s
  | EmptyString => s
  end.

Definition parse_number (s : string) : option number :=
  if 16 <=? String.length s then None
  else match split_dot (unsigned s) with
       | Some (a, b) =>
           if is_natural a && is_fraction b then Some (NumFloat s) else None
       | None => if is_natural (unsigned s) then Some (NumInt s) else None
       end.

Definition is_iso_date (s : string) : bool :=
  match s with
  | String y1 (String y2 (String y3 (String y4 (String h1
      (String m1 (String m2 (String h2 (String d1 (String d2 EmptyString))))))))) =>
      is_digit y1 && is_digit y2 && is_digit y3 && is_digit y4 &&
      Ascii.eqb h1 "-"%char && is_digit m1 && is_digit m2 &&
      Ascii.eqb h2 "-"%char && is_digit d1 && is_digit d2
  | _ => false
  end.

Definition date_of (c : cell string number) : option string :=
  match c with
  | CObj (PyStr s) => if is_iso_date s then Some s else None
  | CDate t => Some t
  | _ => None
  end.

Definition not_a_date (c : cell string number) : bool :=
  match c with
  | CNaN | CObj PyNone => false
  | _ => match date_of c with Some _ => false | None => true end
  end.

Definition number_of (c : cell string number) : option number :=
  match c with
  | CObj (PyStr s) => parse_number s
  | CObj (PyInt z) => Some (NumInt (pretty z))
  | CNum v => Some v
  | _ => None
  end.

Definition is_int_cell (c : cell string number) : bool :=
  match c with
  | CNum (NumInt _) => true
  | _ => false
  end.

Definition format (col : list (cell string number)) (c : cell string number)
  : string :=
  match c with
  | CDate t => t
  | CNum (NumFloat t) => t
  | CNum (NumInt t) => if forallb is_int_cell col then t else t +:+ ".0"
  | CObj (PyInt z) => pretty z
  | CObj (PyBool true) => "True"
  | CObj (PyBool false) => "False"
  | _ => ""
  end.

(** A table that knows no letter beyond ASCII. *)
#[export] Instance ascii_letters : Unicode := λ s, str_map lower_char s.

(** The environment with [get] for the server and [cannot_open] for the
    file system. *)
Definition env (get : string → exn + Response)
    (cannot_open : string → option exn) : Env string number :=
  mkEnv string number
    "2024-06-30"
    get
    (λ _, inl (Exn ValueError "DataFrame constructor not properly called!"))
    (λ col, if existsb not_a_date col
            then Some (Exn ValueError "Unknown datetime string format")
            else None)
    (λ _ c, date_of c)
    number_of
    format
    cannot_open.

(** A server that answers every request with status 200 and [payload]. *)
Definition serve (payload : pyobj) (url : string) : exn + Response :=
  inr {| status_code := 200; json := inr payload |}.

(** A server that answers the requests for the series [BROKEN] with
    status 500, and every other request with status 200 and [payload]. *)
Definition flaky (payload : pyobj) (url : string) : exn + Response :=
  if str_contains "series_id=BROKEN&" url
  then inr {| status_code := 500; json := inl (Exn ValueError "Expecting value") |}
  else inr {| status_code := 200; json := inr payload |}.

(** A file system where every path can be opened. *)
Definition writable (path : string) : option exn := None.

(** A file system where no path can be opened. *)
Definition read_only (path : string) : option exn :=
  Some (Exn OSError "Permission denied").

(** One observation as the upstream API sends it. *)
Definition observation (date value : string) : pyobj :=
  PyDict [("realtime_start", PyStr "2024-06-30");
          ("realtime_end", PyStr "2024-06-30");
          ("date", PyStr date); ("value", PyStr value)].

Definition initial : state := mkState 0 [] ∅.

(** The response of the end-to-end example of the specification. *)
Definition unrate_payload : pyobj :=
  PyDict [("observations",
           PyList [PyDict [("date", PyStr "2020-01-01"); ("value", PyStr "3.5");
                           ("realtime_start", PyStr "x");
                           ("realtime_end", PyStr "y")]])].

(** Three observations, the second with the sentinel for a missing value. *)
Definition mixed_records : list (list (string * pyobj)) :=
  [[("realtime_start", PyStr "2024-06-30"); ("realtime_end", PyStr "2024-06-30");
    ("date", PyStr "2020-01-01"); ("value", PyStr "3.5")];
   [("realtime_start", PyStr "2024-06-30"); ("realtime_end", PyStr "2024-06-30");
    ("date", PyStr "2020-02-01"); ("value", PyStr ".")];
   [("realtime_start", PyStr "2024-06-30"); ("realtime_end", PyStr "2024-06-30");
    ("date", PyStr "2020-03-01"); ("value", PyStr "3.6")]].

Definition mixed_payload : pyobj :=
  PyDict [("observations", PyList (PyDict <$> mixed_records))].

(** Two observations, both missing. *)
Definition missing_records : list (list (string * pyobj)) :=
  [[("date", PyStr "2020-01-01"); ("value", PyStr ".")];
   [("date", PyStr "2020-02-01"); ("value", PyStr ".")]].

Definition missing_payload : pyobj :=
  PyDict [("observations", PyList (PyDict <$> missing_records))].

(** An observation that carries one more field than the four documented. *)
Definition footnote_payload : pyobj :=
  PyDict [("observations",
           PyList [PyDict [("realtime_start", PyStr "2024-06-30");
                           ("realtime_end", PyStr "2024-06-30");
                           ("date", PyStr "2020-01-01"); ("value", PyStr "3.5");
                           ("footnote", PyStr "r")]])].

(** An observation whose value comes before its date. *)
Definition swapped_payload : pyobj :=
  PyDict [("observations",
           PyList [PyDict [("value", PyStr "3.5"); ("date", PyStr "2020-01-01")]])].

(** A response with no observations. *)
Definition empty_payload : pyobj := PyDict [("observations", PyList [])].

Definition unrate : string * string := ("Unemployment Rate", "UNRATE").

End Example.

(** ** Reading a series

    What the [if] of line 43 decides about a decoded payload, when it
    decides: [true] when the series is skipped. *)
Definition skipped (data : pyobj) : bool :=
  match py_in "observations" data with
  | inr false => true
  | inr true =>
      match py_getitem "observations" data with
      | inr observations => negb (truthy observations)
      | inl _ => false
      end
  | inl _ => false
  end.

(** A state with nothing counted, printed or written. *)
Definition blank : state := mkState 0 [] ∅.

Section Exports.
Context {T N : Type} (E : Env T N) {tables : Unicode}.

(** The text the iteration of one entry writes to its path, if it writes. *)
Definition export_of (api_key start_date end_date : string)
    (item : string * string) : option string :=
  files (exec (iteration E api_key start_date end_date item) blank) !! filename item.1.

(** The writes of a loop over [items], entry by entry. *)
Definition exports (api_key start_date end_date : string)
    (items : list (string * string)) : list (string * option string) :=
  (λ item, (filename item.1, export_of api_key start_date end_date item)) <$> items.
End Exports.

(** A printed line that reports a saved file. *)
Definition saved_path (l : line) : option string :=
  match l with
  | Saved _ p => Some p
  | _ => None
  end.

(** ** The script around the function

    Lines 84 to 163: the key is read from the environment once
    [load_dotenv] has run; without a key four lines are printed and nothing
    else happens, with a key the function runs over the catalog from the
    start date 1990-01-01 and a last line is printed. *)

(** The dict of lines 96 to 151, in insertion order. *)
Definition fred_series_to_fetch : list (string * string) :=
  [ ("PCE Price Index", "PCEPI");
    ("Core PCE Price Index", "PCEPILFE");
    ("CPI All Urban Consumers", "CPIAUCSL");
    ("Core CPI All Urban Consumers", "CPILFESL");
    ("PPI Final Demand Goods", "PPIFGS");
    ("Employment Cost Index Total Compensation Private Industry", "CIU2010000000000I");
    ("Average Hourly Earnings Total Private", "CEU0500000003");
    ("Unit Labor Costs Nonfarm Business Sector", "ULCNFB");
    ("Michigan Consumer Sentiment Index", "MICH");
    ("5-Year Breakeven Inflation Rate", "T5YIE");
    ("10-Year Breakeven Inflation Rate", "T10YIE");
    ("Unemployment Rate U3", "UNRATE");
    ("Unemployment Rate U6", "U6RATE");
    ("Nonfarm Payrolls", "PAYEMS");
    ("Labor Force Participation Rate", "CIVPART");
    ("JOLTS Job Openings", "JTSJOL");
    ("JOLTS Quits Rate", "JTSQUR");
    ("Initial Jobless Claims Seasonally Adjusted", "ICNSA");
    ("Real Gross Domestic Product", "GDPC1");
    ("Industrial Production Index", "INDPRO");
    ("Retail Sales Total Excluding Food Services", "RSXFS");
    ("Housing Starts Total New Privately Owned", "HOUST");
    ("Existing Home Sales Total", "EXHOSLUSM495S");
    ("Case-Shiller US National Home Price Index", "CSUSHPINSA");
    ("Real Private Nonresidential Fixed Investment", "PNFI");
    ("New Orders for Durable Goods", "NEWORDER");
    ("Capacity Utilization Manufacturing", "CUMFNS");
    ("Effective Federal Funds Rate", "DFF");
    ("3-Month Treasury Constant Maturity Rate", "DGS3MO");
    ("10-Year Treasury Constant Maturity Rate", "DGS10");
    ("ICE BofA US High Yield Master II Option Adjusted Spread", "BAMLH0A0HYM2");
    ("30-Year Fixed Rate Mortgage Average", "MORTGAGE30US");
    ("S&P 500 Index", "SP500");
    ("Trade Weighted US Dollar Index Broad Goods and Services", "DTWEXBGS");
    ("M2 Money Stock", "M2SL");
    ("Consumer Confidence Index", "CSCICP03USM665S");
    ("Crude Oil Prices West Texas Intermediate", "DCOILWTICO");
    ("All Commodities Price Index IMF", "PALLFNFINDEXM");
    ("Federal Surplus or Deficit", "FYFSD");
    ("Federal Debt Total Public Debt", "GFDEBTN");
    ("Federal Funds Effective Rate", "FEDFUNDS") ].

Definition desired_start_date : string := "1990-01-01".

(** The four lines printed when there is no key. *)
Definition key_not_found : list string :=
  [ "Error: FRED_API_KEY not found in environment variables.";
    "Please create a .env file in the same directory as this script with the content:";
    "FRED_API_KEY=YOUR_ACTUAL_FRED_API_KEY";
    "You can get one for free at: https://fred.stlouisfed.org/docs/api/api_key.html" ].

(** The last line of a run with a key. *)
Definition process_completed : string :=
  newline +:+ "Data retrieval and export process completed.".

(** What the process leaves: the text of each [print] and the files. *)
Record process := mkProcess {
  output : list string;
  disk : gmap string string
}.

Section Script.
Context {T N : Type} (E : Env T N) {tables : Unicode}.

(** The module body.  [getenv] is [os.getenv] after [load_dotenv()]; an
    exception that left the function would end the script there. *)
Definition script (getenv : string → option string) (fs : gmap string string)
  : (exn + unit) * process :=
  let fred_api_key := getenv "FRED_API_KEY" in
  match fred_api_key with
  | None => (inr tt, mkProcess key_not_found fs)
  | Some fred_api_key =>
      match get_fred_series_and_export_csv E fred_series_to_fetch
              fred_api_key desired_start_date (mkState 0 [] fs) with
      | (inl e, s) => (inl e, mkProcess (show_line <$> stdout s) (files s))
      | (inr _, s) =>
          (inr tt, mkProcess ((show_line <$> stdout s) ++ [process_completed]) (files s))
      end
  end.
End Script.

(** ** How an iteration ends

    What an iteration adds to the counter, the last line it prints and the
    text it writes, if any: the series is skipped at line 45 or at line 66,
    an exception reaches an [except] clause, or the file is written and
    reported with its number of rows. *)
Inductive ending {tables : Unicode} (name series_id : string)
  : nat → line → option string → Prop :=
  | ended_skipped :
      ending name series_id 0 (NoObservations series_id) None
  | ended_empty :
      ending name series_id 0 (NoValidNumeric series_id) None
  | ended_raised n e :
      ending name series_id n (error_line series_id e) None
  | ended_saved n k table :
      n ≤ k → length table = S k →
      ending name series_id n (Saved k (filename name)) (Some (csv_text table)).

(** The line that closes an iteration: a skip, a saved file or an error. *)
Definition is_outcome (l : line) : bool :=
  match l with
  | NoObservations _ | NoValidNumeric _ | Saved _ _ => true
  | RequestError _ _ | ProcessingError _ _ | UnexpectedError _ _ => true
  | _ => false
  end.

(** The paths a list of writes puts a text at, in order. *)
Definition written_paths (ws : list (string * option string)) : list string :=
  (filter (λ qw, is_Some qw.2) ws).*1.

(** ** More of the example environment: servers and payloads for the
    failures and skips of an iteration and for runs over several series *)

Module Scenarios.
Import Example.

(** A server that cannot be reached. *)
Definition unreachable (url : string) : exn + Response :=
  inl (Exn RequestException "Connection refused").

(** A server that answers the request for each series of [answers] with
    status 200 and the payload given for it, and every other request with
    status 404. *)
Definition by_series (answers : list (string * pyobj)) (url : string)
  : exn + Response :=
  match List.find (λ a, str_contains ("series_id=" +:+ a.1 +:+ "&") url) answers with
  | Some a => inr {| status_code := 200; json := inr a.2 |}
  | None => inr {| status_code := 404; json := inl (Exn ValueError "Expecting value") |}
  end.

Definition u6_payload : pyobj :=
  PyDict [("observations", PyList [observation "2020-01-01" "6.9"])].

Definition two_rates : list (string * pyobj) :=
  [("UNRATE", unrate_payload); ("U6RATE", u6_payload)].

(** A payload whose [observations] is [null]. *)
Definition null_payload : pyobj := PyDict [("observations", PyNone)].

(** Observations without a date, and without a value. *)
Definition undated_records : list (list (string * pyobj)) := [[("value", PyStr "3.5")]].
Definition unvalued_records : list (list (string * pyobj)) :=
  [[("date", PyStr "2020-01-01")]].

(** Two observations, the first with a date that is not one; and two
    observations, the second without a value. *)
Definition bad_date_records : list (list (string * pyobj)) :=
  [[("date", PyStr "yesterday"); ("value", PyStr "3.5")];
   [("date", PyStr "2020-02-01"); ("value", PyStr "3.6")]].
Definition partial_records : list (list (string * pyobj)) :=
  [[("date", PyStr "2020-01-01"); ("value", PyStr "3.5")];
   [("date", PyStr "2020-02-01")]].

Definition payload_of (recs : list (list (string * pyobj))) : pyobj :=
  PyDict [("observations", PyList (PyDict <$> recs))].

(** An environment of the process in which the key is set. *)
Definition with_key (name : string) : option string :=
  if String.eqb name "FRED_API_KEY" then Some "key" else None.

Definition u3 : string * string := ("Unemployment Rate U3", "UNRATE").
Definition u6 : string * string := ("Unemployment Rate U6", "U6RATE").

(** The text exported for [unrate_payload] and for [u6_payload]. *)
Definition unrate_text (series_id : string) : string :=
  "date," +:+ series_id +:+ newline +:+ "2020-01-01,3.5" +:+ newline.
Definition u6_text (series_id : string) : string :=
  "date," +:+ series_id +:+ newline +:+ "2020-01-01,6.9" +:+ newline.

End Scenarios.

(** * Lemmas

    ** Lists, dicts and keys *)
Lemma sum_list_app (l1 l2 : list nat) :
  sum_list (l1 ++ l2) = sum_list l1 + sum_list l2.
Proof. induction l1 as [|n l1 IH]; cbn; [done | lia]. Qed.

Lemma filter_ext_in {A} (P Q : A → Prop) `{!∀ x, Decision (P x), !∀ x, Decision (Q x)} (l : list A) :
  (∀ x, x ∈ l → P x ↔ Q x) → filter P l = filter Q l.
Proof.
  induction l as [|x l IH]; intros Hl; [done|].
  rewrite !filter_cons. rewrite IH by (intros; apply Hl; by right).
  destruct (decide (P x)) as [Hp|Hp], (decide (Q x)) as [Hq|Hq]; try done.
  - apply Hl in Hp; [done | left].
  - apply Hl in Hq; [done | left].
Qed.

Lemma filter_none {A} (P : A → Prop) `{!∀ x, Decision (P x)} (l : list A) :
  (∀ x, x ∈ l → ¬ P x) → filter P l = [].
Proof.
  induction l as [|x l IH]; intros Hl; [done|].
  rewrite filter_cons_False by (apply Hl; left). apply IH. intros; apply Hl; by right.
Qed.

Lemma elem_of_concat {A} (x : A) (ls : list (list A)) :
  x ∈ concat ls ↔ ∃ l, l ∈ ls ∧ x ∈ l.
Proof.
  induction ls as [|l ls IH]; cbn.
  - split; [by intros ?%elem_of_nil | by intros [? [?%elem_of_nil _]]].
  - rewrite elem_of_app, IH. split.
    + intros [?|[l' [? ?]]]; [exists l; split; [left | done] | exists l'; split; [by right | done]].
    + intros [l' [[->|?]%elem_of_cons ?]]; [by left | right; by exists l'].
Qed.

Lemma dict_has_get {A} k (d : list (string * A)) :
  dict_has k d = true ↔ is_Some (dict_get k d).
Proof.
  unfold dict_has, dict_keys. induction d as [|[k' v] d IH]; cbn.
  - split; [done | by intros [? ?]].
  - destruct (String.eqb k k') eqn:Hk; cbn; [split; eauto | done].
Qed.

Lemma dict_has_elem {A} k (d : list (string * A)) :
  dict_has k d = true ↔ k ∈ dict_keys d.
Proof.
  unfold dict_has. rewrite existsb_exists. split.
  - intros [x [Hx ->%String.eqb_eq]]. by apply list_elem_of_In.
  - intros Hk. exists k. split; [by apply list_elem_of_In | apply String.eqb_refl].
Qed.

Lemma unique_in_order_cons seen x l :
  unique_in_order seen (x :: l) =
  if bool_decide (x ∈ seen) then unique_in_order seen l
  else x :: unique_in_order (x :: seen) l.
Proof. reflexivity. Qed.

Lemma elem_of_unique_in_order seen l k :
  k ∈ unique_in_order seen l ↔ k ∈ l ∧ k ∉ seen.
Proof.
  revert seen. induction l as [|x l IH]; intros seen; cbn.
  - split; [by intros ?%elem_of_nil | by intros [?%elem_of_nil _]].
  - case_bool_decide as Hx.
    + rewrite IH, elem_of_cons. split; [tauto|]. intros [[->|?] ?]; done.
    + rewrite !elem_of_cons, IH, not_elem_of_cons.
      destruct (decide (k = x)) as [->|]; tauto.
Qed.

Lemma unique_in_order_seen seen l :
  (∀ k, k ∈ l → k ∈ seen) → unique_in_order seen l = [].
Proof.
  induction l as [|x l IH]; intros Hl; cbn; [done|].
  rewrite bool_decide_eq_true_2 by (apply Hl; left).
  apply IH. intros; apply Hl; by right.
Qed.

Lemma filter_unique_in_order (P : string → Prop) `{!∀ k, Decision (P k)} seen seen' l :
  (∀ k, P k → k ∈ seen ↔ k ∈ seen') →
  filter P (unique_in_order seen l) = unique_in_order seen' (filter P l).
Proof.
  revert seen seen'. induction l as [|x l IH]; intros seen seen' Hs; [done|].
  rewrite unique_in_order_cons, (filter_cons _ x l).
  destruct (decide (P x)) as [Hp|Hp].
  - rewrite unique_in_order_cons, (bool_decide_ext _ _ (Hs x Hp)). case_bool_decide.
    + by apply IH.
    + rewrite filter_cons_True by done. f_equal. apply IH.
      intros k Hk. rewrite !elem_of_cons. by rewrite (Hs k Hk).
  - case_bool_decide.
    + by apply IH.
    + rewrite filter_cons_False by done. apply IH.
      intros k Hk. rewrite elem_of_cons, (Hs k Hk).
      split; [intros [->|]; done | auto].
Qed.

Lemma elem_of_union_keys k (recs : list (list (string * pyobj))) :
  k ∈ union_keys recs ↔ ∃ r, r ∈ recs ∧ dict_has k r = true.
Proof.
  unfold union_keys. rewrite elem_of_unique_in_order, elem_of_concat. split.
  - intros [[l [[r [-> ?]]%list_elem_of_fmap ?]] _]. exists r. by rewrite dict_has_elem.
  - intros [r [? ?%dict_has_elem]]. split; [|apply not_elem_of_nil].
    exists (dict_keys r). split; [|done]. apply list_elem_of_fmap. by exists r.
Qed.

Lemma union_keys_has k (recs : list (list (string * pyobj))) :
  recs ≠ [] → Forall (λ r, dict_has k r = true) recs → k ∈ union_keys recs.
Proof.
  intros Hne Hall. destruct recs as [|r recs]; [done|].
  apply elem_of_union_keys. exists r. split; [left|]. by apply Forall_cons in Hall as [].
Qed.

Lemma kept_keys_elem k recs : k ∈ union_keys recs → k ∉ columns_to_drop → k ∈ kept_keys recs.
Proof. intros. by apply list_elem_of_filter. Qed.

Lemma kept_keys_shape (recs : list (list (string * pyobj))) :
  recs ≠ [] →
  Forall (λ r, filter (λ k, k ∉ columns_to_drop) (dict_keys r) = ["date"; "value"]) recs →
  kept_keys recs = ["date"; "value"].
Proof.
  intros Hne Hall. unfold kept_keys, union_keys.
  rewrite (filter_unique_in_order _ [] []) by done.
  destruct recs as [|r recs]; [done|]. apply Forall_cons in Hall as [Hr Hall].
  cbn [fmap list_fmap concat]. rewrite filter_app, Hr. cbn [app].
  rewrite !unique_in_order_cons.
  rewrite (bool_decide_eq_false_2 ("date" ∈ [])) by apply not_elem_of_nil.
  rewrite (bool_decide_eq_false_2 ("value" ∈ ["date"])).
  2:{ intros [?|?%elem_of_nil]%elem_of_cons; done. }
  do 2 f_equal. apply unique_in_order_seen.
  intros k Hk. apply list_elem_of_filter in Hk as [Hk Hin].
  apply elem_of_concat in Hin as [l [[r' [-> Hr']]%list_elem_of_fmap Hkl]].
  rewrite Forall_forall in Hall. specialize (Hall _ Hr').
  assert (k ∈ filter (λ k, k ∉ columns_to_drop) (dict_keys r')) as Hkf
    by by apply list_elem_of_filter.
  rewrite Hall in Hkf. rewrite !elem_of_cons, elem_of_nil in Hkf. rewrite !elem_of_cons. tauto.
Qed.

(** ** Frames *)
Section FrameFacts.
Context {T N : Type}.
Implicit Types (df : DataFrame T N) (col vals : list (cell T N)).
Implicit Types (cols : list (label * list (cell T N))).

Lemma lookup_column_None l cols : lookup_column l cols = None ↔ l ∉ cols.*1.
Proof.
  induction cols as [|[l' c] cols IH]; cbn.
  - split; [intros _; apply not_elem_of_nil | done].
  - case_bool_decide as Hl; subst.
    + split; [done | intros []; left].
    + rewrite IH, not_elem_of_cons. tauto.
Qed.

Lemma lookup_column_elem l (cols : list (label * list (cell T N))) col :
  lookup_column l cols = Some col → (l, col) ∈ cols.
Proof.
  induction cols as [|[l' c] cols IH]; cbn; [done|].
  case_bool_decide; [intros [= ->]; subst; left | right; auto].
Qed.

Lemma lookup_column_set l vals cols :
  lookup_column l ((λ lc, if bool_decide (lc.1 = l) then (lc.1, vals) else lc) <$> cols)
  = (λ _, vals) <$> lookup_column l cols.
Proof.
  induction cols as [|[l' c] cols IH]; cbn; [done|].
  repeat case_bool_decide; simplify_eq/=; try done.
  all: case_bool_decide; simplify_eq/=; done.
Qed.

Lemma lookup_column_set_ne l l' vals cols :
  l ≠ l' →
  lookup_column l' ((λ lc, if bool_decide (lc.1 = l) then (lc.1, vals) else lc) <$> cols)
  = lookup_column l' cols.
Proof.
  intros Hne. induction cols as [|[l0 c] cols IH]; cbn; [done|].
  repeat (case_bool_decide; simplify_eq/=); try done.
Qed.

Lemma lookup_column_app l cols cols' :
  lookup_column l (cols ++ cols') =
  match lookup_column l cols with Some c => Some c | None => lookup_column l cols' end.
Proof.
  induction cols as [|[l0 c] cols IH]; cbn; [done|]. by case_bool_decide.
Qed.

Lemma getitem_setitem k vals df : df_getitem k (df_setitem k vals df) = inr vals.
Proof.
  unfold df_getitem, df_setitem, has_column, labels.
  case_bool_decide as Hin; cbn.
  - rewrite lookup_column_set.
    destruct (lookup_column (Name k) (columns df)) eqn:Hl; [done|].
    by apply lookup_column_None in Hl.
  - rewrite lookup_column_app. apply lookup_column_None in Hin as ->. cbn.
    by rewrite bool_decide_eq_true_2.
Qed.

Lemma getitem_setitem_ne k k' vals df :
  k ≠ k' → df_getitem k' (df_setitem k vals df) = df_getitem k' df.
Proof.
  intros Hne. unfold df_getitem, df_setitem, has_column, labels.
  case_bool_decide as Hin; cbn.
  - rewrite lookup_column_set_ne; [done | congruence].
  - rewrite lookup_column_app. destruct (lookup_column (Name k') (columns df)); [done|].
    cbn. rewrite bool_decide_eq_false_2; [done | congruence].
Qed.

Lemma getitem_columns k df col : df_getitem k df = inr col → columns df ≠ [].
Proof.
  unfold df_getitem. destruct (columns df); [done|]. done.
Qed.

Lemma index_setitem k vals df : index (df_setitem k vals df) = index df.
Proof. unfold df_setitem. by destruct (has_column _ _). Qed.

(** Dropping the columns that are there never raises. *)
Lemma drop_present (ks : list string) df :
  df_drop (filter (λ k, has_column (Name k) df = true) ks) df =
  inr (mkFrame (index df) (filter (λ lc, lc.1 ∉ Name <$> ks) (columns df))).
Proof.
  unfold df_drop.
  assert (filter (λ k, Name k ∉ labels df) (filter (λ k, has_column (Name k) df = true) ks) = []) as ->.
  { apply filter_none. intros k Hk%list_elem_of_filter Hn.
    destruct Hk as [Hk _]. unfold has_column in Hk. by apply bool_decide_eq_true in Hk. }
  f_equal. f_equal. apply filter_ext_in.
  intros [l c] Hlc; cbn.
  split; intros Hn [k [-> Hk]]%list_elem_of_fmap; apply Hn, list_elem_of_fmap;
    exists k; (split; [done|]).
  - apply list_elem_of_filter; split; [|done]. unfold has_column, labels.
    apply bool_decide_eq_true, list_elem_of_fmap. by exists (Name k, c).
  - by apply list_elem_of_filter in Hk as [].
Qed.

Lemma frame_of_records_tabulate (recs : list (list (string * pyobj))) :
  frame_of_records recs =
  tabulate (T:=T) (N:=N) (length recs) (union_keys recs) (λ k, record_cell k <$> recs).
Proof. reflexivity. Qed.

Lemma lookup_column_tabulate k (keys : list string) (f : string → list (cell T N)) :
  k ∈ keys → lookup_column (Name k) ((λ k, (Name k, f k)) <$> keys) = Some (f k).
Proof.
  induction keys as [|k' keys IH]; [by intros ?%elem_of_nil|]. cbn.
  intros Hk. case_bool_decide; simplify_eq; [done|].
  apply elem_of_cons in Hk as [->|]; [done | auto].
Qed.

Lemma getitem_tabulate k n keys (f : string → list (cell T N)) :
  k ∈ keys → df_getitem k (tabulate n keys f) = inr (f k).
Proof. intros Hk. unfold df_getitem; cbn. by rewrite lookup_column_tabulate. Qed.

Lemma labels_tabulate n keys (f : string → list (cell T N)) :
  labels (tabulate n keys f) = Name <$> keys.
Proof. unfold labels; cbn. rewrite <- list_fmap_compose. done. Qed.

Lemma setitem_tabulate k vals n keys (f : string → list (cell T N)) :
  k ∈ keys →
  df_setitem k vals (tabulate n keys f) =
  tabulate n keys (λ k', if bool_decide (k' = k) then vals else f k').
Proof.
  intros Hk. unfold df_setitem, has_column. rewrite labels_tabulate.
  rewrite bool_decide_eq_true_2 by (apply list_elem_of_fmap; eauto).
  unfold tabulate; cbn. f_equal. rewrite <- list_fmap_compose.
  apply list_fmap_ext. intros _ k' _; cbn.
  repeat case_bool_decide; simplify_eq; done.
Qed.

Lemma drop_tabulate ks n keys (f : string → list (cell T N)) :
  df_drop (filter (λ k, has_column (Name k) (tabulate n keys f) = true) ks) (tabulate n keys f) =
  inr (tabulate n (filter (λ k, k ∉ ks) keys) f).
Proof.
  rewrite drop_present. unfold tabulate; cbn. do 2 f_equal.
  induction keys as [|k keys IH]; [done|].
  rewrite fmap_cons, !filter_cons, IH. cbn [fst].
  destruct (decide (k ∉ ks)) as [Hk|Hk], (decide (Name k ∉ Name <$> ks)) as [Hk'|Hk']; try done.
  - exfalso. apply dec_stable in Hk'. apply list_elem_of_fmap in Hk' as [k' [[= ->] ?]]. done.
  - exfalso. apply Hk. intros Hn. apply Hk', list_elem_of_fmap. eauto.
Qed.

Lemma rename_tabulate old new n keys (f : string → list (cell T N)) :
  df_rename old new (tabulate n keys f) =
  mkFrame n ((λ k, (if bool_decide (k = old) then Name new else Name k, f k)) <$> keys).
Proof.
  unfold df_rename, tabulate; cbn. f_equal. rewrite <- list_fmap_compose.
  apply list_fmap_ext. intros _ k _; cbn.
  repeat case_bool_decide; simplify_eq; done.
Qed.
End FrameFacts.

(** ** Well-formed frames *)
Section WellFormed.
Context {T N : Type} (E : Env T N) {tables : Unicode}.
Implicit Types (df : DataFrame T N) (col vals : list (cell T N)).

Lemma well_formed_records recs : well_formed (frame_of_records (T:=T) (N:=N) recs).
Proof.
  unfold well_formed, frame_of_records; cbn. apply Forall_fmap, Forall_forall.
  intros k _; cbn. by rewrite length_fmap.
Qed.

Lemma well_formed_reindex df : well_formed (reindex df).
Proof.
  unfold well_formed, reindex; cbn. apply Forall_fmap, Forall_forall.
  intros lc _; cbn. by rewrite length_resize.
Qed.

Lemma well_formed_pd_DataFrame obj df : pd_DataFrame E obj = inr df → well_formed df.
Proof.
  unfold pd_DataFrame. destruct (as_records obj).
  - intros [= <-]. apply well_formed_records.
  - destruct (pd_DataFrame_other E obj); [done|]. intros [= <-]. apply well_formed_reindex.
Qed.

Lemma well_formed_drop ks df df' :
  df_drop ks df = inr df' → well_formed df → well_formed df' ∧ index df' = index df.
Proof.
  unfold df_drop. destruct (filter _ ks); [|done]. intros [= <-] Hwf. split; [|done].
  unfold well_formed in *; cbn. rewrite Forall_forall in *.
  intros lc [_ Hlc]%list_elem_of_filter. by apply Hwf.
Qed.

Lemma getitem_length k df col :
  well_formed df → df_getitem k df = inr col → length col = index df.
Proof.
  unfold df_getitem. destruct (lookup_column _ _) eqn:Hl; [|done].
  intros Hwf [= <-]. apply lookup_column_elem in Hl.
  unfold well_formed in Hwf. rewrite Forall_forall in Hwf. by apply (Hwf _ Hl).
Qed.

Lemma well_formed_setitem k vals df :
  well_formed df → length vals = index df → well_formed (df_setitem k vals df).
Proof.
  unfold well_formed, df_setitem. intros Hwf Hlen. destruct (has_column _ _); cbn.
  - apply Forall_fmap. eapply Forall_impl; [exact Hwf|].
    intros lc Hlc; cbn. by case_bool_decide.
  - apply Forall_app. split; [done|]. by apply Forall_singleton.
Qed.

Lemma to_datetime_length col col' : to_datetime E col = inr col' → length col' = length col.
Proof.
  unfold to_datetime. destruct (to_datetime_raises E col); [done|].
  intros [= <-]. by rewrite length_fmap.
Qed.

Lemma to_datetime_ok (col : list (cell T N)) :
  to_datetime_raises E col = None → ∃ dates, to_datetime E col = inr dates.
Proof. intros H. unfold to_datetime. rewrite H. eauto. Qed.

Lemma to_numeric_coerce_length col : length (to_numeric_coerce E col) = length col.
Proof. unfold to_numeric_coerce. by rewrite length_fmap. Qed.
End WellFormed.

(** ** Running a computation step by step *)
Lemma state_eta s : mkState (total_nas_found s) (stdout s) (files s) = s.
Proof. by destruct s. Qed.

Lemma bind_call_inr {A B} (a : A) (f : A → M B) s : (call (inr a) ≫= f) s = f a s.
Proof. reflexivity. Qed.
Lemma bind_call_inl {A B} e (f : A → M B) s : (call (inl e) ≫= f) s = (inl e, s).
Proof. reflexivity. Qed.
Lemma bind_ret {A B} (a : A) (f : A → M B) s : (mret a ≫= f) s = f a s.
Proof. reflexivity. Qed.
Lemma bind_print {B} l (f : unit → M B) s :
  (print l ≫= f) s = f tt (mkState (total_nas_found s) (stdout s ++ [l]) (files s)).
Proof. reflexivity. Qed.
Lemma bind_get_total {B} (f : nat → M B) s :
  (get_total ≫= f) s = f (total_nas_found s) s.
Proof. reflexivity. Qed.
Lemma bind_set_total {B} n (f : unit → M B) s :
  (set_total n ≫= f) s = f tt (mkState n (stdout s) (files s)).
Proof. reflexivity. Qed.

Lemma bind_assoc {A B C} (m : M A) (g : A → M B) (f : B → M C) s :
  ((m ≫= g) ≫= f) s = (m ≫= (λ a, g a ≫= f)) s.
Proof. unfold mbind, M_bind. by destruct (m s) as [[e|a] s']. Qed.

Lemma printed_spec {A} (m : M A) s r t lines fs :
  m s = (r, mkState t (stdout s ++ lines) fs) → printed m s = lines.
Proof. intros Hm. unfold printed, exec. rewrite Hm; cbn. apply drop_app_length. Qed.

Lemma for_each_cons {A} (x : A) items (body : A → M unit) s :
  result (body x) s = inr tt →
  for_each (x :: items) body s = for_each items body (exec (body x) s).
Proof.
  unfold result, exec. cbn. unfold mbind, M_bind.
  destruct (body x s) as [[e|[]] s']; cbn; [done|]. done.
Qed.

Lemma for_each_returns {A} items (body : A → M unit) s :
  (∀ x s, result (body x) s = inr tt) → result (for_each items body) s = inr tt.
Proof.
  intros Hb. revert s. induction items as [|x items IH]; intros s; [done|].
  unfold result. rewrite for_each_cons by done. apply IH.
Qed.

Lemma for_each_app {A} l1 l2 (body : A → M unit) s :
  (∀ x s, result (body x) s = inr tt) →
  exec (for_each (l1 ++ l2) body) s = exec (for_each l2 body) (exec (for_each l1 body) s).
Proof.
  intros Hb. revert s. induction l1 as [|x l1 IH]; intros s; [done|].
  unfold exec at 1 3. cbn [app]. rewrite !for_each_cons by done. apply IH.
Qed.

Lemma apply_write_twice path w1 w2 (fs : gmap string string) :
  apply_write path w2 (apply_write path w1 fs) =
  apply_write path (match w2 with Some _ => w2 | None => w1 end) fs.
Proof. destruct w1, w2; cbn; try done. apply insert_insert_eq. Qed.

Lemma last_write_acc p acc ws :
  last_write p acc ws =
  match last_write p None ws with Some t => Some t | None => acc end.
Proof.
  revert acc. induction ws as [|[q w] ws IH]; intros acc; cbn; [done|].
  rewrite IH. rewrite (IH (match w with Some t => _ | None => _ end)).
  destruct (last_write p None ws); [done|].
  destruct w; [|done]. by case_bool_decide.
Qed.

Lemma lookup_apply_writes ws fs p :
  apply_writes ws fs !! p =
  match last_write p None ws with Some t => Some t | None => fs !! p end.
Proof.
  unfold apply_writes. revert fs. induction ws as [|[q w] ws IH]; intros fs; cbn; [done|].
  rewrite IH, (last_write_acc _ (match w with Some _ => _ | None => _ end)).
  destruct (last_write p None ws); [done|].
  destruct w as [t|]; cbn; [|done].
  case_bool_decide; subst; [by rewrite lookup_insert_eq | by rewrite lookup_insert_ne].
Qed.

Lemma apply_writes_twice ws fs :
  apply_writes ws (apply_writes ws fs) = apply_writes ws fs.
Proof.
  apply map_eq. intros p. rewrite !lookup_apply_writes.
  by destruct (last_write p None ws).
Qed.

Lemma elem_of_found_line l n id : l ∈ found_line n id → l = FoundNA n id.
Proof.
  unfold found_line. case_bool_decide; [|by intros ?%elem_of_nil].
  by intros ->%list_elem_of_singleton.
Qed.

Lemma error_line_is_error id e : is_error_line (error_line id e) = true.
Proof. unfold error_line. by destruct (exn_cls e). Qed.

Lemma py_getitem_in k data obs : py_getitem k data = inr obs → py_in k data = inr true.
Proof.
  destruct data; try done. cbn. destruct (dict_get k d) eqn:Hd; [|done].
  intros _. f_equal. apply dict_has_get. by rewrite Hd.
Qed.

Lemma as_records_truthy obs recs : as_records obs = Some recs → recs ≠ [] → truthy obs = true.
Proof.
  destruct obs; try done. cbn. destruct l; [|done]. cbn. by intros [= <-].
Qed.

(** ** Uniform computations *)
Section Uniform.
Context (path : string).

Lemma uniform_call {A} (r : exn + A) : uniform path (call r).
Proof.
  exists r, [], None. split; [done|]. intros s. unfold call; cbn.
  by rewrite Nat.add_0_r, app_nil_r; destruct s.
Qed.

Lemma uniform_ret {A} (a : A) : uniform path (mret a).
Proof. apply (uniform_call (inr a)). Qed.

Lemma uniform_print l : found l = 0 → attempted l = None → uniform path (print l).
Proof.
  intros Hl Ha. exists (inr tt), [l], None. split; [by cbn; rewrite Ha|].
  intros s. unfold print; cbn. by rewrite Hl, Nat.add_0_r.
Qed.

Lemma uniform_bind {A B} (m : M A) (f : A → M B) :
  uniform path m → (∀ a, uniform path (f a)) → uniform path (m ≫= f).
Proof.
  intros (r & l1 & w1 & Ha1 & Hm) Hf. destruct r as [e|a].
  - exists (inl e), l1, w1. split; [done|]. intros s. unfold mbind, M_bind. by rewrite Hm.
  - destruct (Hf a) as (r & l2 & w2 & Ha2 & Hfa).
    exists r, (l1 ++ l2), (match w2 with Some _ => w2 | None => w1 end).
    split; [by rewrite omap_app, Ha1, Ha2|].
    intros s. unfold mbind, M_bind. rewrite Hm, Hfa; cbn.
    by rewrite fmap_app, sum_list_app, Nat.add_assoc, app_assoc, apply_write_twice.
Qed.

Lemma uniform_count {B} n series_id (rest : M B) :
  uniform path rest →
  uniform path
    (get_total ≫= λ total,
       set_total (total + n) ≫= λ _,
         (if bool_decide (0 < n) then print (FoundNA n series_id) else mret tt) ≫= λ _,
           rest).
Proof.
  intros (r & l & w & Ha & Hr).
  exists r, ((if bool_decide (0 < n) then [FoundNA n series_id] else []) ++ l), w.
  split; [by rewrite omap_app, Ha; case_bool_decide|].
  intros s. rewrite bind_get_total, bind_set_total.
  case_bool_decide; [rewrite bind_print | rewrite bind_ret]; rewrite Hr; cbn.
  - by rewrite Nat.add_assoc, <- app_assoc.
  - replace n with 0 by lia. by rewrite Nat.add_0_r.
Qed.

Lemma uniform_try_except {A} (body : M A) handler :
  uniform path body → (∀ e, uniform path (handler e)) →
  uniform path (try_except body handler).
Proof.
  intros (r & l1 & w1 & Ha1 & Hm) Hf. destruct r as [e|a].
  - destruct (Hf e) as (r & l2 & w2 & Ha2 & Hfa).
    exists r, (l1 ++ l2), (match w2 with Some _ => w2 | None => w1 end).
    split; [by rewrite omap_app, Ha1, Ha2|].
    intros s. unfold try_except. rewrite Hm, Hfa; cbn.
    by rewrite fmap_app, sum_list_app, Nat.add_assoc, app_assoc, apply_write_twice.
  - exists (inr a), l1, w1. split; [done|]. intros s. unfold try_except. by rewrite Hm.
Qed.

Lemma uniform_to_csv {T N} (E : Env T N) df : uniform path (to_csv E df path).
Proof.
  unfold to_csv. destruct (open_for_writing E path) as [e|] eqn:Ho.
  - exists (inl e), [], None. split; [done|]. intros s; cbn.
    by rewrite Nat.add_0_r, app_nil_r; destruct s.
  - exists (inr tt), [], (Some (csv_text (csv_table E df))). split; [done|]. intros s; cbn.
    by rewrite Nat.add_0_r, app_nil_r.
Qed.
End Uniform.

Ltac uniform_step :=
  first
    [ apply uniform_call
    | apply uniform_ret
    | apply uniform_print; reflexivity
    | apply uniform_to_csv
    | apply uniform_count
    | apply uniform_bind; [|intros ?]
    | match goal with |- uniform _ (if ?b then _ else _) => destruct b end
    | progress cbv zeta ].

(** ** One iteration *)
Section Iteration.
Context {T N : Type} (E : Env T N) {tables : Unicode}.

Lemma handler_print id e : handler id e = print (error_line id e).
Proof. unfold handler, error_line. by destruct (exn_cls e). Qed.

Lemma handler_returns series_id e s : (handler series_id e s).1 = inr tt.
Proof. unfold handler. by destruct (exn_cls e). Qed.

Lemma handler_uniform path id e : uniform path (handler id e).
Proof. unfold handler. destruct (exn_cls e); by apply uniform_print. Qed.

Lemma iteration_block key sd ed name id s :
  iteration E key sd ed (name, id) s =
  match try_block E name id key sd ed
          (mkState (total_nas_found s) (stdout s ++ [Attempting name id]) (files s)) with
  | (inl e, s') =>
      (inr tt, mkState (total_nas_found s') (stdout s' ++ [error_line id e]) (files s'))
  | (inr _, s') => (inr tt, s')
  end.
Proof.
  unfold iteration. rewrite bind_print. unfold try_except.
  destruct (try_block _ _ _ _ _ _ _) as [[e|[]] s']; [|done].
  by rewrite handler_print.
Qed.

Lemma iteration_returns key sd ed item s : result (iteration E key sd ed item) s = inr tt.
Proof.
  destruct item as [name id]. unfold result. rewrite iteration_block.
  by destruct (try_block _ _ _ _ _ _ _) as [[e|[]] s'].
Qed.

Lemma try_block_uniform name id key sd ed :
  uniform (filename name) (try_block E name id key sd ed).
Proof. unfold try_block. repeat uniform_step. Qed.

Lemma iteration_uniform key sd ed name id :
  ∃ lines w,
    omap attempted lines = [] ∧
    ∀ s, iteration E key sd ed (name, id) s =
         (inr tt, mkState (total_nas_found s + sum_list (found <$> lines))
                          (stdout s ++ Attempting name id :: lines)
                          (apply_write (filename name) w (files s))).
Proof.
  destruct (uniform_try_except (filename name) _ _
              (try_block_uniform name id key sd ed) (handler_uniform _ id))
    as (r & lines & w & Ha & Hu).
  exists lines, w. split; [done|]. intros s. unfold iteration. rewrite bind_print, Hu; cbn.
  pose proof (iteration_returns key sd ed (name, id) s) as Hr.
  unfold result, iteration in Hr. rewrite bind_print, Hu in Hr. cbn in Hr. subst r.
  by rewrite <- app_assoc.
Qed.
End Iteration.

(** ** The two phases of the [try] block *)
Section Phases.
Context {T N : Type} (E : Env T N) {tables : Unicode}.

Ltac miss_call H :=
  match goal with
  | |- context [(call ?r ≫= _) _] =>
      let e := fresh "e" in
      destruct r as [e|?] eqn:?; cbn [ok mbind option_bind] in H;
      [ rewrite bind_call_inl; exists (inl e), []; split; [by left|];
        by rewrite app_nil_r, state_eta
      | rewrite bind_call_inr; cbv beta zeta ]
  end.

(** A series that does not get to the coercion: the block raises or skips,
    having printed at most the skip line, and counts and writes nothing. *)
Lemma try_block_misses name id key sd ed s :
  values_at_coercion E id key sd ed = None →
  ∃ r lines, (lines = [] ∨ lines = [NoObservations id]) ∧
    try_block E name id key sd ed s =
      (r, mkState (total_nas_found s) (stdout s ++ lines) (files s)).
Proof.
  unfold values_at_coercion, try_block. intros Hnone.
  do 3 miss_call Hnone.
  destruct (py_getitem "observations" _) as [e|obs] eqn:Hobs; cbn [ok mbind option_bind] in Hnone.
  { miss_call Hnone. destruct b.
    - rewrite bind_assoc, bind_call_inl. exists (inl e), []. split; [by left|].
      by rewrite app_nil_r, state_eta.
    - rewrite bind_ret. exists (inr tt), [NoObservations id]. split; [by right|]. done. }
  rewrite (py_getitem_in _ _ _ Hobs), bind_call_inr; cbv beta iota.
  rewrite bind_assoc, bind_call_inr, bind_ret; cbv beta.
  destruct (truthy obs) eqn:Htr; cbn [negb].
  2:{ exists (inr tt), [NoObservations id]. split; [by right|]. done. }
  rewrite bind_call_inr; cbv beta.
  do 5 miss_call Hnone. done.
Qed.

Ltac reach_call H :=
  match goal with
  | |- context [(call ?r ≫= _) _] =>
      destruct r as [?|?] eqn:?; cbn [ok mbind option_bind] in H; [done|];
      rewrite bind_call_inr; cbv beta zeta
  end.

(** A series that gets to the coercion: the block counts the missing values
    of the coerced column, reports them, and then skips an empty frame or
    writes the file. *)
Lemma try_block_reaches name id key sd ed value s :
  values_at_coercion E id key sd ed = Some value →
  ∃ df, length value = index df ∧ columns df ≠ [] ∧
    try_block E name id key sd ed s =
      (if df_empty df then print (NoValidNumeric id)
       else to_csv E df (filename name);; print (Saved (df_len df) (filename name)))
        (mkState (total_nas_found s + isna_sum value)
                 (stdout s ++ found_line (isna_sum value) id) (files s)).
Proof.
  unfold values_at_coercion, try_block. intros Hsome.
  do 3 reach_call Hsome.
  destruct (py_getitem "observations" _) as [e|obs] eqn:Hobs; cbn [ok mbind option_bind] in Hsome;
    [done|].
  rewrite (py_getitem_in _ _ _ Hobs), bind_call_inr; cbv beta iota.
  rewrite bind_assoc, bind_call_inr, bind_ret; cbv beta.
  destruct (truthy obs) eqn:Htr; cbn [negb]; [|done].
  rewrite bind_call_inr; cbv beta.
  do 5 reach_call Hsome. injection Hsome as <-.
  rewrite getitem_setitem, bind_call_inr; cbv beta zeta.
  match goal with |- context [df_rename "value" id ?d] => exists (df_rename "value" id d) end.
  assert (well_formed d0 ∧ index d0 = index d) as [Hwf0 Hidx0].
  { eapply well_formed_drop; [done|]. by eapply well_formed_pd_DataFrame. }
  assert (length l0 = index d0) as Hl0.
  { erewrite to_datetime_length by done. by eapply getitem_length. }
  assert (well_formed (df_setitem "date" l0 d0)) as Hwf1 by by apply well_formed_setitem.
  split; [|split].
  - rewrite to_numeric_coerce_length. cbn [df_rename index].
    rewrite !index_setitem. erewrite getitem_length; [|done..].
    by rewrite index_setitem.
  - cbn [df_rename columns]. intros Hnil%fmap_nil_inv.
    pose proof (getitem_setitem "value" (to_numeric_coerce E l1) (df_setitem "date" l0 d0)) as Hg.
    apply getitem_columns in Hg. done.
  - rewrite bind_get_total, bind_set_total; cbv beta. unfold found_line.
    case_bool_decide; [by rewrite bind_print | by rewrite bind_ret, app_nil_r].
Qed.
End Phases.

(** ** The counter *)
Section Counter.
Context {T N : Type} (E : Env T N) {tables : Unicode}.

(** Over the [try] block the counter grows by the missing values of the
    series. *)
Lemma try_block_total name id key sd ed s :
  total_nas_found (exec (try_block E name id key sd ed) s) =
  total_nas_found s + missing_count E key sd ed (name, id).
Proof.
  unfold missing_count, exec. cbn [snd].
  destruct (values_at_coercion E id key sd ed) as [value|] eqn:Hv.
  - destruct (try_block_reaches E name id key sd ed value s Hv) as (df & _ & _ & ->).
    destruct (df_empty df); [done|]. unfold mbind, M_bind, to_csv.
    by destruct (open_for_writing E (filename name)).
  - destruct (try_block_misses E name id key sd ed s Hv) as (r & lines & _ & ->).
    cbn. lia.
Qed.

Lemma iteration_total key sd ed item s :
  total_nas_found (exec (iteration E key sd ed item) s) =
  total_nas_found s + missing_count E key sd ed item.
Proof.
  destruct item as [name id]. unfold exec. rewrite iteration_block.
  pose proof (try_block_total name id key sd ed
    (mkState (total_nas_found s) (stdout s ++ [Attempting name id]) (files s))) as Ht.
  unfold exec in Ht.
  by destruct (try_block _ _ _ _ _ _ _) as [[e|[]] s'].
Qed.

(** A series that is skipped, at either check, leaves the counter as it
    was. *)
Lemma skip_counts_nothing key sd ed name id s :
  NoObservations id ∈ printed (iteration E key sd ed (name, id)) s ∨
  NoValidNumeric id ∈ printed (iteration E key sd ed (name, id)) s →
  total_nas_found (exec (iteration E key sd ed (name, id)) s) = total_nas_found s.
Proof.
  intros Hskip. rewrite iteration_total. unfold missing_count. cbn [snd].
  destruct (values_at_coercion E id key sd ed) as [value|] eqn:Hv; [|lia].
  destruct (try_block_reaches E name id key sd ed value
              (mkState (total_nas_found s) (stdout s ++ [Attempting name id]) (files s)) Hv)
    as (df & Hlen & Hcols & Hblock).
  cbn [total_nas_found stdout files] in Hblock.
  destruct (df_empty df) eqn:Hempty.
  - unfold df_empty in Hempty. apply orb_true_iff in Hempty as [Hi|Hc].
    + apply bool_decide_eq_true in Hi. rewrite Hi in Hlen.
      apply nil_length_inv in Hlen as ->. cbn. lia.
    + by apply bool_decide_eq_true in Hc.
  - exfalso.
    assert (∃ l, (is_error_line l = true ∨ ∃ n p, l = Saved n p) ∧
              printed (iteration E key sd ed (name, id)) s =
                Attempting name id :: found_line (isna_sum value) id ++ [l])
      as (l & Hl & Hp).
    { pose proof (iteration_block E key sd ed name id s) as Hit.
      rewrite Hblock in Hit. unfold mbind, M_bind, to_csv in Hit.
      destruct (open_for_writing E (filename name)) as [e|]; cbn in Hit.
      - exists (error_line id e). split; [left; apply error_line_is_error|].
        rewrite <- !app_assoc in Hit. exact (printed_spec _ _ _ _ _ _ Hit).
      - exists (Saved (df_len df) (filename name)). split; [right; eauto|].
        rewrite <- !app_assoc in Hit. exact (printed_spec _ _ _ _ _ _ Hit). }
    rewrite Hp in Hskip.
    assert (∀ x, x = NoObservations id ∨ x = NoValidNumeric id →
                 x ∈ Attempting name id :: found_line (isna_sum value) id ++ [l] → False)
      as Hno.
    { intros x Hx [->|[->%elem_of_found_line| ->%list_elem_of_singleton]%elem_of_app]%elem_of_cons.
      - by destruct Hx.
      - by destruct Hx.
      - destruct Hl as [Hl|(n & p & Hl)], Hx as [Hx|Hx]; subst; done. }
    destruct Hskip as [Hs|Hs];
      [apply (Hno _ (or_introl eq_refl) Hs) | apply (Hno _ (or_intror eq_refl) Hs)].
Qed.
End Counter.

(** ** The loop and the whole function *)
Section Loop.
Context {T N : Type} (E : Env T N) {tables : Unicode}.
Context (api_key start_date end_date : string).
Local Abbreviation it := (iteration E api_key start_date end_date).

Lemma loop_total items s :
  total_nas_found (exec (for_each items it) s) =
  total_nas_found s + sum_list (missing_count E api_key start_date end_date <$> items).
Proof.
  revert s. induction items as [|x items IH]; intros s; [cbn; lia|].
  unfold exec. rewrite for_each_cons by apply iteration_returns.
  fold (exec (for_each items it) (exec (it x) s)).
  rewrite IH, iteration_total. cbn. lia.
Qed.

Lemma loop_stdout items s :
  ∃ lines,
    stdout (exec (for_each items it) s) = stdout s ++ lines ∧
    omap attempted lines = items ∧
    total_nas_found (exec (for_each items it) s) =
      total_nas_found s + sum_list (found <$> lines).
Proof.
  revert s. induction items as [|[name id] items IH]; intros s.
  - exists []. cbn. by rewrite app_nil_r, Nat.add_0_r.
  - destruct (iteration_uniform E api_key start_date end_date name id)
      as (l1 & w & Ha & Hit).
    unfold exec. rewrite for_each_cons by apply iteration_returns.
    unfold exec. rewrite Hit. cbn [snd].
    destruct (IH (mkState (total_nas_found s + sum_list (found <$> l1))
                          (stdout s ++ Attempting name id :: l1)
                          (apply_write (filename name) w (files s))))
      as (l2 & Hs & Hat & Ht).
    unfold exec in Hs, Ht. cbn in Hs, Ht.
    exists (Attempting name id :: l1 ++ l2). split; [|split].
    + rewrite Hs. by rewrite <- app_assoc.
    + cbn. by rewrite omap_app, Ha, Hat.
    + rewrite Ht. cbn. rewrite fmap_app, sum_list_app. lia.
Qed.

Lemma loop_uniform items :
  ∃ lines ws,
    ∀ s, for_each items (iteration E api_key start_date end_date) s =
         (inr tt, mkState (total_nas_found s + sum_list (found <$> lines))
                          (stdout s ++ lines) (apply_writes ws (files s))).
Proof.
  induction items as [|[name id] items (l2 & ws & IH)].
  - exists [], []. intros s. cbn. by rewrite Nat.add_0_r, app_nil_r, state_eta.
  - destruct (iteration_uniform E api_key start_date end_date name id)
      as (l1 & w & _ & Hit).
    exists (Attempting name id :: l1 ++ l2), ((filename name, w) :: ws).
    intros s. rewrite for_each_cons by apply iteration_returns.
    unfold exec. rewrite Hit, IH. cbn.
    by rewrite fmap_app, sum_list_app, Nat.add_assoc, <- app_assoc.
Qed.

(** The whole function: the counter starts at zero, the loop runs, and the
    two summary lines are printed. *)
Lemma run_unfold items s :
  get_fred_series_and_export_csv E items api_key start_date s =
  let s1 := exec (for_each items (iteration E api_key start_date (today E)))
                 (mkState 0 (stdout s) (files s)) in
  (inr tt, mkState (total_nas_found s1)
                   (stdout s1 ++ [Completed; TotalNA (total_nas_found s1)])
                   (files s1)).
Proof.
  unfold get_fred_series_and_export_csv. cbv zeta. rewrite bind_set_total.
  pose proof (for_each_returns items (iteration E api_key start_date (today E))
                (mkState 0 (stdout s) (files s))
                (iteration_returns E api_key start_date (today E))) as Hr.
  unfold result, exec in *. unfold mbind at 1, M_bind at 1.
  destruct (for_each _ _ _) as [[e|[]] s1]; [done|]. cbn [fst snd] in *.
  rewrite bind_print, bind_get_total. unfold print; cbn. by rewrite <- app_assoc.
Qed.
End Loop.

Section Run.
Context {T N : Type} (E : Env T N) {tables : Unicode}.

(** Running the whole function a second time leaves the files as the
    first run left them. *)
Lemma run_idempotent items api_key start_date s :
  files (exec (get_fred_series_and_export_csv E items api_key start_date)
           (exec (get_fred_series_and_export_csv E items api_key start_date) s)) =
  files (exec (get_fred_series_and_export_csv E items api_key start_date) s).
Proof.
  destruct (loop_uniform E api_key start_date (today E) items) as (lines & ws & Hloop).
  unfold exec. rewrite !run_unfold. cbv zeta. unfold exec. rewrite !Hloop.
  cbn [snd files stdout total_nas_found]. apply apply_writes_twice.
Qed.
End Run.

(** ** Frames built from records *)
Section Records.
Context {T N : Type} (E : Env T N) {tables : Unicode}.

Lemma try_block_records name id key sd ed response data obs recs s :
  requests_get E (api_url id key sd ed) = inr response →
  raise_for_status response = inr tt →
  json response = inr data →
  py_getitem "observations" data = inr obs →
  as_records obs = Some recs →
  recs ≠ [] →
  "date" ∈ union_keys recs → "value" ∈ union_keys recs →
  try_block E name id key sd ed s =
    match to_datetime E (record_cell "date" <$> recs) with
    | inl e => (inl e, s)
    | inr dates =>
        (to_csv E (cleaned_frame E id recs dates) (filename name);;
         print (Saved (length recs) (filename name)))
          (mkState (total_nas_found s + isna_sum (coerced_values E recs))
                   (stdout s ++ found_line (isna_sum (coerced_values E recs)) id)
                   (files s))
    end.
Proof.
  intros Hget Hst Hjs Hobs Hrec Hne Hd Hv.
  assert ("date" ∈ kept_keys recs) as Hd'.
  { apply kept_keys_elem; [done|]. apply (bool_decide_unpack _). by vm_compute. }
  assert ("value" ∈ kept_keys recs) as Hv'.
  { apply kept_keys_elem; [done|]. apply (bool_decide_unpack _). by vm_compute. }
  unfold try_block.
  rewrite Hget, bind_call_inr; cbv beta.
  rewrite Hst, bind_call_inr; cbv beta.
  rewrite Hjs, bind_call_inr; cbv beta.
  rewrite (py_getitem_in _ _ _ Hobs), bind_call_inr; cbv beta iota.
  rewrite bind_assoc, Hobs, bind_call_inr; cbv beta.
  rewrite bind_ret; cbv beta.
  rewrite (as_records_truthy _ _ Hrec Hne). cbn [negb].
  rewrite bind_call_inr; cbv beta. unfold pd_DataFrame. rewrite Hrec, bind_call_inr; cbv beta.
  rewrite frame_of_records_tabulate, drop_tabulate, bind_call_inr; cbv beta.
  fold (kept_keys recs).
  rewrite getitem_tabulate by done. rewrite bind_call_inr.
  destruct (to_datetime E (record_cell "date" <$> recs)) as [e|dates] eqn:Hdt;
    [by rewrite bind_call_inl|].
  rewrite bind_call_inr; cbv beta zeta.
  rewrite setitem_tabulate by done.
  rewrite getitem_tabulate by done. rewrite bind_call_inr; cbv beta zeta.
  rewrite setitem_tabulate by done.
  rewrite getitem_tabulate by done. rewrite bind_call_inr; cbv beta zeta.
  rewrite (bool_decide_eq_true_2 ("value" = "value")) by done.
  rewrite (bool_decide_eq_false_2 ("value" = "date")) by done.
  fold (coerced_values E recs).
  rewrite rename_tabulate.
  assert (mkFrame (length recs)
            ((λ k, (if bool_decide (k = "value") then Name id else Name k,
                    if bool_decide (k = "value") then coerced_values E recs
                    else if bool_decide (k = "date") then dates
                    else record_cell k <$> recs)) <$> kept_keys recs)
          = cleaned_frame E id recs dates) as -> by done.
  assert (df_empty (cleaned_frame E id recs dates) = false) as ->.
  { unfold df_empty, cleaned_frame; cbn.
    rewrite bool_decide_eq_false_2 by (by destruct recs).
    rewrite bool_decide_eq_false_2; [done|].
    intros Hnil%fmap_nil_inv. rewrite Hnil in Hd'. by apply elem_of_nil in Hd'. }
  rewrite bind_get_total, bind_set_total; cbv beta. unfold found_line.
  case_bool_decide; [rewrite bind_print | rewrite bind_ret]; cbn [total_nas_found stdout files].
  - done.
  - by rewrite app_nil_r.
Qed.

Lemma iteration_records name id key sd ed response data obs recs s :
  requests_get E (api_url id key sd ed) = inr response →
  raise_for_status response = inr tt →
  json response = inr data →
  py_getitem "observations" data = inr obs →
  as_records obs = Some recs →
  recs ≠ [] →
  "date" ∈ union_keys recs → "value" ∈ union_keys recs →
  iteration E key sd ed (name, id) s =
  (inr tt,
   match to_datetime E (record_cell "date" <$> recs) with
   | inl e =>
       mkState (total_nas_found s)
               (stdout s ++ [Attempting name id; error_line id e]) (files s)
   | inr dates =>
       let n := isna_sum (coerced_values E recs) in
       match open_for_writing E (filename name) with
       | Some e =>
           mkState (total_nas_found s + n)
                   (stdout s ++ Attempting name id :: found_line n id ++ [error_line id e])
                   (files s)
       | None =>
           mkState (total_nas_found s + n)
                   (stdout s ++ Attempting name id :: found_line n id ++
                      [Saved (length recs) (filename name)])
                   (<[filename name :=
                        csv_text (csv_table E (cleaned_frame E id recs dates))]> (files s))
       end
   end).
Proof.
  intros Hget Hst Hjs Hobs Hrec Hne Hd Hv.
  rewrite iteration_block.
  rewrite (try_block_records name id key sd ed response data obs recs) by done.
  destruct (to_datetime E _) as [e|dates]; cbn.
  - by rewrite <- app_assoc.
  - unfold mbind, M_bind, to_csv.
    destruct (open_for_writing E (filename name)) as [e|]; cbn.
    + f_equal. f_equal. by rewrite <- !app_assoc.
    + f_equal. f_equal. by rewrite <- !app_assoc.
Qed.

Lemma cleaned_frame_nonempty id recs dates :
  recs ≠ [] → "value" ∈ union_keys recs →
  df_empty (cleaned_frame E id recs dates) = false.
Proof.
  intros Hne Hv. unfold df_empty, cleaned_frame; cbn.
  rewrite bool_decide_eq_false_2 by (by destruct recs).
  rewrite bool_decide_eq_false_2; [done|].
  intros Hnil%fmap_nil_inv.
  assert ("value" ∈ kept_keys recs) as Hv'.
  { apply kept_keys_elem; [done|]. apply (bool_decide_unpack _). by vm_compute. }
  rewrite Hnil in Hv'. by apply elem_of_nil in Hv'.
Qed.

Lemma has_both_keys (recs : list (list (string * pyobj))) :
  recs ≠ [] →
  Forall (λ r, dict_has "date" r = true ∧ dict_has "value" r = true) recs →
  "date" ∈ union_keys recs ∧ "value" ∈ union_keys recs.
Proof.
  intros Hne Hall. split; apply union_keys_has; try done.
  - eapply Forall_impl; [exact Hall|]. by intros r [].
  - eapply Forall_impl; [exact Hall|]. by intros r [].
Qed.

Lemma labels_after_drop (df df' : DataFrame T N) k :
  df_drop (filter (λ k, has_column (Name k) df = true) columns_to_drop) df = inr df' →
  k ∈ columns_to_drop → Name k ∉ labels df'.
Proof.
  rewrite drop_present. intros [= <-] Hk. unfold labels; cbn [columns].
  intros [[l c] [Hl Hin]]%list_elem_of_fmap. cbn [fst] in Hl. subst l.
  apply list_elem_of_filter in Hin as [Hn _]. apply Hn. cbn [fst].
  change (Name k ∈ Name <$> columns_to_drop). apply list_elem_of_fmap. eauto.
Qed.

Lemma csv_table_length (df : DataFrame T N) : length (csv_table E df) = S (index df).
Proof. unfold csv_table. cbn. by rewrite length_fmap, length_seq. Qed.

Lemma csv_table_lookup (df : DataFrame T N) i :
  i < index df → csv_table E df !! S i = Some (csv_row E df i).
Proof.
  intros Hi. unfold csv_table.
  change ((csv_row E df <$> seq 0 (index df)) !! i = Some (csv_row E df i)).
  by rewrite list_lookup_fmap, lookup_seq_lt.
Qed.

Lemma csv_header_cleaned id recs dates :
  csv_header (cleaned_frame E id recs dates) =
  (λ k, if bool_decide (k = "value") then id else k) <$> kept_keys recs.
Proof.
  unfold csv_header, labels, cleaned_frame; cbn. rewrite <- !list_fmap_compose.
  apply list_fmap_ext. intros _ k _; cbn. by case_bool_decide.
Qed.

Lemma csv_row_cleaned id recs dates i :
  csv_row E (cleaned_frame E id recs dates) i =
  (λ k, render E (cleaned_column E recs dates k)
               (nth i (cleaned_column E recs dates k) CNaN)) <$> kept_keys recs.
Proof. unfold csv_row, cleaned_frame; cbn. by rewrite <- list_fmap_compose. Qed.

Lemma coerced_values_lookup recs i r :
  recs !! i = Some r →
  coerced_values E recs !! i =
  Some (match to_numeric_value E (record_cell "value" r) with
        | Some v => CNum v
        | None => CNaN
        end).
Proof.
  intros Hi. unfold coerced_values, to_numeric_coerce.
  by rewrite !list_lookup_fmap, Hi.
Qed.

Lemma csv_value_cell id recs dates i j r :
  recs !! i = Some r →
  kept_keys recs !! j = Some "value" →
  csv_row E (cleaned_frame E id recs dates) i !! j =
  Some (match to_numeric_value E (record_cell "value" r) with
        | Some v => format_value E (coerced_values E recs) (CNum v)
        | None => ""
        end).
Proof.
  intros Hi Hj. rewrite csv_row_cleaned, list_lookup_fmap, Hj. cbn. f_equal.
  unfold cleaned_column. rewrite bool_decide_eq_true_2 by done.
  erewrite nth_lookup_Some by (by apply coerced_values_lookup).
  by destruct (to_numeric_value E _).
Qed.

(** The row of an observation when the frame has the two columns [date]
    and [value]. *)
Lemma csv_row_date_value id recs dates i r :
  kept_keys recs = ["date"; "value"] →
  recs !! i = Some r →
  csv_row E (cleaned_frame E id recs dates) i =
  [render E dates (nth i dates CNaN);
   match to_numeric_value E (record_cell "value" r) with
   | Some v => format_value E (coerced_values E recs) (CNum v)
   | None => ""
   end].
Proof.
  intros Hkept Hi.
  pose proof (csv_value_cell id recs dates i 1 r Hi) as Hcell.
  rewrite csv_row_cleaned in *. rewrite Hkept in *. cbn [fmap list_fmap] in *.
  specialize (Hcell eq_refl). injection Hcell as ->.
  unfold cleaned_column.
  rewrite (bool_decide_eq_false_2 ("date" = "value")) by done.
  by rewrite (bool_decide_eq_true_2 ("date" = "date")).
Qed.

Lemma isna_sum_coerced recs :
  isna_sum (coerced_values E recs) =
  length (filter (λ r, to_numeric_value E (record_cell "value" r) = None) recs).
Proof.
  unfold isna_sum, coerced_values, to_numeric_coerce.
  induction recs as [|r recs IH]; [done|].
  rewrite !fmap_cons, !filter_cons.
  destruct (to_numeric_value E (record_cell "value" r)) eqn:Hv; cbn.
  - rewrite decide_False by done. apply IH.
  - rewrite decide_True by done. cbn. by rewrite IH.
Qed.
End Records.

(** ** The file name *)
Lemma normalize_char_spec c :
  replace_char " " "_" (lower_char c) = normalize_char c.
Proof. destruct c as [[] [] [] [] [] [] [] []]; reflexivity. Qed.

Lemma str_map_compose f g s : str_map f (str_map g s) = str_map (λ c, f (g c)) s.
Proof. induction s as [|c s IH]; cbn; [done | by rewrite IH]. Qed.

Lemma str_map_ext f g s : (∀ c, f c = g c) → str_map f s = str_map g s.
Proof. intros H. induction s as [|c s IH]; cbn; [done | by rewrite H, IH]. Qed.

Lemma str_map_length f s : String.length (str_map f s) = String.length s.
Proof. induction s as [|c s IH]; cbn; [done | by rewrite IH]. Qed.

Lemma get_str_map f s i : String.get i (str_map f s) = f <$> String.get i s.
Proof.
  revert i. induction s as [|c s IH]; intros [|i]; cbn; done.
Qed.

Lemma is_ascii_map f s :
  (∀ c, (nat_of_ascii c <? 128) = true → (nat_of_ascii (f c) <? 128) = true) →
  is_ascii s = true → is_ascii (str_map f s) = true.
Proof.
  intros Hf. induction s as [|c s IH]; [done|]. cbn [is_ascii str_map].
  intros [Hc Hs]%andb_true_iff. by rewrite (Hf c Hc), IH.
Qed.

Lemma normalize_char_ascii c :
  (nat_of_ascii c <? 128) = true → (nat_of_ascii (normalize_char c) <? 128) = true.
Proof. by destruct c as [[] [] [] [] [] [] [] []]. Qed.

Lemma replace_space_gone c : Ascii.eqb (replace_char " " "_" c) " " = false.
Proof. by destruct c as [[] [] [] [] [] [] [] []]. Qed.

Lemma string_app_cons c (s t : string) : String c s +:+ t = String c (s +:+ t).
Proof. reflexivity. Qed.

Lemma string_app_length (s1 s2 : string) :
  String.length (s1 +:+ s2) = String.length s1 + String.length s2.
Proof.
  induction s1 as [|c s1 IH]; [done|].
  rewrite string_app_cons. cbn [String.length]. by rewrite IH.
Qed.

Lemma string_app_inj_l (s1 s2 t : string) : s1 +:+ t = s2 +:+ t → s1 = s2.
Proof.
  intros Heq.
  assert (String.length s1 = String.length s2) as Hlen.
  { apply (f_equal String.length) in Heq. rewrite !string_app_length in Heq. lia. }
  revert s2 Heq Hlen. induction s1 as [|c s1 IH]; intros [|c' s2] Heq Hlen; try done.
  rewrite !string_app_cons in Heq. cbn [String.length] in Hlen.
  injection Heq as -> Heq. f_equal. apply IH; [exact Heq | lia].
Qed.

Lemma string_app_assoc (s1 s2 s3 : string) : (s1 +:+ s2) +:+ s3 = s1 +:+ (s2 +:+ s3).
Proof.
  induction s1 as [|c s1 IH]; [done|]. by rewrite !string_app_cons, IH.
Qed.

Lemma str_has_char_app p (s t : string) :
  str_has_char p (s +:+ t) = str_has_char p s || str_has_char p t.
Proof.
  induction s as [|c s IH]; [done|].
  rewrite string_app_cons. cbn [str_has_char]. by rewrite IH, orb_assoc.
Qed.

Lemma str_has_char_map p f (s : string) :
  (∀ c, p (f c) = false) → str_has_char p (str_map f s) = false.
Proof. intros Hp. induction s as [|c s IH]; [done|]. cbn. by rewrite Hp, IH. Qed.

Lemma normalize_char_idem c : normalize_char (normalize_char c) = normalize_char c.
Proof. by destruct c as [[] [] [] [] [] [] [] []]. Qed.

Lemma normalize_char_plain c :
  Ascii.eqb (normalize_char c) " " || is_upper (normalize_char c) = false.
Proof. by destruct c as [[] [] [] [] [] [] [] []]. Qed.

Section FileName.
Context {tables : Unicode}.

Lemma str_lower_ascii name : is_ascii name = true → str_lower name = str_map lower_char name.
Proof. intros Ha. unfold str_lower. by rewrite Ha. Qed.

Lemma normalized_name name :
  is_ascii name = true →
  str_replace " " "_" (str_lower name) = str_map normalize_char name.
Proof.
  intros Ha. rewrite str_lower_ascii by done. unfold str_replace. rewrite str_map_compose.
  apply str_map_ext, normalize_char_spec.
Qed.

Lemma filename_unfold name :
  filename name = "data/" +:+ str_replace " " "_" (str_lower name) +:+ ".csv".
Proof. reflexivity. Qed.

Lemma filename_spec name :
  is_ascii name = true →
  filename name = "data/" +:+ str_map normalize_char name +:+ ".csv".
Proof. intros Ha. by rewrite filename_unfold, normalized_name. Qed.

Lemma filename_no_space name :
  str_has_char (λ c, Ascii.eqb c " ") (filename name) = false.
Proof.
  rewrite filename_unfold, !str_has_char_app. unfold str_replace.
  by rewrite (str_has_char_map _ _ _ replace_space_gone).
Qed.
End FileName.

(** * The properties of the specification *)
Section Claims.
Context {T N : Type} (E : Env T N) {tables : Unicode}.

(** C1, for records of the documented shape.  For a series processed successfully whose records
    carry, besides [realtime_start] and [realtime_end], exactly the keys
    [date] and [value] in this order, the file written holds the header
    [date, <series_id>] and then one row of two fields per observation.
    The drop of the two metadata columns never raises, whether they are
    there or not, and leaves no column under either name. *)
Theorem C1_csv_columns
    (name series_id api_key start_date end_date : string)
    (response : Response) (data obs : pyobj)
    (recs : list (list (string * pyobj))) (dates : list (cell T N)) (s : state) :
  requests_get E (api_url series_id api_key start_date end_date) = inr response →
  raise_for_status response = inr tt →
  json response = inr data →
  py_getitem "observations" data = inr obs →
  as_records obs = Some recs →
  recs ≠ [] →
  Forall (λ r, filter (λ k, k ∉ columns_to_drop) (dict_keys r) = ["date"; "value"]) recs →
  to_datetime E (record_cell "date" <$> recs) = inr dates →
  open_for_writing E (filename name) = None →
  let it := iteration E api_key start_date end_date (name, series_id) in
  (∃ rows,
     files (exec it s) =
       <[filename name := csv_text (["date"; series_id] :: rows)]> (files s) ∧
     length rows = length recs ∧
     (∀ i r, recs !! i = Some r →
        rows !! i =
        Some [render E dates (nth i dates CNaN);
              match to_numeric_value E (record_cell "value" r) with
              | Some v => format_value E (coerced_values E recs) (CNum v)
              | None => ""
              end])) ∧
  (∀ df : DataFrame T N, ∃ df',
     df_drop (filter (λ k, has_column (Name k) df = true) columns_to_drop) df = inr df' ∧
     (Name "realtime_start" ∉ labels df') ∧ (Name "realtime_end" ∉ labels df')).
Proof.
  intros Hget Hst Hjs Hobs Hrec Hne Hshape Hdt Hopen. cbv zeta.
  pose proof (kept_keys_shape recs Hne Hshape) as Hkept.
  assert ("date" ∈ union_keys recs ∧ "value" ∈ union_keys recs) as [Hd Hv].
  { assert (∀ k, k ∈ kept_keys recs → k ∈ union_keys recs) as Hsub.
    { intros k Hk. by apply list_elem_of_filter in Hk as []. }
    rewrite Hkept in Hsub. split; apply Hsub; rewrite !elem_of_cons; tauto. }
  pose proof (iteration_records E name series_id api_key start_date end_date
                response data obs recs s Hget Hst Hjs Hobs Hrec Hne Hd Hv) as Hit.
  rewrite Hdt, Hopen in Hit. cbv zeta in Hit.
  split.
  - exists (csv_row E (cleaned_frame E series_id recs dates) <$> seq 0 (length recs)).
    split; [|split].
    + unfold exec. rewrite Hit. cbn [snd files]. do 3 f_equal.
      unfold csv_table. f_equal. by rewrite csv_header_cleaned, Hkept.
    + by rewrite length_fmap, length_seq.
    + intros i r Hr. rewrite list_lookup_fmap.
      rewrite lookup_seq_lt by (by eapply lookup_lt_Some). cbn [fmap option_fmap option_map].
      f_equal. by apply csv_row_date_value.
  - intros df. rewrite drop_present. eexists. split; [done|].
    split; eapply labels_after_drop; try apply drop_present;
      unfold columns_to_drop; rewrite !elem_of_cons; tauto.
Qed.

(** C2.  An observation whose value is a string that is not a number gets
    the missing marker in the cleaned value column; the conversion raises
    nothing (when the path can be opened, no error line is printed at all);
    the count of the series is the number of observations whose value
    became missing, it is positive, it is reported on its own line, and it
    is added to the running total. *)
Theorem C2_non_numeric_coerced
    (name series_id api_key start_date end_date : string)
    (response : Response) (data obs : pyobj)
    (recs : list (list (string * pyobj)))
    (i : nat) (r : list (string * pyobj)) (raw : string) (s : state) :
  requests_get E (api_url series_id api_key start_date end_date) = inr response →
  raise_for_status response = inr tt →
  json response = inr data →
  py_getitem "observations" data = inr obs →
  as_records obs = Some recs →
  Forall (λ r, dict_has "date" r = true ∧ dict_has "value" r = true) recs →
  to_datetime_raises E (record_cell "date" <$> recs) = None →
  recs !! i = Some r →
  dict_get "value" r = Some (PyStr raw) →
  to_numeric_value E (CObj (PyStr raw)) = None →
  let it := iteration E api_key start_date end_date (name, series_id) in
  let nas_in_current_series := isna_sum (coerced_values E recs) in
  coerced_values E recs !! i = Some CNaN ∧
  result it s = inr tt ∧
  (open_for_writing E (filename name) = None →
   Forall (λ l, is_error_line l = false) (printed it s)) ∧
  nas_in_current_series =
    length (filter (λ r, to_numeric_value E (record_cell "value" r) = None) recs) ∧
  0 < nas_in_current_series ∧
  FoundNA nas_in_current_series series_id ∈ printed it s ∧
  total_nas_found (exec it s) = total_nas_found s + nas_in_current_series.
Proof.
  intros Hget Hst Hjs Hobs Hrec Hkeys Hraises Hr Hraw Hnan. cbv zeta.
  assert (recs ≠ []) as Hne by (intros ->; done).
  destruct (has_both_keys recs Hne Hkeys) as [Hd Hv].
  destruct (to_datetime_ok E _ Hraises) as [dates Hdt].
  pose proof (iteration_records E name series_id api_key start_date end_date
                response data obs recs s Hget Hst Hjs Hobs Hrec Hne Hd Hv) as Hit.
  rewrite Hdt in Hit. cbv zeta in Hit.
  assert (record_cell (T:=T) (N:=N) "value" r = CObj (PyStr raw)) as Hcell.
  { unfold record_cell. by rewrite Hraw. }
  assert (coerced_values E recs !! i = Some CNaN) as Hi.
  { rewrite (coerced_values_lookup E recs i r Hr). by rewrite Hcell, Hnan. }
  assert (0 < isna_sum (coerced_values E recs)) as Hpos.
  { rewrite isna_sum_coerced.
    assert (r ∈ filter (λ r, to_numeric_value E (record_cell "value" r) = None) recs) as Hin.
    { apply list_elem_of_filter. split; [by rewrite Hcell|]. by eapply list_elem_of_lookup_2. }
    destruct (filter _ recs); [by apply elem_of_nil in Hin | cbn; lia]. }
  split; [done|]. split; [apply iteration_returns|].
  split; [|split; [apply isna_sum_coerced|split; [done|split]]].
  - intros Hopen. rewrite Hopen in Hit. rewrite (printed_spec _ _ _ _ _ _ Hit).
    apply Forall_cons. split; [done|]. apply Forall_app. split.
    + apply Forall_forall. by intros l ->%elem_of_found_line.
    + by apply Forall_singleton.
  - destruct (open_for_writing E _); rewrite (printed_spec _ _ _ _ _ _ Hit);
      apply elem_of_cons; right; apply elem_of_app; left;
      unfold found_line; rewrite bool_decide_eq_true_2 by done; left.
  - unfold exec. destruct (open_for_writing E _); by rewrite Hit.
Qed.

(** C3.  Whatever the mapping and whatever each series does, no exception
    leaves an iteration: one raised in the [try] block is caught there and
    answered by one printed error line.  Every series of the mapping is
    announced, in order, so the loop goes on after a failure; what an
    iteration prints, counts and writes does not depend on the state the
    earlier iterations left.  The function returns, and the last two lines
    it prints are the summary with the total count. *)
Theorem C3_failures_do_not_abort
    (series_ids_dict : list (string * string)) (api_key start_date : string)
    (s : state) :
  let run := get_fred_series_and_export_csv E series_ids_dict api_key start_date in
  let it := iteration E api_key start_date (today E) in
  result run s = inr tt ∧
  (∃ lines,
     stdout (exec run s) =
       stdout s ++ lines ++ [Completed; TotalNA (total_nas_found (exec run s))] ∧
     omap attempted lines = series_ids_dict) ∧
  (∀ item s0, result (it item) s0 = inr tt) ∧
  (∀ name series_id s0 e s1,
     try_block E name series_id api_key start_date (today E)
       (mkState (total_nas_found s0) (stdout s0 ++ [Attempting name series_id])
                (files s0)) = (inl e, s1) →
     it (name, series_id) s0 =
       (inr tt, mkState (total_nas_found s1)
                        (stdout s1 ++ [error_line series_id e]) (files s1)) ∧
     is_error_line (error_line series_id e) = true) ∧
  (∀ name series_id, ∃ lines w,
     ∀ s0, it (name, series_id) s0 =
           (inr tt, mkState (total_nas_found s0 + sum_list (found <$> lines))
                            (stdout s0 ++ Attempting name series_id :: lines)
                            (apply_write (filename name) w (files s0)))).
Proof.
  cbv zeta. split; [|split; [|split; [|split]]].
  - unfold result. by rewrite run_unfold.
  - unfold exec. rewrite run_unfold. cbv zeta. cbn [snd stdout total_nas_found].
    destruct (loop_stdout E api_key start_date (today E) series_ids_dict
                (mkState 0 (stdout s) (files s))) as (lines & Hs & Ha & _).
    exists lines. split; [|done]. rewrite Hs. cbn [stdout]. by rewrite <- app_assoc.
  - apply iteration_returns.
  - intros name series_id s0 e s1 Hblock. rewrite iteration_block, Hblock.
    split; [done | apply error_line_is_error].
  - intros name series_id.
    destruct (iteration_uniform E api_key start_date (today E) name series_id)
      as (lines & w & _ & Hit).
    by exists lines, w.
Qed.

(** C4.  When the decoded payload is an object without an [observations]
    field, or with an empty [observations] list, the iteration prints the
    line that announces the series and the line that reports the skip,
    writes no file, counts nothing, returns, and the loop goes on with the
    next series. *)
Theorem C4_empty_result_skipped
    (name series_id api_key start_date end_date : string)
    (response : Response) (d : list (string * pyobj))
    (rest : list (string * string)) (s : state) :
  requests_get E (api_url series_id api_key start_date end_date) = inr response →
  raise_for_status response = inr tt →
  json response = inr (PyDict d) →
  dict_get "observations" d = None ∨
  dict_get "observations" d = Some (PyList []) →
  let it := iteration E api_key start_date end_date in
  let s' := mkState (total_nas_found s)
              (stdout s ++ [Attempting name series_id; NoObservations series_id])
              (files s) in
  it (name, series_id) s = (inr tt, s') ∧
  for_each ((name, series_id) :: rest) it s = for_each rest it s'.
Proof.
  intros Hget Hst Hjs Hobs. cbv zeta.
  assert (iteration E api_key start_date end_date (name, series_id) s =
          (inr tt, mkState (total_nas_found s)
                     (stdout s ++ [Attempting name series_id; NoObservations series_id])
                     (files s))) as Hit.
  { rewrite iteration_block. unfold try_block.
    rewrite Hget, bind_call_inr; cbv beta.
    rewrite Hst, bind_call_inr; cbv beta.
    rewrite Hjs, bind_call_inr; cbv beta.
    cbn [py_in py_getitem]. rewrite bind_call_inr; cbv beta.
    destruct Hobs as [Hobs|Hobs].
    - assert (dict_has "observations" d = false) as ->.
      { apply not_true_is_false. rewrite dict_has_get, Hobs. by intros [? ?]. }
      rewrite bind_ret. cbn. by rewrite <- app_assoc.
    - assert (dict_has "observations" d = true) as ->.
      { apply dict_has_get. by rewrite Hobs. }
      rewrite Hobs, bind_assoc, bind_call_inr, bind_ret; cbv beta. cbn.
      by rewrite <- app_assoc. }
  split; [done|].
  rewrite for_each_cons by apply iteration_returns. unfold exec. by rewrite Hit.
Qed.

(** C5.  The check after the cleaning looks at the length of the frame
    only.  For records that all have a [date] and a [value], whatever the
    mix of numeric and non-numeric values, the file is written with the
    header and one row per observation, in order; in the row of an
    observation whose value is not numeric the cell of the value column
    is blank, in the row of one whose value is numeric it is the printed
    number; and the line of the check is not printed. *)
Theorem C5_missing_rows_retained
    (name series_id api_key start_date end_date : string)
    (response : Response) (data obs : pyobj)
    (recs : list (list (string * pyobj))) (dates : list (cell T N)) (s : state) :
  requests_get E (api_url series_id api_key start_date end_date) = inr response →
  raise_for_status response = inr tt →
  json response = inr data →
  py_getitem "observations" data = inr obs →
  as_records obs = Some recs →
  recs ≠ [] →
  Forall (λ r, dict_has "date" r = true ∧ dict_has "value" r = true) recs →
  to_datetime E (record_cell "date" <$> recs) = inr dates →
  open_for_writing E (filename name) = None →
  let it := iteration E api_key start_date end_date (name, series_id) in
  let df := cleaned_frame E series_id recs dates in
  files (exec it s) = <[filename name := csv_text (csv_table E df)]> (files s) ∧
  length (csv_table E df) = S (length recs) ∧
  (∀ i, i < length recs → csv_table E df !! S i = Some (csv_row E df i)) ∧
  (∀ i j r, recs !! i = Some r → kept_keys recs !! j = Some "value" →
     csv_row E df i !! j =
     Some (match to_numeric_value E (record_cell "value" r) with
           | Some v => format_value E (coerced_values E recs) (CNum v)
           | None => ""
           end)) ∧
  (NoValidNumeric series_id ∉ printed it s) ∧
  Saved (length recs) (filename name) ∈ printed it s.
Proof.
  intros Hget Hst Hjs Hobs Hrec Hne Hkeys Hdt Hopen. cbv zeta.
  destruct (has_both_keys recs Hne Hkeys) as [Hd Hv].
  pose proof (iteration_records E name series_id api_key start_date end_date
                response data obs recs s Hget Hst Hjs Hobs Hrec Hne Hd Hv) as Hit.
  rewrite Hdt, Hopen in Hit. cbv zeta in Hit.
  split; [|split; [|split; [|split; [|split]]]].
  - unfold exec. by rewrite Hit.
  - by rewrite csv_table_length.
  - intros i Hi. by apply csv_table_lookup.
  - intros i j r Hr Hj. by apply csv_value_cell.
  - rewrite (printed_spec _ _ _ _ _ _ Hit).
    intros [?|[?%elem_of_found_line|?%list_elem_of_singleton]%elem_of_app]%elem_of_cons;
      done.
  - rewrite (printed_spec _ _ _ _ _ _ Hit). apply elem_of_cons. right.
    apply elem_of_app. right. by apply list_elem_of_singleton.
Qed.

(** C6.  The end-to-end example: for the mapping with the one entry
    [Unemployment Rate], [UNRATE] and the response with the one observation
    of 2020-01-01 and 3.5, given that pandas reads and prints that date
    and that number as they stand and that the path can be opened, the
    function writes [data/unemployment_rate.csv] with the header line
    [date,UNRATE] and the line [2020-01-01,3.5], and the total count of
    missing values stays zero. *)
Theorem C6_unrate_example (api_key start_date : string) (response : Response)
    (t : T) (v : N) (s : state) :
  requests_get E (api_url "UNRATE" api_key start_date (today E)) = inr response →
  raise_for_status response = inr tt →
  json response = inr Example.unrate_payload →
  to_datetime_raises E [CObj (PyStr "2020-01-01")] = None →
  to_datetime_value E [CObj (PyStr "2020-01-01")] (CObj (PyStr "2020-01-01")) = Some t →
  format_value E [CDate t] (CDate t) = "2020-01-01" →
  to_numeric_value E (CObj (PyStr "3.5")) = Some v →
  format_value E [CNum v] (CNum v) = "3.5" →
  open_for_writing E "data/unemployment_rate.csv" = None →
  let run :=
    get_fred_series_and_export_csv E [("Unemployment Rate", "UNRATE")]
      api_key start_date in
  result run s = inr tt ∧
  files (exec run s) =
    <["data/unemployment_rate.csv" :=
        "date,UNRATE" +:+ newline +:+ "2020-01-01,3.5" +:+ newline]> (files s) ∧
  total_nas_found (exec run s) = 0 ∧
  stdout (exec run s) =
    stdout s ++ [Attempting "Unemployment Rate" "UNRATE";
                 Saved 1 "data/unemployment_rate.csv"; Completed; TotalNA 0].
Proof.
  intros Hget Hst Hjs Hraises Hdate Hfdate Hnum Hfnum Hopen. cbv zeta.
  set (recs := [[("date", PyStr "2020-01-01"); ("value", PyStr "3.5");
                 ("realtime_start", PyStr "x"); ("realtime_end", PyStr "y")]]).
  assert (to_datetime E (record_cell "date" <$> recs) = inr [CDate t]) as Hdt.
  { unfold to_datetime; cbn. by rewrite Hraises, Hdate. }
  assert (coerced_values E recs = [CNum v]) as Hco.
  { unfold coerced_values, to_numeric_coerce; cbn. by rewrite Hnum. }
  assert (kept_keys recs = ["date"; "value"]) as Hkept by (by vm_compute).
  assert (filename "Unemployment Rate" = "data/unemployment_rate.csv") as Hfile
    by (by vm_compute).
  assert (iteration E api_key start_date (today E) ("Unemployment Rate", "UNRATE")
            (mkState 0 (stdout s) (files s)) =
          (inr tt,
           mkState 0 (stdout s ++ [Attempting "Unemployment Rate" "UNRATE";
                                   Saved 1 "data/unemployment_rate.csv"])
             (<["data/unemployment_rate.csv" :=
                  "date,UNRATE" +:+ newline +:+ "2020-01-01,3.5" +:+ newline]> (files s))))
    as Hit.
  { rewrite (iteration_records E _ _ _ _ _ response Example.unrate_payload
               (PyList (PyDict <$> recs)) recs); try done.
    - rewrite Hdt, Hfile, Hopen, Hco. cbv zeta. cbn [isna_sum].
      f_equal. f_equal.
      unfold csv_table. rewrite csv_header_cleaned, Hkept.
      cbn [index cleaned_frame].
      change (seq 0 (length recs)) with [0]. cbn [fmap list_fmap].
      rewrite csv_row_cleaned, Hkept. unfold cleaned_column. rewrite Hco.
      cbn [fmap list_fmap].
      rewrite !(bool_decide_eq_false_2 ("date" = "value")) by done.
      rewrite !(bool_decide_eq_true_2 ("value" = "value")) by done.
      rewrite !(bool_decide_eq_true_2 ("date" = "date")) by done.
      cbn [nth render]. by rewrite Hfdate, Hfnum.
    - apply (bool_decide_unpack _). by vm_compute.
    - apply (bool_decide_unpack _). by vm_compute. }
  unfold result, exec. rewrite run_unfold. cbv zeta.
  unfold exec. rewrite for_each_cons by apply iteration_returns.
  unfold exec. rewrite Hit. cbn. rewrite <- app_assoc. done.
Qed.

(** C7.  For every name, the path of the file is [data/], then the name
    in lower case with every space replaced by an underscore, then [.csv]:
    it depends on the name alone, it holds no space, and every character
    of the lower-cased name that is not a space is kept in its place.  For
    an ASCII name, lower case is the letters [A] to [Z] turned into [a] to
    [z] and nothing else, so the name and its form in the path have the
    same length.  What an iteration writes, it writes under that path. *)
Theorem C7_file_path (api_key start_date end_date name series_id : string) :
  filename name = "data/" +:+ str_replace " " "_" (str_lower name) +:+ ".csv" ∧
  str_has_char (λ c, Ascii.eqb c " ") (filename name) = false ∧
  (∀ i, String.get i (str_replace " " "_" (str_lower name)) =
        (λ c, if Ascii.eqb c " " then "_"%char else c) <$> String.get i (str_lower name)) ∧
  (is_ascii name = true →
   str_lower name = str_map lower_char name ∧
   filename name = "data/" +:+ str_map normalize_char name +:+ ".csv" ∧
   String.length (str_map normalize_char name) = String.length name) ∧
  (∃ w, ∀ s,
     files (exec (iteration E api_key start_date end_date (name, series_id)) s) =
     apply_write (filename name) w (files s)).
Proof.
  destruct (iteration_uniform E api_key start_date end_date name series_id)
    as (lines & w & _ & Hit).
  split; [apply filename_unfold|]. split; [apply filename_no_space|].
  split; [intros i; apply get_str_map|].
  split.
  - intros Ha. split; [by apply str_lower_ascii|].
    split; [by apply filename_spec | apply str_map_length].
  - exists w. intros s. unfold exec. by rewrite Hit.
Qed.

(** C8.  Exporting the same series twice, with the same environment (the
    same date range and the same answer of the server), writes the same
    text to the same path both times: the second run leaves the files as
    the first run left them, and prints what the first run printed.  The
    same holds for the whole function run twice over a mapping. *)
Theorem C8_export_idempotent (api_key start_date end_date name series_id : string)
    (s : state) :
  let it := iteration E api_key start_date end_date (name, series_id) in
  files (exec it (exec it s)) = files (exec it s) ∧
  (∃ w, files (exec it s) = apply_write (filename name) w (files s) ∧
        files (exec it (exec it s)) =
          apply_write (filename name) w (files (exec it s))) ∧
  printed it (exec it s) = printed it s ∧
  (∀ series_ids_dict,
     let run := get_fred_series_and_export_csv E series_ids_dict api_key start_date in
     files (exec run (exec run s)) = files (exec run s)).
Proof.
  cbv zeta.
  destruct (iteration_uniform E api_key start_date end_date name series_id)
    as (lines & w & _ & Hit).
  unfold exec at 1 2 3 4 5 6 7 8. rewrite !Hit. cbn [snd files].
  split; [|split; [|split]].
  - rewrite apply_write_twice. by destruct w.
  - by exists w.
  - rewrite (printed_spec _ _ _ _ _ _ (Hit s)). apply (printed_spec _ _ _ _ _ _ (Hit _)).
  - intros series_ids_dict. apply run_idempotent.
Qed.

(** C9.  When [observations] is a non-empty list of records that all have
    a [date] and a [value], the check after the cleaning never fires: the
    cleaned frame is not empty, and the line of that check is not printed.
    If the dates convert and the path can be opened, the file is written and
    reported; when every value coerces to missing, the cell of the value
    column is blank in every row. *)
Theorem C9_emptiness_branch_unreachable
    (name series_id api_key start_date end_date : string)
    (response : Response) (data obs : pyobj)
    (recs : list (list (string * pyobj))) (s : state) :
  requests_get E (api_url series_id api_key start_date end_date) = inr response →
  raise_for_status response = inr tt →
  json response = inr data →
  py_getitem "observations" data = inr obs →
  as_records obs = Some recs →
  recs ≠ [] →
  Forall (λ r, dict_has "date" r = true ∧ dict_has "value" r = true) recs →
  let it := iteration E api_key start_date end_date (name, series_id) in
  (NoValidNumeric series_id ∉ printed it s) ∧
  (∀ dates, df_empty (cleaned_frame E series_id recs dates) = false) ∧
  (∀ dates,
     to_datetime E (record_cell "date" <$> recs) = inr dates →
     open_for_writing E (filename name) = None →
     files (exec it s) =
       <[filename name := csv_text (csv_table E (cleaned_frame E series_id recs dates))]>
         (files s) ∧
     Saved (length recs) (filename name) ∈ printed it s ∧
     (Forall (λ r, to_numeric_value E (record_cell "value" r) = None) recs →
      ∀ i j, i < length recs → kept_keys recs !! j = Some "value" →
        csv_row E (cleaned_frame E series_id recs dates) i !! j = Some "")).
Proof.
  intros Hget Hst Hjs Hobs Hrec Hne Hkeys. cbv zeta.
  destruct (has_both_keys recs Hne Hkeys) as [Hd Hv].
  pose proof (iteration_records E name series_id api_key start_date end_date
                response data obs recs s Hget Hst Hjs Hobs Hrec Hne Hd Hv) as Hit.
  split; [|split].
  - destruct (to_datetime E _) as [e|dates].
    + rewrite (printed_spec _ _ _ _ _ _ Hit).
      intros [?|[Hl|?%elem_of_nil]%elem_of_cons]%elem_of_cons; try done.
      pose proof (error_line_is_error series_id e) as He. by rewrite <- Hl in He.
    + cbv zeta in Hit. destruct (open_for_writing E _) as [e|];
        rewrite (printed_spec _ _ _ _ _ _ Hit);
        intros [?|[?%elem_of_found_line|Hl%list_elem_of_singleton]%elem_of_app]%elem_of_cons;
        try done.
      pose proof (error_line_is_error series_id e) as He. by rewrite <- Hl in He.
  - intros dates. by apply cleaned_frame_nonempty.
  - intros dates Hdt Hopen. rewrite Hdt, Hopen in Hit. cbv zeta in Hit.
    split; [|split].
    + unfold exec. by rewrite Hit.
    + rewrite (printed_spec _ _ _ _ _ _ Hit). apply elem_of_cons. right.
      apply elem_of_app. right. by apply list_elem_of_singleton.
    + intros Hall i j Hi Hj.
      destruct (lookup_lt_is_Some_2 recs i Hi) as [r Hr].
      rewrite (csv_value_cell E series_id recs dates i j r Hr Hj).
      rewrite Forall_forall in Hall. rewrite Hall; [done|].
      by eapply list_elem_of_lookup_2.
Qed.

(** C10.  The counter never decreases over an iteration.  After any prefix
    of the mapping it is the sum, over the series of the prefix, of the
    missing values of those that got to the coercion; it is also the sum
    of the counts the printed lines report.  A series that fails before the
    coercion, or is skipped at either emptiness check, adds nothing. *)
Theorem C10_running_total (api_key start_date : string) :
  let it := iteration E api_key start_date (today E) in
  let count := missing_count E api_key start_date (today E) in
  (∀ item s, total_nas_found s ≤ total_nas_found (exec (it item) s)) ∧
  (∀ item s, total_nas_found (exec (it item) s) = total_nas_found s + count item) ∧
  (∀ prefix s,
     total_nas_found (exec (set_total 0;; for_each prefix it) s) =
     sum_list (count <$> prefix)) ∧
  (∀ prefix s, ∃ lines,
     stdout (exec (set_total 0;; for_each prefix it) s) = stdout s ++ lines ∧
     total_nas_found (exec (set_total 0;; for_each prefix it) s) =
       sum_list (found <$> lines)) ∧
  (∀ series_ids_dict s,
     total_nas_found
       (exec (get_fred_series_and_export_csv E series_ids_dict api_key start_date) s) =
     sum_list (count <$> series_ids_dict)) ∧
  (∀ item s,
     values_at_coercion E item.2 api_key start_date (today E) = None →
     total_nas_found (exec (it item) s) = total_nas_found s) ∧
  (∀ name series_id s,
     NoObservations series_id ∈ printed (it (name, series_id)) s ∨
     NoValidNumeric series_id ∈ printed (it (name, series_id)) s →
     total_nas_found (exec (it (name, series_id)) s) = total_nas_found s).
Proof.
  cbv zeta. split; [|split; [|split; [|split; [|split; [|split]]]]].
  - intros item s. rewrite iteration_total. lia.
  - apply iteration_total.
  - intros prefix s. unfold exec. rewrite bind_set_total.
    pose proof (loop_total E api_key start_date (today E) prefix
                  (mkState 0 (stdout s) (files s))) as Hloop.
    unfold exec in Hloop. exact Hloop.
  - intros prefix s. unfold exec. rewrite bind_set_total.
    destruct (loop_stdout E api_key start_date (today E) prefix
                (mkState 0 (stdout s) (files s))) as (lines & Hs & _ & Ht).
    exists lines. by split.
  - intros items s. unfold exec. rewrite run_unfold. cbv zeta. cbn [snd total_nas_found].
    pose proof (loop_total E api_key start_date (today E) items
                  (mkState 0 (stdout s) (files s))) as Hloop.
    unfold exec in Hloop. exact Hloop.
  - intros item s Hnone. rewrite iteration_total. unfold missing_count. rewrite Hnone. lia.
  - intros name series_id s. apply skip_counts_nothing.
Qed.
End Claims.

(** * The properties on the example environment *)
Section Witnesses.
Import Example.

(** C1 as stated fails.  An observation with one more field than the four
    documented is processed successfully, and the file written has three
    columns: no table whose header is [date, UNRATE] gives its text.  An
    observation whose value comes before its date is processed
    successfully too, and the two columns come in that order. *)
Lemma C1_counterexample :
  let it payload :=
    iteration (env (serve payload) writable) "key" "1990-01-01" "2024-06-30" unrate in
  it footnote_payload initial =
    (inr tt,
     mkState 0 [Attempting "Unemployment Rate" "UNRATE";
                Saved 1 "data/unemployment_rate.csv"]
       {["data/unemployment_rate.csv" :=
           "date,UNRATE,footnote" +:+ newline +:+ "2020-01-01,3.5,r" +:+ newline]}) ∧
  (¬ ∃ rows,
       files (exec (it footnote_payload) initial) !! "data/unemployment_rate.csv" =
       Some (csv_text (["date"; "UNRATE"] :: rows))) ∧
  it swapped_payload initial =
    (inr tt,
     mkState 0 [Attempting "Unemployment Rate" "UNRATE";
                Saved 1 "data/unemployment_rate.csv"]
       {["data/unemployment_rate.csv" :=
           "UNRATE,date" +:+ newline +:+ "3.5,2020-01-01" +:+ newline]}) ∧
  (¬ ∃ rows,
       files (exec (it swapped_payload) initial) !! "data/unemployment_rate.csv" =
       Some (csv_text (["date"; "UNRATE"] :: rows))).
Proof.
  cbv zeta. split; [by vm_compute|]. split; [|split; [by vm_compute|]].
  - intros [rows Hrows]. vm_compute in Hrows. discriminate Hrows.
  - intros [rows Hrows]. vm_compute in Hrows. discriminate Hrows.
Qed.

(** C1 for records of the documented shape, on the example environment
    and a response of three observations. *)
Lemma C1_csv_columns_witness :
  let E := env (serve mixed_payload) writable in
  let it := iteration E "key" "1990-01-01" "2024-06-30" unrate in
  (∃ rows,
     files (exec it initial) =
       <[filename "Unemployment Rate" := csv_text (["date"; "UNRATE"] :: rows)]>
         (files initial) ∧
     length rows = length mixed_records ∧
     (∀ i r, mixed_records !! i = Some r →
        rows !! i =
        Some [render E [CDate "2020-01-01"; CDate "2020-02-01"; CDate "2020-03-01"]
                (nth i [CDate "2020-01-01"; CDate "2020-02-01"; CDate "2020-03-01"] CNaN);
              match to_numeric_value E (record_cell "value" r) with
              | Some v => format_value E (coerced_values E mixed_records) (CNum v)
              | None => ""
              end])) ∧
  (∀ df : DataFrame string number, ∃ df',
     df_drop (filter (λ k, has_column (Name k) df = true) columns_to_drop) df = inr df' ∧
     (Name "realtime_start" ∉ labels df') ∧ (Name "realtime_end" ∉ labels df')).
Proof.
  apply (C1_csv_columns (env (serve mixed_payload) writable)
           "Unemployment Rate" "UNRATE" "key" "1990-01-01" "2024-06-30"
           {| status_code := 200; json := inr mixed_payload |}
           mixed_payload (PyList (PyDict <$> mixed_records)) mixed_records
           [CDate "2020-01-01"; CDate "2020-02-01"; CDate "2020-03-01"] initial).
  - reflexivity.
  - reflexivity.
  - reflexivity.
  - reflexivity.
  - reflexivity.
  - discriminate.
  - repeat constructor.
  - reflexivity.
  - reflexivity.
Defined.

(** C2 on the example environment: the second of three observations has
    the sentinel for its value. *)
Lemma C2_non_numeric_coerced_witness :
  let E := env (serve mixed_payload) writable in
  let it := iteration E "key" "1990-01-01" "2024-06-30" unrate in
  let nas_in_current_series := isna_sum (coerced_values E mixed_records) in
  coerced_values E mixed_records !! 1 = Some CNaN ∧
  result it initial = inr tt ∧
  (open_for_writing E (filename "Unemployment Rate") = None →
   Forall (λ l, is_error_line l = false) (printed it initial)) ∧
  nas_in_current_series =
    length (filter (λ r, to_numeric_value E (record_cell "value" r) = None)
              mixed_records) ∧
  0 < nas_in_current_series ∧
  FoundNA nas_in_current_series "UNRATE" ∈ printed it initial ∧
  total_nas_found (exec it initial) = total_nas_found initial + nas_in_current_series.
Proof.
  apply (C2_non_numeric_coerced (env (serve mixed_payload) writable)
           "Unemployment Rate" "UNRATE" "key" "1990-01-01" "2024-06-30"
           {| status_code := 200; json := inr mixed_payload |}
           mixed_payload (PyList (PyDict <$> mixed_records)) mixed_records
           1 [("realtime_start", PyStr "2024-06-30"); ("realtime_end", PyStr "2024-06-30");
              ("date", PyStr "2020-02-01"); ("value", PyStr ".")] "." initial).
  - reflexivity.
  - reflexivity.
  - reflexivity.
  - reflexivity.
  - reflexivity.
  - repeat constructor.
  - reflexivity.
  - reflexivity.
  - reflexivity.
  - reflexivity.
Defined.

(** C4 as stated fails.  A payload that is [null], or a number, has no
    [observations] field, yet the series is not reported as having no
    observations: line 43 raises [TypeError], and the line printed is that
    of the last [except] clause. *)
Lemma C4_counterexample :
  let it payload :=
    iteration (env (serve payload) writable) "key" "1990-01-01" "2024-06-30" unrate in
  (∀ observations, py_getitem "observations" PyNone ≠ inr observations) ∧
  it PyNone initial =
    (inr tt,
     mkState 0 [Attempting "Unemployment Rate" "UNRATE";
                UnexpectedError "UNRATE" (Exn TypeError "argument is not iterable")] ∅) ∧
  (NoObservations "UNRATE" ∉ printed (it PyNone) initial) ∧
  (∀ observations, py_getitem "observations" (PyInt 5) ≠ inr observations) ∧
  it (PyInt 5) initial =
    (inr tt,
     mkState 0 [Attempting "Unemployment Rate" "UNRATE";
                UnexpectedError "UNRATE" (Exn TypeError "argument is not iterable")] ∅) ∧
  (NoObservations "UNRATE" ∉ printed (it (PyInt 5)) initial).
Proof.
  cbv zeta. repeat split; try done.
  - intros Hin. vm_compute in Hin.
    apply elem_of_cons in Hin as [?|Hin]; [done|].
    apply elem_of_cons in Hin as [?|Hin]; [done|]. by apply elem_of_nil in Hin.
  - intros Hin. vm_compute in Hin.
    apply elem_of_cons in Hin as [?|Hin]; [done|].
    apply elem_of_cons in Hin as [?|Hin]; [done|]. by apply elem_of_nil in Hin.
Qed.

(** C4 for a payload that is an object, on the example environment, the
    server answering with an empty list of observations. *)
Lemma C4_empty_result_skipped_witness :
  let E := env (serve empty_payload) writable in
  let it := iteration E "key" "1990-01-01" "2024-06-30" in
  let s' := mkState 0 ([] ++ [Attempting "Unemployment Rate" "UNRATE";
                              NoObservations "UNRATE"]) ∅ in
  it unrate initial = (inr tt, s') ∧
  for_each [unrate; ("CPI", "CPIAUCSL")] it initial =
  for_each [("CPI", "CPIAUCSL")] it s'.
Proof.
  exact (C4_empty_result_skipped (env (serve empty_payload) writable)
           "Unemployment Rate" "UNRATE" "key" "1990-01-01" "2024-06-30"
           {| status_code := 200; json := inr empty_payload |}
           [("observations", PyList [])] [("CPI", "CPIAUCSL")] initial
           eq_refl eq_refl eq_refl (or_intror eq_refl)).
Defined.

(** C5 on the example environment, the server answering with three
    observations, the second one missing. *)
Lemma C5_missing_rows_retained_witness :
  let E := env (serve mixed_payload) writable in
  let it := iteration E "key" "1990-01-01" "2024-06-30" unrate in
  let dates := [CDate "2020-01-01"; CDate "2020-02-01"; CDate "2020-03-01"] in
  let df := cleaned_frame E "UNRATE" mixed_records dates in
  files (exec it initial) =
    <[filename "Unemployment Rate" := csv_text (csv_table E df)]> (files initial) ∧
  length (csv_table E df) = S (length mixed_records) ∧
  (∀ i, i < length mixed_records → csv_table E df !! S i = Some (csv_row E df i)) ∧
  (∀ i j r, mixed_records !! i = Some r → kept_keys mixed_records !! j = Some "value" →
     csv_row E df i !! j =
     Some (match to_numeric_value E (record_cell "value" r) with
           | Some v => format_value E (coerced_values E mixed_records) (CNum v)
           | None => ""
           end)) ∧
  (NoValidNumeric "UNRATE" ∉ printed it initial) ∧
  Saved (length mixed_records) (filename "Unemployment Rate") ∈ printed it initial.
Proof.
  apply (C5_missing_rows_retained (env (serve mixed_payload) writable)
           "Unemployment Rate" "UNRATE" "key" "1990-01-01" "2024-06-30"
           {| status_code := 200; json := inr mixed_payload |}
           mixed_payload (PyList (PyDict <$> mixed_records)) mixed_records
           [CDate "2020-01-01"; CDate "2020-02-01"; CDate "2020-03-01"] initial).
  - reflexivity.
  - reflexivity.
  - reflexivity.
  - reflexivity.
  - reflexivity.
  - discriminate.
  - repeat constructor.
  - reflexivity.
  - reflexivity.
Defined.

(** C6 on the example environment. *)
Lemma C6_unrate_example_witness :
  let E := env (serve unrate_payload) writable in
  let run := get_fred_series_and_export_csv E [("Unemployment Rate", "UNRATE")]
               "key" "1990-01-01" in
  result run initial = inr tt ∧
  files (exec run initial) =
    <["data/unemployment_rate.csv" :=
        "date,UNRATE" +:+ newline +:+ "2020-01-01,3.5" +:+ newline]> (files initial) ∧
  total_nas_found (exec run initial) = 0 ∧
  stdout (exec run initial) =
    stdout initial ++ [Attempting "Unemployment Rate" "UNRATE";
                       Saved 1 "data/unemployment_rate.csv"; Completed; TotalNA 0].
Proof.
  apply (C6_unrate_example (env (serve unrate_payload) writable) "key" "1990-01-01"
           {| status_code := 200; json := inr unrate_payload |}
           "2020-01-01" (NumFloat "3.5") initial); reflexivity.
Defined.

(** C9 on the example environment, the server answering with two
    observations whose values are both the sentinel. *)
Lemma C9_emptiness_branch_unreachable_witness :
  let E := env (serve missing_payload) writable in
  let it := iteration E "key" "1990-01-01" "2024-06-30" unrate in
  (NoValidNumeric "UNRATE" ∉ printed it initial) ∧
  (∀ dates, df_empty (cleaned_frame E "UNRATE" missing_records dates) = false) ∧
  (∀ dates,
     to_datetime E (record_cell "date" <$> missing_records) = inr dates →
     open_for_writing E (filename "Unemployment Rate") = None →
     files (exec it initial) =
       <[filename "Unemployment Rate" :=
           csv_text (csv_table E (cleaned_frame E "UNRATE" missing_records dates))]>
         (files initial) ∧
     Saved (length missing_records) (filename "Unemployment Rate") ∈ printed it initial ∧
     (Forall (λ r, to_numeric_value E (record_cell "value" r) = None) missing_records →
      ∀ i j, i < length missing_records →
        kept_keys missing_records !! j = Some "value" →
        csv_row E (cleaned_frame E "UNRATE" missing_records dates) i !! j = Some "")).
Proof.
  apply (C9_emptiness_branch_unreachable (env (serve missing_payload) writable)
           "Unemployment Rate" "UNRATE" "key" "1990-01-01" "2024-06-30"
           {| status_code := 200; json := inr missing_payload |}
           missing_payload (PyList (PyDict <$> missing_records)) missing_records initial).
  - reflexivity.
  - reflexivity.
  - reflexivity.
  - reflexivity.
  - reflexivity.
  - discriminate.
  - repeat constructor.
Defined.

(** The function run on the example environment. *)

Example filename_unemployment_rate :
  filename "Unemployment Rate" = "data/unemployment_rate.csv".
Proof. reflexivity. Qed.

Example filename_sp500 : filename "S&P 500 Index" = "data/s&p_500_index.csv".
Proof. reflexivity. Qed.

Example filename_breakeven :
  filename "5-Year Breakeven Inflation Rate" =
  "data/5-year_breakeven_inflation_rate.csv".
Proof. reflexivity. Qed.

(** Three observations, one of them missing: three rows, one blank cell,
    one missing value counted. *)
Example run_mixed :
  let run := get_fred_series_and_export_csv (env (serve mixed_payload) writable)
               [unrate] "key" "1990-01-01" in
  run initial =
  (inr tt,
   mkState 1
     [Attempting "Unemployment Rate" "UNRATE"; FoundNA 1 "UNRATE";
      Saved 3 "data/unemployment_rate.csv"; Completed; TotalNA 1]
     {["data/unemployment_rate.csv" :=
         "date,UNRATE" +:+ newline +:+ "2020-01-01,3.5" +:+ newline +:+
         "2020-02-01," +:+ newline +:+ "2020-03-01,3.6" +:+ newline]}).
Proof. by vm_compute. Qed.

(** A series the server refuses, then one it serves: the first is reported,
    the second is exported. *)
Example run_after_failure :
  let run := get_fred_series_and_export_csv (env (flaky unrate_payload) writable)
               [("Broken", "BROKEN"); unrate] "key" "1990-01-01" in
  run initial =
  (inr tt,
   mkState 0
     [Attempting "Broken" "BROKEN";
      RequestError "BROKEN" (Exn RequestException "HTTPError");
      Attempting "Unemployment Rate" "UNRATE";
      Saved 1 "data/unemployment_rate.csv"; Completed; TotalNA 0]
     {["data/unemployment_rate.csv" :=
         "date,UNRATE" +:+ newline +:+ "2020-01-01,3.5" +:+ newline]}).
Proof. by vm_compute. Qed.

(** A path that cannot be opened: the missing value is counted before the
    write fails, the failure is reported, and no file appears. *)
Example run_read_only :
  let run := get_fred_series_and_export_csv (env (serve mixed_payload) read_only)
               [unrate] "key" "1990-01-01" in
  run initial =
  (inr tt,
   mkState 1
     [Attempting "Unemployment Rate" "UNRATE"; FoundNA 1 "UNRATE";
      UnexpectedError "UNRATE" (Exn OSError "Permission denied");
      Completed; TotalNA 1]
     ∅).
Proof. by vm_compute. Qed.

(** A date that is not one: the conversion raises [ValueError] and the
    second [except] clause reports it. *)
Example run_bad_date :
  let payload :=
    PyDict [("observations",
             PyList [PyDict [("date", PyStr "yesterday"); ("value", PyStr "3.5")]])] in
  let run := get_fred_series_and_export_csv (env (serve payload) writable)
               [unrate] "key" "1990-01-01" in
  run initial =
  (inr tt,
   mkState 0
     [Attempting "Unemployment Rate" "UNRATE";
      ProcessingError "UNRATE" (Exn ValueError "Unknown datetime string format");
      Completed; TotalNA 0]
     ∅).
Proof. by vm_compute. Qed.

(** A payload that is a number: the membership test raises [TypeError]. *)
Example run_number_payload :
  let run := get_fred_series_and_export_csv (env (serve (PyInt 5)) writable)
               [unrate] "key" "1990-01-01" in
  run initial =
  (inr tt,
   mkState 0
     [Attempting "Unemployment Rate" "UNRATE";
      UnexpectedError "UNRATE" (Exn TypeError "argument is not iterable");
      Completed; TotalNA 0]
     ∅).
Proof. by vm_compute. Qed.
End Witnesses.

(** * Further lemmas

    ** How an iteration ends *)
Section Endings.
Context {T N : Type} (E : Env T N) {tables : Unicode}.

Ltac early_call H :=
  match goal with
  | |- context [(call ?r ≫= _) _] =>
      let e := fresh "e" in
      destruct r as [e|?] eqn:?; cbn [ok mbind option_bind] in H;
      [ rewrite bind_call_inl; left; by exists e
      | rewrite bind_call_inr; cbv beta zeta ]
  end.

(** A series that does not get to the coercion raises with the state as it
    was, or is skipped having printed the skip line. *)
Lemma try_block_early name id key sd ed s :
  values_at_coercion E id key sd ed = None →
  (∃ e, try_block E name id key sd ed s = (inl e, s)) ∨
  try_block E name id key sd ed s =
    (inr tt, mkState (total_nas_found s) (stdout s ++ [NoObservations id]) (files s)).
Proof.
  unfold values_at_coercion, try_block. intros Hnone.
  do 3 early_call Hnone.
  destruct (py_getitem "observations" _) as [e|obs] eqn:Hobs; cbn [ok mbind option_bind] in Hnone.
  { early_call Hnone. destruct b.
    - rewrite bind_assoc, bind_call_inl. left. by exists e.
    - rewrite bind_ret. by right. }
  rewrite (py_getitem_in _ _ _ Hobs), bind_call_inr; cbv beta iota.
  rewrite bind_assoc, bind_call_inr, bind_ret; cbv beta.
  destruct (truthy obs) eqn:Htr; cbn [negb].
  2:{ by right. }
  rewrite bind_call_inr; cbv beta.
  do 5 early_call Hnone. done.
Qed.

Lemma isna_sum_le (col : list (cell T N)) : isna_sum col ≤ length col.
Proof. unfold isna_sum. apply length_filter. Qed.


Lemma iteration_ends_at key sd ed name id s :
  ∃ n l w, ending name id n l w ∧
    (is_Some w → open_for_writing E (filename name) = None) ∧
    iteration E key sd ed (name, id) s =
      (inr tt, mkState (total_nas_found s + n)
                       (stdout s ++ Attempting name id :: found_line n id ++ [l])
                       (apply_write (filename name) w (files s))).
Proof.
  rewrite iteration_block.
  set (s1 := mkState (total_nas_found s) (stdout s ++ [Attempting name id]) (files s)).
  destruct (values_at_coercion E id key sd ed) as [value|] eqn:Hv.
  - destruct (try_block_reaches E name id key sd ed value s1 Hv)
      as (df & Hlen & Hcols & ->).
    destruct (df_empty df) eqn:Hempty.
    + unfold df_empty in Hempty. apply orb_true_iff in Hempty as [Hi|Hc];
        [|by apply bool_decide_eq_true in Hc].
      apply bool_decide_eq_true in Hi. rewrite Hi in Hlen.
      apply nil_length_inv in Hlen as ->.
      exists 0, (NoValidNumeric id), None. split; [constructor|].
      split; [by intros [? ?]|].
      cbn. by rewrite ?Nat.add_0_r, <- ?app_assoc.
    + unfold mbind, M_bind, to_csv.
      destruct (open_for_writing E (filename name)) as [e|] eqn:Hopen; cbn.
      * exists (isna_sum value), (error_line id e), None. split; [constructor|].
        split; [by intros [? ?]|].
        by rewrite <- !app_assoc.
      * exists (isna_sum value), (Saved (df_len df) (filename name)),
          (Some (csv_text (csv_table E df))).
        split.
        -- constructor; [|apply csv_table_length].
           unfold df_len. rewrite <- Hlen. apply isna_sum_le.
        -- split; [done|]. by rewrite <- !app_assoc.
  - destruct (try_block_early name id key sd ed s1 Hv) as [[e ->]| ->].
    + exists 0, (error_line id e), None. split; [constructor|].
      split; [by intros [? ?]|].
      cbn. by rewrite ?Nat.add_0_r, <- ?app_assoc.
    + exists 0, (NoObservations id), None. split; [constructor|].
      split; [by intros [? ?]|].
      cbn. by rewrite ?Nat.add_0_r, <- ?app_assoc.
Qed.

Lemma ending_found name id n l w : ending name id n l w → found l = 0.
Proof. destruct 1; try done. unfold error_line. by destruct (exn_cls e). Qed.

Lemma ending_attempted name id n l w : ending name id n l w → attempted l = None.
Proof. destruct 1; try done. unfold error_line. by destruct (exn_cls e). Qed.

Lemma apply_write_blank path w : apply_write path w ∅ !! path = w.
Proof. destruct w; cbn; [by rewrite lookup_insert_eq | done]. Qed.

(** The same ending from every state. *)
Lemma iteration_ends key sd ed name id :
  ∃ n l w, ending name id n l w ∧
    (is_Some w → open_for_writing E (filename name) = None) ∧
    ∀ s, iteration E key sd ed (name, id) s =
      (inr tt, mkState (total_nas_found s + n)
                       (stdout s ++ Attempting name id :: found_line n id ++ [l])
                       (apply_write (filename name) w (files s))).
Proof.
  destruct (iteration_uniform E key sd ed name id) as (lines & w0 & _ & Hit).
  destruct (iteration_ends_at key sd ed name id blank) as (n & l & w & Hend & Hopen & Hat).
  rewrite Hit in Hat. cbn in Hat. injection Hat as Hn Hl Hw.
  exists n, l, w. split; [done|]. split; [done|]. intros s. rewrite Hit.
  assert (w0 = w) as ->.
  { by rewrite <- (apply_write_blank (filename name) w0), Hw, apply_write_blank. }
  by rewrite Hn, Hl.
Qed.
End Endings.

(** ** The files of a loop *)
Lemma last_write_absent p ws : p ∉ ws.*1 → last_write p None ws = None.
Proof.
  induction ws as [|[q w] ws IH]; [done|]. cbn [fmap list_fmap fst].
  intros [Hq Hws]%not_elem_of_cons. cbn [last_write].
  destruct w; [|by apply IH]. rewrite bool_decide_eq_false_2 by done. by apply IH.
Qed.

Lemma last_write_nodup p w ws :
  NoDup ws.*1 → (p, w) ∈ ws → last_write p None ws = w.
Proof.
  induction ws as [|[q v] ws IH]; [by intros _ ?%elem_of_nil|].
  cbn [fmap list_fmap fst]. intros [Hq Hnd]%NoDup_cons [Heq|Hin]%elem_of_cons.
  - injection Heq as <- <-. cbn [last_write]. rewrite last_write_acc.
    rewrite (last_write_absent p ws Hq). destruct w; [|done].
    by rewrite bool_decide_eq_true_2.
  - cbn [last_write].
    assert (q ≠ p) as Hne.
    { intros ->. apply Hq. apply list_elem_of_fmap. by exists (p, w). }
    destruct v; [rewrite bool_decide_eq_false_2 by done|]; by apply IH.
Qed.

Lemma last_write_app p ws1 ws2 :
  last_write p None (ws1 ++ ws2) =
  match last_write p None ws2 with
  | Some t => Some t
  | None => last_write p None ws1
  end.
Proof.
  generalize (@None string) at 1 3. revert ws2.
  induction ws1 as [|[q w] ws1 IH]; intros ws2 acc; cbn [app last_write].
  - apply last_write_acc.
  - apply IH.
Qed.

Lemma last_write_is_Some p ws :
  is_Some (last_write p None ws) → p ∈ written_paths ws.
Proof.
  unfold written_paths.
  induction ws as [|[q w] ws IH] using rev_ind; [by intros [? ?]|].
  rewrite last_write_app, filter_app, fmap_app. cbn [last_write].
  intros Hs. apply elem_of_app.
  destruct w as [t|].
  - case_bool_decide as Hq.
    + subst q. right. rewrite filter_cons_True by (by cbn). cbn. apply list_elem_of_here.
    + left. by apply IH.
  - left. by apply IH.
Qed.


Lemma written_paths_sub ws : written_paths ws ⊆ ws.*1.
Proof.
  unfold written_paths. intros p (qw & -> & Hin%list_elem_of_filter)%list_elem_of_fmap.
  apply list_elem_of_fmap. exists qw. by destruct Hin.
Qed.

Section Files.
Context {T N : Type} (E : Env T N) {tables : Unicode}.
Context (api_key start_date end_date : string).
Local Abbreviation it' := (iteration E api_key start_date end_date).
Local Abbreviation export := (export_of E api_key start_date end_date).

(** An iteration ends the same way from every state, and what it writes
    is its export. *)
Lemma iteration_export name id :
  ∃ n l, ending name id n l (export (name, id)) ∧
    (is_Some (export (name, id)) → open_for_writing E (filename name) = None) ∧
    ∀ s, it' (name, id) s =
      (inr tt, mkState (total_nas_found s + n)
                       (stdout s ++ Attempting name id :: found_line n id ++ [l])
                       (apply_write (filename name) (export (name, id)) (files s))).
Proof.
  destruct (iteration_ends E api_key start_date end_date name id)
    as (n & l & w & Hend & Hopen & Hit).
  assert (export (name, id) = w) as ->.
  { unfold export_of, exec. rewrite Hit. cbn. apply apply_write_blank. }
  by exists n, l.
Qed.

Lemma iteration_files item s :
  files (exec (it' item) s) = apply_write (filename item.1) (export item) (files s).
Proof.
  destruct item as [name id].
  destruct (iteration_export name id) as (n & l & _ & _ & Hit).
  unfold exec. by rewrite Hit.
Qed.

Lemma exports_paths items :
  (exports E api_key start_date end_date items).*1 = (λ item, filename item.1) <$> items.
Proof. unfold exports. rewrite <- list_fmap_compose. done. Qed.

Lemma saved_path_ending name id n l w :
  ending name id n l w →
  omap saved_path (Attempting name id :: found_line n id ++ [l]) =
  written_paths [(filename name, w)].
Proof.
  intros Hend. cbn [omap list_omap saved_path]. rewrite omap_app.
  assert (omap saved_path (found_line n id) = []) as ->.
  { unfold found_line. by case_bool_decide. }
  destruct Hend as [| |n e|n k table]; try done.
  unfold error_line. by destruct (exn_cls e).
Qed.

Lemma outcome_ending name id n l w :
  ending name id n l w →
  filter (λ l, is_outcome l = true) (Attempting name id :: found_line n id ++ [l]) = [l].
Proof.
  intros Hend. rewrite filter_cons_False by done. rewrite filter_app.
  assert (filter (λ l, is_outcome l = true) (found_line n id) = []) as ->.
  { unfold found_line. by case_bool_decide. }
  rewrite filter_cons_True; [done|].
  destruct Hend as [| |n e|n k table]; try done.
  unfold error_line. by destruct (exn_cls e).
Qed.

Lemma found_line_length n id : length (found_line n id) ≤ 1.
Proof. unfold found_line. case_bool_decide; cbn; lia. Qed.

(** The loop, from every state: what it prints, counts and writes. *)
Lemma loop_ends items :
  ∃ lines,
    (∀ s, for_each items it' s =
          (inr tt, mkState (total_nas_found s + sum_list (found <$> lines))
                           (stdout s ++ lines)
                           (apply_writes (exports E api_key start_date end_date items)
                                         (files s)))) ∧
    omap saved_path lines =
      written_paths (exports E api_key start_date end_date items) ∧
    length (filter (λ l, is_outcome l = true) lines) = length items ∧
    2 * length items ≤ length lines ≤ 3 * length items.
Proof.
  induction items as [|[name id] items (l2 & IH & Hsaved & Hout & Hlen)].
  - exists []. split; [|done]. intros s. cbn. by rewrite Nat.add_0_r, app_nil_r, state_eta.
  - destruct (iteration_export name id) as (n & l & Hend & _ & Hit).
    exists ((Attempting name id :: found_line n id ++ [l]) ++ l2).
    split; [|split; [|split]].
    + intros s. rewrite for_each_cons by apply iteration_returns.
      unfold exec. rewrite Hit, IH. cbn [snd total_nas_found stdout files].
      assert (sum_list (found <$> (Attempting name id :: found_line n id ++ [l]) ++ l2) =
              n + sum_list (found <$> l2)) as ->.
      { rewrite fmap_app, sum_list_app, fmap_cons, fmap_app, fmap_cons.
        cbn [sum_list found fmap list_fmap]. rewrite sum_list_app. cbn [sum_list].
        rewrite (ending_found _ _ _ _ _ Hend).
        unfold found_line. case_bool_decide; cbn; lia. }
      by rewrite <- !app_assoc, Nat.add_assoc.
    + rewrite omap_app, (saved_path_ending _ _ _ _ _ Hend), Hsaved.
      unfold written_paths, exports. cbn [fmap list_fmap fst].
      by rewrite <- fmap_app, <- filter_app.
    + rewrite filter_app, (outcome_ending _ _ _ _ _ Hend), length_app, Hout. done.
    + rewrite length_app. cbn [length]. rewrite length_app. cbn [length].
      pose proof (found_line_length n id). lia.
Qed.

Lemma loop_files items s :
  files (exec (for_each items it') s) =
  apply_writes (exports E api_key start_date end_date items) (files s).
Proof. destruct (loop_ends items) as (lines & Hloop & _). unfold exec. by rewrite Hloop. Qed.
End Files.

Section RunFiles.
Context {T N : Type} (E : Env T N) {tables : Unicode}.

Lemma run_ends items api_key start_date :
  ∃ lines,
    (∀ s, get_fred_series_and_export_csv E items api_key start_date s =
          (inr tt,
           mkState (sum_list (found <$> lines))
                   (stdout s ++ lines ++ [Completed; TotalNA (sum_list (found <$> lines))])
                   (apply_writes (exports E api_key start_date (today E) items) (files s)))) ∧
    omap saved_path lines =
      written_paths (exports E api_key start_date (today E) items) ∧
    length (filter (λ l, is_outcome l = true) lines) = length items ∧
    2 * length items ≤ length lines ≤ 3 * length items.
Proof.
  destruct (loop_ends E api_key start_date (today E) items)
    as (lines & Hloop & Hsaved & Hout & Hlen).
  exists lines. split; [|done]. intros s. rewrite run_unfold. cbv zeta.
  unfold exec. rewrite Hloop. cbn. by rewrite <- app_assoc.
Qed.

Lemma run_files items api_key start_date s :
  files (exec (get_fred_series_and_export_csv E items api_key start_date) s) =
  apply_writes (exports E api_key start_date (today E) items) (files s).
Proof.
  destruct (run_ends items api_key start_date) as (lines & Hrun & _).
  unfold exec. by rewrite Hrun.
Qed.

Lemma run_printed items api_key start_date s lines :
  (∀ s, get_fred_series_and_export_csv E items api_key start_date s =
        (inr tt,
         mkState (sum_list (found <$> lines))
                 (stdout s ++ lines ++ [Completed; TotalNA (sum_list (found <$> lines))])
                 (apply_writes (exports E api_key start_date (today E) items) (files s)))) →
  printed (get_fred_series_and_export_csv E items api_key start_date) s =
  lines ++ [Completed; TotalNA (sum_list (found <$> lines))].
Proof. intros Hrun. exact (printed_spec _ _ _ _ _ _ (Hrun s)). Qed.
End RunFiles.

(** ** The whole function *)
Section RunFacts.
Context {T N : Type} (E : Env T N) {tables : Unicode}.
Implicit Types (items : list (string * string)).

Lemma run_total items api_key start_date s :
  total_nas_found (exec (get_fred_series_and_export_csv E items api_key start_date) s) =
  sum_list (missing_count E api_key start_date (today E) <$> items).
Proof.
  unfold exec. rewrite run_unfold. cbv zeta. cbn [snd total_nas_found].
  by rewrite loop_total.
Qed.

Lemma exports_app key sd ed items1 items2 :
  exports E key sd ed (items1 ++ items2) =
  exports E key sd ed items1 ++ exports E key sd ed items2.
Proof. unfold exports. apply fmap_app. Qed.

Lemma apply_writes_app ws1 ws2 (fs : gmap string string) :
  apply_writes (ws1 ++ ws2) fs = apply_writes ws2 (apply_writes ws1 fs).
Proof. unfold apply_writes. apply foldl_app. Qed.

Lemma elem_of_exports key sd ed item items :
  item ∈ items →
  (filename item.1, export_of E key sd ed item) ∈ exports E key sd ed items.
Proof. intros Hin. unfold exports. apply list_elem_of_fmap. by exists item. Qed.

Lemma saved_in_lines (lines : list line) p :
  p ∈ omap saved_path lines ↔ ∃ k, Saved k p ∈ lines.
Proof.
  rewrite list_elem_of_omap. split.
  - intros (l & Hin & Hl). destruct l; try done. injection Hl as ->. eauto.
  - intros (k & Hin). by exists (Saved k p).
Qed.

Lemma saved_of_printed items api_key start_date s lines k p :
  printed (get_fred_series_and_export_csv E items api_key start_date) s =
    lines ++ [Completed; TotalNA (sum_list (found <$> lines))] →
  Saved k p ∈ printed (get_fred_series_and_export_csv E items api_key start_date) s ↔
  Saved k p ∈ lines.
Proof.
  intros ->. rewrite elem_of_app. split; [intros [?|Hin]; [done|] | by left].
  apply elem_of_cons in Hin as [?|Hin]; [done|].
  apply elem_of_cons in Hin as [?|Hin]; [done|]. by apply elem_of_nil in Hin.
Qed.
End RunFacts.

(** ** The checks at the head of the [try] block *)
Section Checks.
Context {T N : Type} (E : Env T N) {tables : Unicode}.

Ltac raise_call :=
  match goal with
  | |- context [(call ?r ≫= _) _] =>
      let e := fresh "e" in
      destruct r as [e|?] eqn:?;
      [ rewrite bind_call_inl; left; by exists e
      | rewrite bind_call_inr; cbv beta zeta ]
  end.

(** Once the payload is decoded, the block skips the series when line 43
    says so; otherwise it raises with the state as it was, or gets to the
    coercion. *)
Lemma try_block_decoded name id key sd ed response data s :
  requests_get E (api_url id key sd ed) = inr response →
  raise_for_status response = inr tt →
  json response = inr data →
  if skipped data
  then try_block E name id key sd ed s =
         (inr tt, mkState (total_nas_found s) (stdout s ++ [NoObservations id]) (files s))
  else (∃ e, try_block E name id key sd ed s = (inl e, s)) ∨
       is_Some (values_at_coercion E id key sd ed).
Proof.
  intros Hget Hst Hjs. unfold skipped, try_block, values_at_coercion.
  rewrite Hget, bind_call_inr; cbv beta.
  rewrite Hst, bind_call_inr; cbv beta.
  rewrite Hjs, bind_call_inr; cbv beta.
  cbn [ok mbind option_bind].
  destruct (py_in "observations" data) as [e|[]] eqn:Hin.
  - rewrite bind_call_inl. left. by exists e.
  - rewrite bind_call_inr; cbv beta iota.
    destruct (py_getitem "observations" data) as [e|obs] eqn:Hobs.
    { rewrite bind_assoc, bind_call_inl. left. by exists e. }
    rewrite bind_assoc, bind_call_inr, bind_ret; cbv beta.
    cbn [ok mbind option_bind].
    destruct (truthy obs) eqn:Htr; cbn [negb]; [|done].
    rewrite bind_call_inr; cbv beta.
    do 5 raise_call.
    right. rewrite Hst; cbn [ok mbind option_bind]. rewrite Hjs; cbn [ok mbind option_bind].
    rewrite Hobs; cbn [ok mbind option_bind]. rewrite Htr.
    repeat match goal with H : _ = inr _ |- _ => rewrite H; cbn [ok mbind option_bind] end.
    eauto.
  - by rewrite bind_call_inr, bind_ret.
Qed.

(** An iteration, from what its [try] block does. *)
Lemma iteration_of_block key sd ed name id s r t lines fs :
  try_block E name id key sd ed
    (mkState (total_nas_found s) (stdout s ++ [Attempting name id]) (files s)) =
    (r, mkState t ((stdout s ++ [Attempting name id]) ++ lines) fs) →
  iteration E key sd ed (name, id) s =
    (inr tt,
     mkState t
       (stdout s ++ Attempting name id :: lines ++
          match r with inl e => [error_line id e] | inr _ => [] end)
       fs).
Proof.
  intros Hblock. rewrite iteration_block, Hblock.
  destruct r as [e|[]]; cbn [total_nas_found stdout files].
  - by rewrite <- !app_assoc.
  - by rewrite app_nil_r, <- app_assoc.
Qed.

Lemma raised_not_skipped id e : error_line id e ≠ NoObservations id.
Proof. unfold error_line. by destruct (exn_cls e). Qed.
End Checks.

Section FrameLookups.
Context {T N : Type}.

Lemma getitem_tabulate_absent k n keys (f : string → list (cell T N)) :
  k ∉ keys → df_getitem k (tabulate n keys f) = inl (Exn KeyError ("'" +:+ k +:+ "'")).
Proof.
  intros Hk. unfold df_getitem, tabulate. cbn [columns].
  assert (lookup_column (Name k) ((λ k, (Name k, f k)) <$> keys) = None) as ->; [|done].
  apply lookup_column_None. rewrite <- list_fmap_compose.
  intros (k' & [= ->] & Hin)%list_elem_of_fmap. done.
Qed.

Lemma absent_from_records k (recs : list (list (string * pyobj))) :
  Forall (λ r, dict_has k r = false) recs → k ∉ kept_keys recs.
Proof.
  intros Hall [_ Hin]%list_elem_of_filter.
  apply elem_of_union_keys in Hin as (r & Hr & Hhas).
  rewrite Forall_forall in Hall. specialize (Hall r Hr). congruence.
Qed.
End FrameLookups.

(** * Further properties of the code

    ** Failures and skips of one iteration *)
Section Failures.
Context {T N : Type} (E : Env T N) {tables : Unicode}.

(** X1.  An answer with a status from 400 to 599 is reported as a failed
    request, by the first [except] clause: the iteration prints the
    announcement and that one line, the body of the answer is not looked
    at, nothing is counted and nothing is written. *)
Theorem http_error_reported (name series_id api_key start_date end_date : string)
    (response : Response) (s : state) :
  requests_get E (api_url series_id api_key start_date end_date) = inr response →
  (400 ≤ status_code response < 600)%Z →
  ∃ e, exn_cls e = RequestException ∧
    iteration E api_key start_date end_date (name, series_id) s =
      (inr tt,
       mkState (total_nas_found s)
               (stdout s ++ [Attempting name series_id; RequestError series_id e])
               (files s)).
Proof.
  intros Hget Hcode. exists (Exn RequestException "HTTPError"). split; [done|].
  rewrite iteration_block. unfold try_block.
  rewrite Hget, bind_call_inr; cbv beta.
  assert (raise_for_status response = inl (Exn RequestException "HTTPError")) as ->.
  { unfold raise_for_status.
    replace (400 <=? status_code response)%Z with true by (symmetry; apply Z.leb_le; lia).
    replace (status_code response <? 600)%Z with true by (symmetry; apply Z.ltb_lt; lia).
    done. }
  rewrite bind_call_inl. cbn. by rewrite <- app_assoc.
Qed.

(** X2.  A request that raises, or an answer whose body cannot be decoded,
    is reported by the [except] clause of the class of the exception,
    [RequestException] first, then [ValueError], then any other: the
    iteration prints the announcement and that one line, counts nothing
    and writes nothing. *)
Theorem request_failure_reported (name series_id api_key start_date end_date : string)
    (e : exn) (s : state) :
  requests_get E (api_url series_id api_key start_date end_date) = inl e ∨
  (∃ response,
     requests_get E (api_url series_id api_key start_date end_date) = inr response ∧
     raise_for_status response = inr tt ∧
     json response = inl e) →
  iteration E api_key start_date end_date (name, series_id) s =
    (inr tt,
     mkState (total_nas_found s)
             (stdout s ++ [Attempting name series_id;
                           match exn_cls e with
                           | RequestException => RequestError series_id e
                           | ValueError => ProcessingError series_id e
                           | _ => UnexpectedError series_id e
                           end])
             (files s)).
Proof.
  intros [Hget|(response & Hget & Hst & Hjs)]; rewrite iteration_block; unfold try_block.
  - rewrite Hget, bind_call_inl. cbn. by rewrite <- app_assoc.
  - rewrite Hget, bind_call_inr; cbv beta.
    rewrite Hst, bind_call_inr; cbv beta.
    rewrite Hjs, bind_call_inl. cbn. by rewrite <- app_assoc.
Qed.

(** X3.  Once the answer is decoded, the series is skipped as having no
    observations exactly when the payload has no [observations] or its
    [observations] is falsy (an empty list, [null], zero, an empty string
    or object, [false]): then the iteration prints the announcement and
    the skip line and nothing else happens.  In no other case is that line
    printed. *)
Theorem skipped_exactly_when (name series_id api_key start_date end_date : string)
    (response : Response) (data : pyobj) (s : state) :
  requests_get E (api_url series_id api_key start_date end_date) = inr response →
  raise_for_status response = inr tt →
  json response = inr data →
  let it := iteration E api_key start_date end_date (name, series_id) in
  (NoObservations series_id ∈ printed it s ↔ skipped data = true) ∧
  (skipped data = true →
   it s = (inr tt,
           mkState (total_nas_found s)
                   (stdout s ++ [Attempting name series_id; NoObservations series_id])
                   (files s))) ∧
  (∀ d, data = PyDict d →
        skipped data = match dict_get "observations" d with
                       | Some observations => negb (truthy observations)
                       | None => true
                       end).
Proof.
  intros Hget Hst Hjs. cbv zeta.
  pose proof (try_block_decoded E name series_id api_key start_date end_date
                response data
                (mkState (total_nas_found s) (stdout s ++ [Attempting name series_id]) (files s))
                Hget Hst Hjs) as Hblock.
  cbn [total_nas_found stdout files] in Hblock.
  split; [|split].
  - destruct (skipped data).
    + apply iteration_of_block in Hblock.
      rewrite (printed_spec _ _ _ _ _ _ Hblock). split; [done|]. intros _.
      apply elem_of_cons. right. apply list_elem_of_here.
    + split; [|done]. intros Hin. exfalso.
      destruct Hblock as [[e He]|[value Hv]].
      * assert (try_block E name series_id api_key start_date end_date
                  (mkState (total_nas_found s) (stdout s ++ [Attempting name series_id])
                     (files s)) =
                (inl e, mkState (total_nas_found s)
                          ((stdout s ++ [Attempting name series_id]) ++ []) (files s)))
          as He' by (by rewrite app_nil_r).
        clear He. rename He' into He.
        apply iteration_of_block in He.
        rewrite (printed_spec _ _ _ _ _ _ He) in Hin. cbn [app] in Hin.
        apply elem_of_cons in Hin as [?|Hin]; [done|].
        apply list_elem_of_singleton in Hin. symmetry in Hin.
        by apply raised_not_skipped in Hin.
      * destruct (try_block_reaches E name series_id api_key start_date end_date value
                    (mkState (total_nas_found s) (stdout s ++ [Attempting name series_id])
                       (files s)) Hv)
          as (df & _ & _ & Hb).
        cbn [total_nas_found stdout files] in Hb.
        assert (∃ l, l ≠ NoObservations series_id ∧
                  printed (iteration E api_key start_date end_date (name, series_id)) s =
                    Attempting name series_id :: found_line (isna_sum value) series_id ++ [l])
          as (l & Hl & Hp).
        { destruct (df_empty df).
          - exists (NoValidNumeric series_id). split; [done|].
            unfold print in Hb. cbn [total_nas_found stdout files] in Hb.
            rewrite <- app_assoc in Hb.
            apply iteration_of_block in Hb. rewrite (printed_spec _ _ _ _ _ _ Hb).
            by rewrite <- app_assoc, app_nil_r.
          - unfold mbind, M_bind, to_csv in Hb.
            destruct (open_for_writing E (filename name)) as [e|].
            + exists (error_line series_id e). split; [apply raised_not_skipped|].
              apply iteration_of_block in Hb. by rewrite (printed_spec _ _ _ _ _ _ Hb).
            + exists (Saved (df_len df) (filename name)). split; [done|].
              unfold print in Hb. cbn [total_nas_found stdout files] in Hb.
              rewrite <- app_assoc in Hb.
              apply iteration_of_block in Hb. rewrite (printed_spec _ _ _ _ _ _ Hb).
              by rewrite <- app_assoc, app_nil_r. }
        rewrite Hp in Hin.
        apply elem_of_cons in Hin as [?|Hin]; [done|].
        apply elem_of_app in Hin as [Hin%elem_of_found_line|Hin%list_elem_of_singleton]; [done|].
        by symmetry in Hin.
  - intros Hskip. rewrite Hskip in Hblock. apply iteration_of_block in Hblock.
    by rewrite app_nil_r in Hblock.
  - intros d ->. unfold skipped. cbn [py_in py_getitem].
    destruct (dict_get "observations" d) as [obs|] eqn:Hd.
    + assert (dict_has "observations" d = true) as ->; [|done].
      apply dict_has_get. rewrite Hd. eauto.
    + destruct (dict_has "observations" d) eqn:Hhas; [|done].
      apply dict_has_get in Hhas as [? Hhas]. congruence.
Qed.

(** X4.  A decoded payload that is not an object never gives a file, and
    what happens to it is decided by line 43.  A list without the string
    [observations] among its elements, and a string that does not contain
    it, are skipped as having no observations.  Every other payload
    ([null], a number, a boolean, a list or a string with [observations]
    in it) makes that line raise [TypeError], which the last [except]
    clause reports.  Nothing is counted. *)
Theorem payload_not_an_object (name series_id api_key start_date end_date : string)
    (response : Response) (data : pyobj) (s : state) :
  requests_get E (api_url series_id api_key start_date end_date) = inr response →
  raise_for_status response = inr tt →
  json response = inr data →
  (∀ d, data ≠ PyDict d) →
  let it := iteration E api_key start_date end_date (name, series_id) in
  let skips :=
    it s = (inr tt,
            mkState (total_nas_found s)
                    (stdout s ++ [Attempting name series_id; NoObservations series_id])
                    (files s)) in
  let raises :=
    ∃ e, exn_cls e = TypeError ∧
      it s = (inr tt,
              mkState (total_nas_found s)
                      (stdout s ++ [Attempting name series_id; UnexpectedError series_id e])
                      (files s)) in
  match data with
  | PyList l => if existsb (is_str "observations") l then raises else skips
  | PyStr text => if str_contains "observations" text then raises else skips
  | PyNone | PyBool _ | PyInt _ | PyFloat _ _ => raises
  | PyDict _ => True
  end.
Proof.
  intros Hget Hst Hjs Hnot. cbv zeta.
  rewrite iteration_block. unfold try_block.
  rewrite Hget, bind_call_inr; cbv beta.
  rewrite Hst, bind_call_inr; cbv beta.
  rewrite Hjs, bind_call_inr; cbv beta.
  destruct data as [|b|z|m e|str|l|d]; cbn [py_in py_getitem];
    try (rewrite bind_call_inl; cbn; eexists; rewrite <- app_assoc; split; [|reflexivity]; reflexivity).
  - rewrite bind_call_inr; cbv beta.
    destruct (str_contains "observations" str).
    + rewrite bind_assoc, bind_call_inl. cbn. eexists. rewrite <- app_assoc. split; [|reflexivity]; reflexivity.
    + rewrite bind_ret. cbn. by rewrite <- app_assoc.
  - rewrite bind_call_inr; cbv beta.
    destruct (existsb (is_str "observations") l).
    + rewrite bind_assoc, bind_call_inl. cbn. eexists. rewrite <- app_assoc. split; [|reflexivity]; reflexivity.
    + rewrite bind_ret. cbn. by rewrite <- app_assoc.
  - done.
Qed.

(** X5.  When the observations are records none of which has a [date],
    the frame has no such column and line 56 raises [KeyError]: the last
    [except] clause reports it, nothing is counted, nothing is written. *)
Theorem missing_date_field (name series_id api_key start_date end_date : string)
    (response : Response) (data obs : pyobj)
    (recs : list (list (string * pyobj))) (s : state) :
  requests_get E (api_url series_id api_key start_date end_date) = inr response →
  raise_for_status response = inr tt →
  json response = inr data →
  py_getitem "observations" data = inr obs →
  as_records obs = Some recs →
  recs ≠ [] →
  Forall (λ r, dict_has "date" r = false) recs →
  iteration E api_key start_date end_date (name, series_id) s =
    (inr tt,
     mkState (total_nas_found s)
             (stdout s ++ [Attempting name series_id;
                           UnexpectedError series_id (Exn KeyError "'date'")])
             (files s)).
Proof.
  intros Hget Hst Hjs Hobs Hrec Hne Hnodate.
  rewrite iteration_block. unfold try_block.
  rewrite Hget, bind_call_inr; cbv beta.
  rewrite Hst, bind_call_inr; cbv beta.
  rewrite Hjs, bind_call_inr; cbv beta.
  rewrite (py_getitem_in _ _ _ Hobs), bind_call_inr; cbv beta iota.
  rewrite bind_assoc, Hobs, bind_call_inr; cbv beta.
  rewrite bind_ret; cbv beta.
  rewrite (as_records_truthy _ _ Hrec Hne). cbn [negb].
  rewrite bind_call_inr; cbv beta. unfold pd_DataFrame. rewrite Hrec, bind_call_inr; cbv beta.
  rewrite frame_of_records_tabulate, drop_tabulate, bind_call_inr; cbv beta.
  fold (kept_keys recs).
  rewrite getitem_tabulate_absent by by apply absent_from_records.
  rewrite bind_call_inl. cbn. by rewrite <- app_assoc.
Qed.

(** X6.  When the observations are records with dates that convert but
    none of which has a [value], line 57 raises [KeyError]: the last
    [except] clause reports it, nothing is counted, nothing is written. *)
Theorem missing_value_field (name series_id api_key start_date end_date : string)
    (response : Response) (data obs : pyobj)
    (recs : list (list (string * pyobj))) (dates : list (cell T N)) (s : state) :
  requests_get E (api_url series_id api_key start_date end_date) = inr response →
  raise_for_status response = inr tt →
  json response = inr data →
  py_getitem "observations" data = inr obs →
  as_records obs = Some recs →
  recs ≠ [] →
  "date" ∈ union_keys recs →
  to_datetime E (record_cell "date" <$> recs) = inr dates →
  Forall (λ r, dict_has "value" r = false) recs →
  iteration E api_key start_date end_date (name, series_id) s =
    (inr tt,
     mkState (total_nas_found s)
             (stdout s ++ [Attempting name series_id;
                           UnexpectedError series_id (Exn KeyError "'value'")])
             (files s)).
Proof.
  intros Hget Hst Hjs Hobs Hrec Hne Hd Hdt Hnovalue.
  assert ("date" ∈ kept_keys recs) as Hd'.
  { apply kept_keys_elem; [done|]. apply (bool_decide_unpack _). by vm_compute. }
  rewrite iteration_block. unfold try_block.
  rewrite Hget, bind_call_inr; cbv beta.
  rewrite Hst, bind_call_inr; cbv beta.
  rewrite Hjs, bind_call_inr; cbv beta.
  rewrite (py_getitem_in _ _ _ Hobs), bind_call_inr; cbv beta iota.
  rewrite bind_assoc, Hobs, bind_call_inr; cbv beta.
  rewrite bind_ret; cbv beta.
  rewrite (as_records_truthy _ _ Hrec Hne). cbn [negb].
  rewrite bind_call_inr; cbv beta. unfold pd_DataFrame. rewrite Hrec, bind_call_inr; cbv beta.
  rewrite frame_of_records_tabulate, drop_tabulate, bind_call_inr; cbv beta.
  fold (kept_keys recs).
  rewrite getitem_tabulate by done. rewrite bind_call_inr, Hdt, bind_call_inr; cbv beta zeta.
  rewrite setitem_tabulate by done.
  rewrite getitem_tabulate_absent by by apply absent_from_records.
  rewrite bind_call_inl. cbn. by rewrite <- app_assoc.
Qed.
End Failures.

(** ** How an iteration ends, and what it writes *)
Section IterationProperties.
Context {T N : Type} (E : Env T N) {tables : Unicode}.

(** X7.  Every iteration ends in one of four ways, the same from every
    state: it prints the line that announces the series, then at most one
    line with the count of missing values, then exactly one closing line
    (a skip, an error, or the report of the saved file).  When the file is
    saved, the count of missing values is at most the number of rows
    reported, and the text written is a table of that many rows and a
    header. *)
Theorem iteration_ends_one_way (api_key start_date end_date name series_id : string) :
  ∃ n l w, ending name series_id n l w ∧
    ∀ s, iteration E api_key start_date end_date (name, series_id) s =
      (inr tt,
       mkState (total_nas_found s + n)
               (stdout s ++ Attempting name series_id :: found_line n series_id ++ [l])
               (apply_write (filename name) w (files s))).
Proof.
  destruct (iteration_ends E api_key start_date end_date name series_id)
    as (n & l & w & Hend & _ & Hit).
  by exists n, l, w.
Qed.

End IterationProperties.

(** ** The whole function *)
Section RunProperties.
Context {T N : Type} (E : Env T N) {tables : Unicode}.
Implicit Types (items : list (string * string)).


(** X10.  A run over ASCII names without a slash leaves alone the file of
    every other such name whose path is not a path of the mapping: it
    holds afterwards what it held before.  And a run never removes a file:
    one that was there is still there. *)
Theorem run_keeps_other_files items (api_key start_date : string) (s : state) :
  Forall (λ item, plain_name item.1 = true) items →
  let run := get_fred_series_and_export_csv E items api_key start_date in
  (∀ name, plain_name name = true →
           filename name ∉ (λ item, filename item.1) <$> items →
           files (exec run s) !! filename name = files s !! filename name) ∧
  (∀ p, is_Some (files s !! p) → is_Some (files (exec run s) !! p)).
Proof.
  intros _. cbv zeta. split.
  - intros name _ Hp. rewrite run_files, lookup_apply_writes.
    rewrite last_write_absent; [done|]. by rewrite exports_paths.
  - intros p Hp. rewrite run_files, lookup_apply_writes.
    by destruct (last_write p None _); eauto.
Qed.

(** X11.  When the names of the mapping are ASCII names without a slash and
    no two of them give the same path, no series overwrites the file of
    another: after the run the file of each entry holds what that entry
    exported, or what it held before when the entry exported nothing. *)
Theorem distinct_paths_keep_each_export items (api_key start_date : string)
    (item : string * string) (s : state) :
  Forall (λ item, plain_name item.1 = true) items →
  NoDup ((λ item, filename item.1) <$> items) →
  item ∈ items →
  files (exec (get_fred_series_and_export_csv E items api_key start_date) s)
    !! filename item.1 =
  match export_of E api_key start_date (today E) item with
  | Some text => Some text
  | None => files s !! filename item.1
  end.
Proof.
  intros _ Hnd Hin. rewrite run_files, lookup_apply_writes.
  rewrite (last_write_nodup _ (export_of E api_key start_date (today E) item)); [done|..].
  - by rewrite exports_paths.
  - by apply elem_of_exports.
Qed.


(** X13.  The order of the entries does not matter when the names are ASCII
    names without a slash and no two of them give the same path: a
    permutation of the mapping leaves the same files and the same total
    count. *)
Theorem order_of_entries_irrelevant items items' (api_key start_date : string) (s : state) :
  items ≡ₚ items' →
  Forall (λ item, plain_name item.1 = true) items →
  NoDup ((λ item, filename item.1) <$> items) →
  files (exec (get_fred_series_and_export_csv E items api_key start_date) s) =
  files (exec (get_fred_series_and_export_csv E items' api_key start_date) s) ∧
  total_nas_found (exec (get_fred_series_and_export_csv E items api_key start_date) s) =
  total_nas_found (exec (get_fred_series_and_export_csv E items' api_key start_date) s).
Proof.
  intros Hperm _ Hnd. split.
  - apply map_eq. intros p. rewrite !run_files, !lookup_apply_writes.
    assert (NoDup ((λ item, filename item.1) <$> items')) as Hnd' by by rewrite <- Hperm.
    destruct (decide (p ∈ (λ item, filename item.1) <$> items)) as [Hin|Hout].
    + apply list_elem_of_fmap in Hin as (item & -> & Hin).
      rewrite (last_write_nodup _ (export_of E api_key start_date (today E) item));
        [|by rewrite exports_paths | by apply elem_of_exports].
      rewrite (last_write_nodup _ (export_of E api_key start_date (today E) item));
        [done | by rewrite exports_paths |].
      apply elem_of_exports. by rewrite <- Hperm.
    + rewrite !last_write_absent; [done|..]; rewrite exports_paths; [by rewrite <- Hperm | done].
  - rewrite !run_total. by rewrite Hperm.
Qed.

(** X14.  Running the function over a mapping is running it over a first
    part and then over the rest: the files are the same, and the total of
    the whole is the sum of the totals of the parts (the counter starts
    from zero at every call). *)
Theorem run_in_two_batches items1 items2 (api_key start_date : string) (s : state) :
  let run items := get_fred_series_and_export_csv E items api_key start_date in
  files (exec (run (items1 ++ items2)) s) =
    files (exec (run items2) (exec (run items1) s)) ∧
  total_nas_found (exec (run (items1 ++ items2)) s) =
    total_nas_found (exec (run items1) s) +
    total_nas_found (exec (run items2) (exec (run items1) s)).
Proof.
  cbv zeta. split.
  - by rewrite !run_files, exports_app, apply_writes_app.
  - by rewrite !run_total, fmap_app, sum_list_app.
Qed.

(** X15.  A run over a mapping of [n] entries prints exactly one closing
    line per entry, and between [2 n + 2] and [3 n + 2] lines in all; over
    the empty mapping it prints the two summary lines, with a total of
    zero, and writes nothing. *)
Theorem one_outcome_per_series items (api_key start_date : string) (s : state) :
  let run := get_fred_series_and_export_csv E items api_key start_date in
  length (filter (λ l, is_outcome l = true) (printed run s)) = length items ∧
  2 * length items + 2 ≤ length (printed run s) ≤ 3 * length items + 2 ∧
  get_fred_series_and_export_csv E [] api_key start_date s =
    (inr tt, mkState 0 (stdout s ++ [Completed; TotalNA 0]) (files s)).
Proof.
  cbv zeta.
  destruct (run_ends E items api_key start_date) as (lines & Hrun & _ & Hout & Hlen).
  rewrite (run_printed E items api_key start_date s lines Hrun).
  split; [|split].
  - rewrite filter_app, length_app, Hout.
    rewrite filter_cons_False, filter_cons_False by done. cbn. lia.
  - rewrite length_app. cbn [length]. lia.
  - rewrite run_unfold. done.
Qed.

(** X16.  When no path of the mapping can be opened for writing (the
    function does not create the [data] folder), the run leaves every file
    as it was and reports no saved file; the missing values of the series
    are counted all the same, before the write is attempted. *)
Theorem nothing_written_when_unwritable items (api_key start_date : string) (s : state) :
  Forall (λ item, open_for_writing E (filename item.1) ≠ None) items →
  let run := get_fred_series_and_export_csv E items api_key start_date in
  files (exec run s) = files s ∧
  (∀ k p, Saved k p ∉ printed run s) ∧
  total_nas_found (exec run s) =
    sum_list (missing_count E api_key start_date (today E) <$> items).
Proof.
  intros Hopen. cbv zeta.
  assert (written_paths (exports E api_key start_date (today E) items) = []) as Hnone.
  { unfold written_paths, exports. rewrite filter_none; [done|].
    intros qw (item & -> & Hin)%list_elem_of_fmap. cbn. intros Hsome.
    rewrite Forall_forall in Hopen. apply (Hopen item Hin). destruct item as [name id].
    destruct (iteration_export E api_key start_date (today E) name id)
      as (n & l & _ & Hw & _). by apply Hw. }
  split; [|split].
  - apply map_eq. intros p. rewrite run_files, lookup_apply_writes.
    destruct (last_write p None _) as [t|] eqn:Ht; [|done].
    assert (p ∈ written_paths (exports E api_key start_date (today E) items)) as Hin.
    { apply last_write_is_Some. rewrite Ht. eauto. }
    rewrite Hnone in Hin. by apply elem_of_nil in Hin.
  - intros k p Hin.
    destruct (run_ends E items api_key start_date) as (lines & Hrun & Hsaved & _).
    apply (saved_of_printed E _ _ _ _ _ _ _
             (run_printed E items api_key start_date s lines Hrun)) in Hin.
    assert (p ∈ omap saved_path lines) as Hp by (apply saved_in_lines; eauto).
    rewrite Hsaved, Hnone in Hp. by apply elem_of_nil in Hp.
  - apply run_total.
Qed.
End RunProperties.

(** ** Paths and addresses *)

(** X17.  Two names give the same path exactly when they agree once put in
    lower case with underscores for spaces.  For an ASCII name, the name
    and that form of it give the same path, and the path holds no space
    and no upper-case letter. *)
Theorem names_share_a_file {tables : Unicode} (name1 name2 : string) :
  (filename name1 = filename name2 ↔
   str_replace " " "_" (str_lower name1) = str_replace " " "_" (str_lower name2)) ∧
  (is_ascii name1 = true →
   filename (str_replace " " "_" (str_lower name1)) = filename name1 ∧
   str_has_char (λ c, Ascii.eqb c " " || is_upper c) (filename name1) = false).
Proof.
  split; [|intros Ha; split].
  - unfold filename. split; [|by intros ->].
    intros Heq. apply (inj (String.append data_folder)) in Heq.
    apply (inj (String.append "/")) in Heq. by apply string_app_inj_l in Heq.
  - rewrite !filename_unfold, (normalized_name name1) by done.
    rewrite normalized_name by (by apply is_ascii_map; [apply normalize_char_ascii|]).
    rewrite str_map_compose.
    by rewrite (str_map_ext _ normalize_char) by apply normalize_char_idem.
  - rewrite filename_spec, !str_has_char_app by done.
    rewrite (str_has_char_map _ _ _ normalize_char_plain). done.
Qed.

(** X18.  For a given key and date range, the address requested determines
    the series: two identifiers that give the same address are equal.  The
    parameters are put into the address as they are, without escaping, so
    an identifier that contains the text of a parameter is read as one. *)
Theorem api_url_determines_series (id1 id2 api_key start_date end_date : string) :
  (api_url id1 api_key start_date end_date = api_url id2 api_key start_date end_date →
   id1 = id2) ∧
  (∀ key1 key2,
     api_url (id1 +:+ "&api_key=" +:+ key1) key2 start_date end_date =
     api_url id1 (key1 +:+ "&api_key=" +:+ key2) start_date end_date).
Proof.
  unfold api_url. split.
  - intros Heq. apply (inj (String.append base_url)) in Heq.
    apply (inj (String.append "?series_id=")) in Heq. by apply string_app_inj_l in Heq.
  - intros key1 key2. do 2 f_equal. by rewrite !string_app_assoc.
Qed.

(** ** The script *)
Section ScriptProperties.
Context {T N : Type} (E : Env T N) {tables : Unicode}.

Lemma script_with_key getenv key fs :
  getenv "FRED_API_KEY" = Some key →
  ∃ lines,
    script E getenv fs =
      (inr tt,
       mkProcess
         ((show_line <$> lines ++ [Completed; TotalNA (sum_list (found <$> lines))]) ++
            [process_completed])
         (apply_writes (exports E key desired_start_date (today E) fred_series_to_fetch) fs)) ∧
    omap attempted lines = fred_series_to_fetch ∧
    length (filter (λ l, is_outcome l = true) lines) = length fred_series_to_fetch ∧
    sum_list (found <$> lines) =
      sum_list (missing_count E key desired_start_date (today E) <$> fred_series_to_fetch).
Proof.
  intros Hkey.
  destruct (run_ends E fred_series_to_fetch key desired_start_date)
    as (lines & Hrun & _ & Hout & _).
  exists lines. split; [|split; [|split]].
  - unfold script. rewrite Hkey. cbv zeta. rewrite Hrun. done.
  - destruct (loop_stdout E key desired_start_date (today E) fred_series_to_fetch
                (mkState 0 [] ∅)) as (lines' & Hs & Hat & _).
    pose proof (Hrun (mkState 0 [] ∅)) as Hr. rewrite run_unfold in Hr. cbv zeta in Hr.
    cbn [stdout files] in Hr. rewrite Hs in Hr. cbn [stdout app] in Hr.
    injection Hr as _ Hl _.
    apply app_inj_2 in Hl as [-> _]; done.
  - done.
  - pose proof (run_total E fred_series_to_fetch key desired_start_date (mkState 0 [] ∅)) as Ht.
    unfold exec in Ht. by rewrite Hrun in Ht.
Qed.

(** X19.  The script always runs to its end, whatever the server, pandas
    and the file system do.  Without a key it prints its four lines of
    advice, makes no request and leaves the files alone.  With a key, the
    empty one included, it announces the forty-one series of the catalog
    in order, prints one closing line for each, then the two summary lines
    with the total of the missing values, then its own last line. *)
Theorem script_always_completes (getenv : string → option string)
    (fs : gmap string string) :
  (script E getenv fs).1 = inr tt ∧
  match getenv "FRED_API_KEY" with
  | None => (script E getenv fs).2 = mkProcess key_not_found fs
  | Some key =>
      ∃ lines,
        output (script E getenv fs).2 =
          (show_line <$> lines) ++
          [show_line Completed;
           show_line (TotalNA (sum_list (missing_count E key "1990-01-01" (today E) <$>
                                           fred_series_to_fetch)));
           process_completed] ∧
        omap attempted lines = fred_series_to_fetch ∧
        length (filter (λ l, is_outcome l = true) lines) = 41
  end.
Proof.
  destruct (getenv "FRED_API_KEY") as [key|] eqn:Hkey.
  - destruct (script_with_key getenv key fs Hkey) as (lines & -> & Hat & Hout & Hsum).
    split; [done|]. exists lines. split; [|done].
    cbn [snd output]. rewrite fmap_app, <- app_assoc. cbn [fmap list_fmap app].
    by rewrite Hsum.
  - unfold script. by rewrite Hkey.
Qed.

Lemma catalog_paths_distinct : NoDup ((λ item, filename item.1) <$> fred_series_to_fetch).
Proof. apply (bool_decide_unpack _). by vm_compute. Qed.

(** X20.  The catalog is a dict of forty-one distinct ASCII names without
    a slash, and no two of them give the same path.  So in a run of the
    script no series overwrites the file of another: the file of each
    entry holds what that entry exported, or what it held before when
    nothing was exported for it. *)
Theorem catalog_entries_keep_their_files (getenv : string → option string)
    (key : string) (fs : gmap string string) (item : string * string) :
  getenv "FRED_API_KEY" = Some key →
  item ∈ fred_series_to_fetch →
  length fred_series_to_fetch = 41 ∧
  NoDup fred_series_to_fetch.*1 ∧
  Forall (λ item, is_ascii item.1 = true ∧
                  str_has_char (Ascii.eqb "/") item.1 = false) fred_series_to_fetch ∧
  NoDup ((λ item, filename item.1) <$> fred_series_to_fetch) ∧
  disk (script E getenv fs).2 !! filename item.1 =
    match export_of E key desired_start_date (today E) item with
    | Some text => Some text
    | None => fs !! filename item.1
    end.
Proof.
  intros Hkey Hin.
  split; [done|]. split; [apply (bool_decide_unpack _); by vm_compute|].
  split; [apply (bool_decide_unpack _); by vm_compute|].
  split; [apply catalog_paths_distinct|].
  destruct (script_with_key getenv key fs Hkey) as (lines & -> & _).
  cbn [snd disk]. rewrite lookup_apply_writes.
  rewrite (last_write_nodup _ (export_of E key desired_start_date (today E) item)); [done|..].
  - rewrite exports_paths. apply catalog_paths_distinct.
  - by apply elem_of_exports.
Qed.
End ScriptProperties.

(** ** Records with a bad date or without a value *)
Section RecordEdges.
Context {T N : Type} (E : Env T N) {tables : Unicode}.

(** X21.  One date that pandas refuses discards the whole series: line 56
    raises before anything is counted, the [except] clause of the class of
    the exception reports it, and no file is written, however many of the
    observations are good. *)
Theorem bad_date_discards_series (name series_id api_key start_date end_date : string)
    (response : Response) (data obs : pyobj)
    (recs : list (list (string * pyobj))) (e : exn) (s : state) :
  requests_get E (api_url series_id api_key start_date end_date) = inr response →
  raise_for_status response = inr tt →
  json response = inr data →
  py_getitem "observations" data = inr obs →
  as_records obs = Some recs →
  recs ≠ [] →
  Forall (λ r, dict_has "date" r = true ∧ dict_has "value" r = true) recs →
  to_datetime E (record_cell "date" <$> recs) = inl e →
  iteration E api_key start_date end_date (name, series_id) s =
    (inr tt,
     mkState (total_nas_found s)
             (stdout s ++ [Attempting name series_id;
                           match exn_cls e with
                           | RequestException => RequestError series_id e
                           | ValueError => ProcessingError series_id e
                           | _ => UnexpectedError series_id e
                           end])
             (files s)).
Proof.
  intros Hget Hst Hjs Hobs Hrec Hne Hall Hdt.
  destruct (has_both_keys recs Hne Hall) as [Hd Hv].
  rewrite (iteration_records E name series_id api_key start_date end_date
             response data obs recs s Hget Hst Hjs Hobs Hrec Hne Hd Hv).
  by rewrite Hdt.
Qed.

(** X22.  A record without a [value] field, among records of which some
    have one, is treated like a value that is not a number: its cell is
    missing after the coercion (pandas leaves a missing value missing), it
    is counted and reported, and its row is written with a blank cell. *)
Theorem absent_value_counts_as_missing
    (name series_id api_key start_date end_date : string)
    (response : Response) (data obs : pyobj)
    (recs : list (list (string * pyobj))) (dates : list (cell T N))
    (i : nat) (r : list (string * pyobj)) (s : state) :
  requests_get E (api_url series_id api_key start_date end_date) = inr response →
  raise_for_status response = inr tt →
  json response = inr data →
  py_getitem "observations" data = inr obs →
  as_records obs = Some recs →
  "date" ∈ union_keys recs →
  "value" ∈ union_keys recs →
  to_datetime E (record_cell "date" <$> recs) = inr dates →
  open_for_writing E (filename name) = None →
  recs !! i = Some r →
  dict_get "value" r = None →
  to_numeric_value E CNaN = None →
  let it := iteration E api_key start_date end_date (name, series_id) in
  let n := isna_sum (coerced_values E recs) in
  coerced_values E recs !! i = Some CNaN ∧
  0 < n ∧
  total_nas_found (exec it s) = total_nas_found s + n ∧
  FoundNA n series_id ∈ printed it s ∧
  files (exec it s) =
    <[filename name := csv_text (csv_table E (cleaned_frame E series_id recs dates))]>
      (files s) ∧
  (∀ j, kept_keys recs !! j = Some "value" →
        csv_row E (cleaned_frame E series_id recs dates) i !! j = Some "").
Proof.
  intros Hget Hst Hjs Hobs Hrec Hd Hv Hdt Hopen Hr Hnone Hnan. cbv zeta.
  assert (recs ≠ []) as Hne by (by intros ->).
  assert (record_cell (T:=T) (N:=N) "value" r = CNaN) as Hcell.
  { unfold record_cell. by rewrite Hnone. }
  assert (0 < isna_sum (coerced_values E recs)) as Hpos.
  { rewrite isna_sum_coerced.
    assert (r ∈ filter (λ r, to_numeric_value E (record_cell "value" r) = None) recs) as Hin.
    { apply list_elem_of_filter. split; [by rewrite Hcell|]. by eapply list_elem_of_lookup_2. }
    destruct (filter _ recs); [by apply elem_of_nil in Hin | cbn; lia]. }
  pose proof (iteration_records E name series_id api_key start_date end_date
                response data obs recs s Hget Hst Hjs Hobs Hrec Hne Hd Hv) as Hit.
  rewrite Hdt, Hopen in Hit. cbv zeta in Hit.
  split; [|split; [done|split; [|split; [|split]]]].
  - rewrite (coerced_values_lookup E recs i r Hr). by rewrite Hcell, Hnan.
  - unfold exec. by rewrite Hit.
  - rewrite (printed_spec _ _ _ _ _ _ Hit). unfold found_line.
    rewrite bool_decide_eq_true_2 by done.
    apply elem_of_cons. right. apply list_elem_of_here.
  - unfold exec. by rewrite Hit.
  - intros j Hj. rewrite (csv_value_cell E series_id recs dates i j r Hr Hj).
    by rewrite Hcell, Hnan.
Qed.
End RecordEdges.

(** * The further properties on the example environment *)
Section Instances.
Import Example Scenarios.

(** X1 on the example environment: the server answers with status 500. *)
Lemma http_error_reported_witness :
  ∃ e, exn_cls e = RequestException ∧
    iteration (env (flaky unrate_payload) writable) "key" "1990-01-01" "2024-06-30"
      ("Broken", "BROKEN") initial =
      (inr tt,
       mkState (total_nas_found initial)
               (stdout initial ++ [Attempting "Broken" "BROKEN"; RequestError "BROKEN" e])
               (files initial)).
Proof.
  apply (http_error_reported (env (flaky unrate_payload) writable)
           "Broken" "BROKEN" "key" "1990-01-01" "2024-06-30"
           {| status_code := 500; json := inl (Exn ValueError "Expecting value") |} initial).
  - reflexivity.
  - cbn. lia.
Defined.

(** X2 on the example environment: the server cannot be reached. *)
Lemma request_failure_reported_witness :
  iteration (env unreachable writable) "key" "1990-01-01" "2024-06-30" unrate initial =
    (inr tt,
     mkState 0
       ([] ++ [Attempting "Unemployment Rate" "UNRATE";
               RequestError "UNRATE" (Exn RequestException "Connection refused")])
       ∅).
Proof.
  exact (request_failure_reported (env unreachable writable)
           "Unemployment Rate" "UNRATE" "key" "1990-01-01" "2024-06-30"
           (Exn RequestException "Connection refused") initial (or_introl eq_refl)).
Defined.

(** X3 on the example environment: [observations] is [null]. *)
Lemma skipped_exactly_when_witness :
  let it := iteration (env (serve null_payload) writable) "key" "1990-01-01" "2024-06-30"
              unrate in
  (NoObservations "UNRATE" ∈ printed it initial ↔ skipped null_payload = true) ∧
  (skipped null_payload = true →
   it initial =
     (inr tt,
      mkState 0 ([] ++ [Attempting "Unemployment Rate" "UNRATE"; NoObservations "UNRATE"])
        ∅)) ∧
  (∀ d, null_payload = PyDict d →
        skipped null_payload = match dict_get "observations" d with
                               | Some observations => negb (truthy observations)
                               | None => true
                               end).
Proof.
  exact (skipped_exactly_when (env (serve null_payload) writable)
           "Unemployment Rate" "UNRATE" "key" "1990-01-01" "2024-06-30"
           {| status_code := 200; json := inr null_payload |} null_payload initial
           eq_refl eq_refl eq_refl).
Defined.

(** X4 on the example environment: the payload is a list that holds the
    string [observations]. *)
Lemma payload_not_an_object_witness :
  ∃ e, exn_cls e = TypeError ∧
    iteration (env (serve (PyList [PyInt 1; PyStr "observations"])) writable)
      "key" "1990-01-01" "2024-06-30" unrate initial =
      (inr tt,
       mkState 0 ([] ++ [Attempting "Unemployment Rate" "UNRATE";
                         UnexpectedError "UNRATE" e]) ∅).
Proof.
  apply (payload_not_an_object
           (env (serve (PyList [PyInt 1; PyStr "observations"])) writable)
           "Unemployment Rate" "UNRATE" "key" "1990-01-01" "2024-06-30"
           {| status_code := 200; json := inr (PyList [PyInt 1; PyStr "observations"]) |}
           (PyList [PyInt 1; PyStr "observations"]) initial).
  - reflexivity.
  - reflexivity.
  - reflexivity.
  - discriminate.
Defined.

(** A payload that is an empty list is skipped. *)
Example run_list_payload :
  iteration (env (serve (PyList [])) writable) "key" "1990-01-01" "2024-06-30"
    unrate initial =
  (inr tt, mkState 0 [Attempting "Unemployment Rate" "UNRATE"; NoObservations "UNRATE"] ∅).
Proof. by vm_compute. Qed.

(** X5 on the example environment: one observation without a date. *)
Lemma missing_date_field_witness :
  iteration (env (serve (payload_of undated_records)) writable)
    "key" "1990-01-01" "2024-06-30" unrate initial =
    (inr tt,
     mkState 0
       ([] ++ [Attempting "Unemployment Rate" "UNRATE";
               UnexpectedError "UNRATE" (Exn KeyError "'date'")])
       ∅).
Proof.
  apply (missing_date_field (env (serve (payload_of undated_records)) writable)
           "Unemployment Rate" "UNRATE" "key" "1990-01-01" "2024-06-30"
           {| status_code := 200; json := inr (payload_of undated_records) |}
           (payload_of undated_records) (PyList (PyDict <$> undated_records))
           undated_records initial).
  - reflexivity.
  - reflexivity.
  - reflexivity.
  - reflexivity.
  - reflexivity.
  - discriminate.
  - repeat constructor.
Defined.

(** X6 on the example environment: one observation without a value. *)
Lemma missing_value_field_witness :
  iteration (env (serve (payload_of unvalued_records)) writable)
    "key" "1990-01-01" "2024-06-30" unrate initial =
    (inr tt,
     mkState 0
       ([] ++ [Attempting "Unemployment Rate" "UNRATE";
               UnexpectedError "UNRATE" (Exn KeyError "'value'")])
       ∅).
Proof.
  apply (missing_value_field (env (serve (payload_of unvalued_records)) writable)
           "Unemployment Rate" "UNRATE" "key" "1990-01-01" "2024-06-30"
           {| status_code := 200; json := inr (payload_of unvalued_records) |}
           (payload_of unvalued_records) (PyList (PyDict <$> unvalued_records))
           unvalued_records [CDate "2020-01-01"] initial).
  - reflexivity.
  - reflexivity.
  - reflexivity.
  - reflexivity.
  - reflexivity.
  - discriminate.
  - apply (bool_decide_unpack _). vm_compute. exact I.
  - reflexivity.
  - repeat constructor.
Defined.

(** X10 on the example environment: two series, and a file of a third. *)
Lemma run_keeps_other_files_witness :
  let s := mkState 0 [] {["data/nonfarm_payrolls.csv" := "old"]} in
  let run := get_fred_series_and_export_csv (env (by_series two_rates) writable)
               [u3; u6] "key" "1990-01-01" in
  (∀ name, plain_name name = true →
           filename name ∉ (λ item, filename item.1) <$> [u3; u6] →
           files (exec run s) !! filename name = files s !! filename name) ∧
  (∀ p, is_Some (files s !! p) → is_Some (files (exec run s) !! p)).
Proof.
  apply (run_keeps_other_files (env (by_series two_rates) writable)
           [u3; u6] "key" "1990-01-01"
           (mkState 0 [] {["data/nonfarm_payrolls.csv" := "old"]})).
  repeat constructor.
Defined.

(** X11 on the example environment: two series with distinct paths. *)
Lemma distinct_paths_keep_each_export_witness :
  files (exec (get_fred_series_and_export_csv (env (by_series two_rates) writable)
                 [u3; u6] "key" "1990-01-01") initial)
    !! filename "Unemployment Rate U3" =
  match export_of (env (by_series two_rates) writable) "key" "1990-01-01" "2024-06-30" u3 with
  | Some text => Some text
  | None => files initial !! filename "Unemployment Rate U3"
  end.
Proof.
  apply (distinct_paths_keep_each_export (env (by_series two_rates) writable)
           [u3; u6] "key" "1990-01-01" u3 initial).
  - repeat constructor.
  - apply (bool_decide_unpack _). vm_compute. exact I.
  - apply (bool_decide_unpack _). vm_compute. exact I.
Defined.


(** X13 on the example environment: two series in either order. *)
Lemma order_of_entries_irrelevant_witness :
  let E := env (by_series two_rates) writable in
  files (exec (get_fred_series_and_export_csv E [u3; u6] "key" "1990-01-01") initial) =
  files (exec (get_fred_series_and_export_csv E [u6; u3] "key" "1990-01-01") initial) ∧
  total_nas_found
    (exec (get_fred_series_and_export_csv E [u3; u6] "key" "1990-01-01") initial) =
  total_nas_found
    (exec (get_fred_series_and_export_csv E [u6; u3] "key" "1990-01-01") initial).
Proof.
  apply (order_of_entries_irrelevant (env (by_series two_rates) writable)
           [u3; u6] [u6; u3] "key" "1990-01-01" initial).
  - apply perm_swap.
  - repeat constructor.
  - apply (bool_decide_unpack _). vm_compute. exact I.
Defined.

(** X16 on the example environment: no path can be opened. *)
Lemma nothing_written_when_unwritable_witness :
  let E := env (serve mixed_payload) read_only in
  let run := get_fred_series_and_export_csv E [unrate] "key" "1990-01-01" in
  files (exec run initial) = files initial ∧
  (∀ k p, Saved k p ∉ printed run initial) ∧
  total_nas_found (exec run initial) =
    sum_list (missing_count E "key" "1990-01-01" (today E) <$> [unrate]).
Proof.
  apply (nothing_written_when_unwritable (env (serve mixed_payload) read_only)
           [unrate] "key" "1990-01-01" initial).
  repeat constructor. discriminate.
Defined.

(** X20 on the example environment, for the first unemployment rate. *)
Lemma catalog_entries_keep_their_files_witness :
  let E := env (by_series two_rates) writable in
  length fred_series_to_fetch = 41 ∧
  NoDup fred_series_to_fetch.*1 ∧
  Forall (λ item, is_ascii item.1 = true ∧
                  str_has_char (Ascii.eqb "/") item.1 = false) fred_series_to_fetch ∧
  NoDup ((λ item, filename item.1) <$> fred_series_to_fetch) ∧
  disk (script E with_key ∅).2 !! filename u3.1 =
    match export_of E "key" desired_start_date (today E) u3 with
    | Some text => Some text
    | None => (∅ : gmap string string) !! filename u3.1
    end.
Proof.
  apply (catalog_entries_keep_their_files (env (by_series two_rates) writable)
           with_key "key" ∅ u3).
  - reflexivity.
  - apply (bool_decide_unpack _). vm_compute. exact I.
Defined.

(** The script on the example environment: without a key, and with a key
    against a server that knows two of the series. *)
Example script_without_key :
  script (env (by_series two_rates) writable) (λ _, None) ∅ =
  (inr tt, mkProcess key_not_found ∅).
Proof. reflexivity. Qed.

Example script_two_files :
  let p := (script (env (by_series two_rates) writable) with_key ∅).2 in
  length (output p) = 85 ∧
  last (output p) = Some process_completed ∧
  disk p !! "data/unemployment_rate_u3.csv" = Some (unrate_text "UNRATE") ∧
  disk p !! "data/unemployment_rate_u6.csv" = Some (u6_text "U6RATE") ∧
  disk p !! "data/nonfarm_payrolls.csv" = None.
Proof. by vm_compute. Qed.

(** Two names that share a path: the second file replaces the first, and
    both are reported as saved. *)
Example run_shared_path :
  let run := get_fred_series_and_export_csv (env (by_series two_rates) writable)
               [("Unemployment Rate", "UNRATE"); ("unemployment rate", "U6RATE")]
               "key" "1990-01-01" in
  run initial =
  (inr tt,
   mkState 0
     [Attempting "Unemployment Rate" "UNRATE"; Saved 1 "data/unemployment_rate.csv";
      Attempting "unemployment rate" "U6RATE"; Saved 1 "data/unemployment_rate.csv";
      Completed; TotalNA 0]
     {["data/unemployment_rate.csv" := u6_text "U6RATE"]}).
Proof. by vm_compute. Qed.

(** X21 on the example environment: a date that is not one. *)
Lemma bad_date_discards_series_witness :
  iteration (env (serve (payload_of bad_date_records)) writable)
    "key" "1990-01-01" "2024-06-30" unrate initial =
    (inr tt,
     mkState 0
       ([] ++ [Attempting "Unemployment Rate" "UNRATE";
               ProcessingError "UNRATE" (Exn ValueError "Unknown datetime string format")])
       ∅).
Proof.
  apply (bad_date_discards_series (env (serve (payload_of bad_date_records)) writable)
           "Unemployment Rate" "UNRATE" "key" "1990-01-01" "2024-06-30"
           {| status_code := 200; json := inr (payload_of bad_date_records) |}
           (payload_of bad_date_records) (PyList (PyDict <$> bad_date_records))
           bad_date_records (Exn ValueError "Unknown datetime string format") initial).
  - reflexivity.
  - reflexivity.
  - reflexivity.
  - reflexivity.
  - reflexivity.
  - discriminate.
  - repeat constructor.
  - reflexivity.
Defined.

(** X22 on the example environment: the second of two observations has no
    value. *)
Lemma absent_value_counts_as_missing_witness :
  let E := env (serve (payload_of partial_records)) writable in
  let it := iteration E "key" "1990-01-01" "2024-06-30" unrate in
  let n := isna_sum (coerced_values E partial_records) in
  let dates := [CDate "2020-01-01"; CDate "2020-02-01"] in
  coerced_values E partial_records !! 1 = Some CNaN ∧
  0 < n ∧
  total_nas_found (exec it initial) = total_nas_found initial + n ∧
  FoundNA n "UNRATE" ∈ printed it initial ∧
  files (exec it initial) =
    <[filename "Unemployment Rate" :=
        csv_text (csv_table E (cleaned_frame E "UNRATE" partial_records dates))]>
      (files initial) ∧
  (∀ j, kept_keys partial_records !! j = Some "value" →
        csv_row E (cleaned_frame E "UNRATE" partial_records dates) 1 !! j = Some "").
Proof.
  apply (absent_value_counts_as_missing
           (env (serve (payload_of partial_records)) writable)
           "Unemployment Rate" "UNRATE" "key" "1990-01-01" "2024-06-30"
           {| status_code := 200; json := inr (payload_of partial_records) |}
           (payload_of partial_records) (PyList (PyDict <$> partial_records))
           partial_records [CDate "2020-01-01"; CDate "2020-02-01"]
           1 [("date", PyStr "2020-02-01")] initial).
  - reflexivity.
  - reflexivity.
  - reflexivity.
  - reflexivity.
  - reflexivity.
  - apply (bool_decide_unpack _). vm_compute. exact I.
  - apply (bool_decide_unpack _). vm_compute. exact I.
  - reflexivity.
  - reflexivity.
  - reflexivity.
  - reflexivity.
  - reflexivity.
Defined.

(** A record without a value among records with one: two rows, the second
    with a blank cell. *)
Example run_partial :
  let run := get_fred_series_and_export_csv
               (env (serve (payload_of partial_records)) writable)
               [unrate] "key" "1990-01-01" in
  run initial =
  (inr tt,
   mkState 1
     [Attempting "Unemployment Rate" "UNRATE"; FoundNA 1 "UNRATE";
      Saved 2 "data/unemployment_rate.csv"; Completed; TotalNA 1]
     {["data/unemployment_rate.csv" :=
         "date,UNRATE" +:+ newline +:+ "2020-01-01,3.5" +:+ newline +:+
         "2020-02-01," +:+ newline]}).
Proof. by vm_compute. Qed.
End Instances.
